(** * GL2F ledger-mapping pipeline: a shallow embedding of the TypeScript
    services and the properties of the cascade.

    Conventions of the embedding.
    - JavaScript numbers are idealised as rationals ([Q]); NaN and the
      infinities have no counterpart, so a [parseFloat] that fails is an
      explicit [None].
    - JavaScript strings are [string] (8-bit characters); [toLowerCase],
      [trim] and the regular expressions act on their ASCII part.
    - A function whose body is one [try { ... } catch { return v }] is a total
      function built with [JS.try_catch]; a function that can let an
      exception escape returns [JS.result].
    - The two npm packages and the two built-ins the services call
      ([compute-cosine-similarity], [string-similarity], [parseFloat],
      [Date]) are the fields of the class [Runtime]. *)

From Stdlib Require Import String Ascii List Bool Arith ZArith QArith Qminmax Lia Lqa.
From Stdlib Require Import Permutation Sorted.
From Stdlib Require Import DecimalString.
Import ListNotations.

Open Scope string_scope.
Open Scope list_scope.

(* ------------------------------------------------------------------ *)
(** * The JavaScript fragment the services rely on *)

Module JS.

Inductive exn : Type :=
| TypeError (msg : string)
| Error (msg : string).

Inductive result (A : Type) : Type :=
| Ok (a : A)
| Throw (e : exn).
Arguments Ok {A} a.
Arguments Throw {A} e.

Definition bind {A B} (m : result A) (k : A -> result B) : result B :=
  match m with
  | Ok a => k a
  | Throw e => Throw e
  end.

(** [try { return body } catch (e) { return handler e }] *)
Definition try_catch {A} (body : result A) (handler : exn -> A) : A :=
  match body with
  | Ok a => a
  | Throw e => handler e
  end.

(** A value that reaches a similarity routine: the call sites pass both
    strings and number arrays to the same parameters. *)
Inductive value : Type :=
| Str (s : string)
| Arr (v : list Z).

Definition length (x : value) : nat :=
  match x with
  | Str s => String.length s
  | Arr v => List.length v
  end.

(** ** Numbers *)

Definition gt (a b : Q) : bool :=
  match Qcompare a b with Gt => true | _ => false end.

Definition le (a b : Q) : bool :=
  match Qcompare a b with Gt => false | _ => true end.

Definition lt (a b : Q) : bool :=
  match Qcompare a b with Lt => true | _ => false end.

(** [x % m === 0] on a finite number *)
Definition is_multiple (x : Q) (m : Z) : bool :=
  let r := Qred (x / inject_Z m) in
  Pos.eqb (Qden r) 1.

Definition number_eqb (a b : Q) : bool := Qeq_bool a b.

(** Template-literal rendering of an integer *)
Definition string_of_Z (z : Z) : string := NilZero.string_of_int (Z.to_int z).

(** ** Characters and strings *)

Definition code (c : ascii) : nat := nat_of_ascii c.

Definition between (lo hi n : nat) : bool := Nat.leb lo n && Nat.leb n hi.

Definition is_upper (c : ascii) : bool := between 65 90 (code c).
Definition is_lower (c : ascii) : bool := between 97 122 (code c).
Definition is_digit (c : ascii) : bool := between 48 57 (code c).
(** [\s]: tab, line feed, vertical tab, form feed, carriage return, space *)
Definition is_space (c : ascii) : bool :=
  between 9 13 (code c) || Nat.eqb (code c) 32.

Definition lower_char (c : ascii) : ascii :=
  if is_upper c then ascii_of_nat (code c + 32) else c.

Definition chars (s : string) : list ascii := list_ascii_of_string s.
Definition str (l : list ascii) : string := string_of_list_ascii l.

Definition toLowerCase (s : string) : string := str (map lower_char (chars s)).

Fixpoint drop_while {A} (p : A -> bool) (l : list A) : list A :=
  match l with
  | [] => []
  | x :: l' => if p x then drop_while p l' else l
  end.

Definition trim (s : string) : string :=
  str (rev (drop_while is_space (rev (drop_while is_space (chars s))))).

(** [s.replace(/[^...]/g, '')]: keep the characters accepted by [keep] *)
Definition keep_chars (keep : ascii -> bool) (s : string) : string :=
  str (filter keep (chars s)).

(** [s.replace(/^0+/, '')] *)
Definition strip_leading_zeros (s : string) : string :=
  str (drop_while (fun c => Nat.eqb (code c) 48) (chars s)).

(** [s.split(/[sep]+/)]: the pieces between the maximal runs of separator
    characters; a leading or trailing run leaves an empty piece, and the
    empty string splits into one empty piece. *)
Fixpoint split_go (sep : ascii -> bool) (cs : list ascii) (cur : list ascii)
         (in_sep : bool) : list string :=
  match cs with
  | [] => [str (rev cur)]
  | c :: cs' =>
      if sep c then
        if in_sep then split_go sep cs' cur true
        else str (rev cur) :: split_go sep cs' [] true
      else split_go sep cs' (c :: cur) false
  end.

Definition split (sep : ascii -> bool) (s : string) : list string :=
  split_go sep (chars s) [] false.

Fixpoint join (sep : string) (l : list string) : string :=
  match l with
  | [] => ""
  | [x] => x
  | x :: l' => x ++ sep ++ join sep l'
  end.

Fixpoint prefix_chars (p s : list ascii) : bool :=
  match p, s with
  | [], _ => true
  | _ :: _, [] => false
  | a :: p', b :: s' => Ascii.eqb a b && prefix_chars p' s'
  end.

Fixpoint includes_chars (p s : list ascii) : bool :=
  prefix_chars p s ||
  match s with
  | [] => false
  | _ :: s' => includes_chars p s'
  end.

(** [/(p)/.test(s)] and [/(p)$/.test(s)] for a literal [p] *)
Definition includes (s p : string) : bool := includes_chars (chars p) (chars s).
Definition endsWith (s p : string) : bool :=
  prefix_chars (rev (chars p)) (rev (chars s)).

(** [x || ''] and [if (x)] on an optional string: the empty string is falsy *)
Definition or_empty (x : option string) : string :=
  match x with Some s => s | None => "" end.
Definition truthy (x : option string) : bool :=
  match x with Some s => negb (String.eqb s "") | None => false end.

(** ** Arrays *)

Definition array_includes (l : list string) (x : string) : bool :=
  existsb (String.eqb x) l.

Fixpoint indexOf (l : list string) (x : string) : option nat :=
  match l with
  | [] => None
  | y :: l' => if String.eqb y x then Some 0%nat
               else option_map S (indexOf l' x)
  end.

Fixpoint increment_at (v : list Z) (i : nat) : list Z :=
  match v, i with
  | [], _ => []
  | n :: v', O => (n + 1)%Z :: v'
  | n :: v', S i' => n :: increment_at v' i'
  end.

(** [l.sort((a, b) => key b - key a)]: the sort is stable, so elements of
    equal key keep their order. *)
Fixpoint insert_desc {A} (key : A -> Q) (x : A) (l : list A) : list A :=
  match l with
  | [] => [x]
  | y :: l' => if gt (key y) (key x) then y :: insert_desc key x l' else x :: l
  end.

Definition sort_desc {A} (key : A -> Q) (l : list A) : list A :=
  fold_right (insert_desc key) [] l.

(** ** [Map<string, V>]: entries in insertion order; [set] on a present key
    replaces the value in place. *)
Definition Map (V : Type) : Type := list (string * V).

Fixpoint Map_get {V} (m : Map V) (k : string) : option V :=
  match m with
  | [] => None
  | (k', v) :: m' => if String.eqb k' k then Some v else Map_get m' k
  end.

Fixpoint Map_set {V} (m : Map V) (k : string) (v : V) : Map V :=
  match m with
  | [] => [(k, v)]
  | (k', v') :: m' =>
      if String.eqb k' k then (k, v) :: m' else (k', v') :: Map_set m' k v
  end.

(** [new Set<string>()] with [add], in insertion order *)
Definition Set_add (s : list string) (x : string) : list string :=
  if array_includes s x then s else s ++ [x].

(** [m.delete(k)] *)
Fixpoint Map_delete {V} (m : Map V) (k : string) : Map V :=
  match m with
  | [] => []
  | (k', v') :: m' =>
      if String.eqb k' k then m' else (k', v') :: Map_delete m' k
  end.

(** [new Set(l)] *)
Definition Set_of (l : list string) : list string := fold_left Set_add l [].

(** [s.split(':')[0]]: what precedes the first colon *)
Fixpoint until_colon (cs : list ascii) : list ascii :=
  match cs with
  | [] => []
  | c :: cs' => if Nat.eqb (code c) 58 then [] else c :: until_colon cs'
  end.

Definition before_colon (s : string) : string := str (until_colon (chars s)).

End JS.

Notation "x <- m ;; k" := (JS.bind m (fun x => k))
  (at level 61, m at next level, right associativity).

(* ------------------------------------------------------------------ *)
(** * Data model *)

Inductive EntryType : Type := debit | credit.

Definition EntryType_eqb (a b : EntryType) : bool :=
  match a, b with
  | debit, debit | credit, credit => true
  | _, _ => false
  end.

Definition EntryType_name (t : EntryType) : string :=
  match t with debit => "debit" | credit => "credit" end.

(** Modelled from the spec: the declarations of [types/accounting] and
    [types/ledger] are not among the sources; the records follow section 3 of
    the specification and the fields the services read.  An account type is
    its string tag, as [getAmountRangeScore] treats it. *)
Module Account.
Record t : Type := mk {
  id : string;
  code : string;
  name : string;
  description : option string;
  type : string;
  subtype : string;
  isActive : bool
}.

Definition eq_dec (a b : t) : {a = b} + {a <> b}.
Proof.
  decide equality; try apply string_dec; try apply bool_dec.
  decide equality; apply string_dec.
Defined.

Definition eqb (a b : t) : bool := if eq_dec a b then true else false.
End Account.

(** Modelled from the spec: [AccountingStandard] of [types/accounting], a
    name and the sign conventions keyed by account type. *)
Module AccountingStandard.
Record SignConvention : Type := { normalBalance : EntryType }.

Record t : Type := mk {
  name : string;
  signConventions : list (string * SignConvention)
}.

(** [standard.signConventions[accountType]] *)
Definition convention (s : t) (accountType : string) : option SignConvention :=
  JS.Map_get (signConventions s) accountType.
End AccountingStandard.

(** Modelled from the spec: [TransactionEntry] of [types/ledger]; the amount
    is the decimal string the services hand to [parseFloat]. *)
Module TransactionEntry.
Record t : Type := mk {
  accountNumber : string;
  type : EntryType;
  amount : string
}.
End TransactionEntry.

(** Modelled from the spec: [Transaction] of [types/ledger]. *)
Module Transaction.
Record t : Type := mk {
  id : string;
  description : string;
  customerName : option string;
  date : string;
  entries : list TransactionEntry.t
}.

(** [transaction.entries.find(e => e.type === ty)] *)
Definition find_entry (tx : t) (ty : EntryType) : option TransactionEntry.t :=
  find (fun e => EntryType_eqb (TransactionEntry.type e) ty) (entries tx).
End Transaction.

(** The calendar fields a [Date] object answers with. *)
Record JsDate : Type := {
  getFullYear : Z;
  getMonth : Z;       (* 0 .. 11 *)
  getDate : Z;        (* 1 .. 31 *)
  getDay : Z          (* 0 = Sunday .. 6 = Saturday *)
}.

(** What the services import from outside the repository. *)
Class Runtime : Type := {
  (** npm [compute-cosine-similarity] *)
  computeCosineSimilarity : JS.value -> JS.value -> JS.result Q;
  (** npm [string-similarity], [compareTwoStrings] *)
  compareTwoStrings : string -> string -> Q;
  (** [parseFloat]; [None] stands for NaN *)
  parseFloat : string -> option Q;
  (** [new Date(s)] read through its local-time getters *)
  newDate : string -> JsDate
}.

(* ------------------------------------------------------------------ *)
(** * textProcessing.ts *)

Module TextProcessor.

Definition stopWords : list string :=
  ["a"; "an"; "and"; "are"; "as"; "at"; "be"; "by"; "for";
   "from"; "has"; "he"; "in"; "is"; "it"; "its"; "of"; "on";
   "that"; "the"; "to"; "was"; "were"; "will"; "with"].

Definition processText (text : string) : list string :=
  let words :=
    filter (fun word => Nat.ltb 0 (String.length word))
      (JS.split JS.is_space
         (JS.keep_chars
            (fun c => JS.is_lower c || JS.is_digit c || JS.is_space c)
            (JS.toLowerCase text))) in
  filter (fun word => negb (JS.array_includes stopWords word)) words.

Definition createVector (text : string) (vocabulary : list string) : list Z :=
  let words := processText text in
  let vector := repeat 0%Z (List.length vocabulary) in
  fold_left
    (fun vector word =>
       match JS.indexOf vocabulary word with
       | Some index => JS.increment_at vector index
       | None => vector
       end)
    words vector.

(** [text1.toLowerCase()] is evaluated first; an array has no such method. *)
Definition calculateSimilarity `{Runtime} (text1 text2 : JS.value) : JS.result Q :=
  match text1, text2 with
  | JS.Str t1, JS.Str t2 =>
      JS.Ok (compareTwoStrings (JS.toLowerCase t1) (JS.toLowerCase t2))
  | JS.Arr _, _ => JS.Throw (JS.TypeError "text1.toLowerCase is not a function")
  | JS.Str _, JS.Arr _ => JS.Throw (JS.TypeError "text2.toLowerCase is not a function")
  end.

Definition buildVocabulary (texts : list string) : list string :=
  fold_left
    (fun vocabulary text => fold_left JS.Set_add (processText text) vocabulary)
    texts [].

Definition extractKeyPhrases (text : string) : list string :=
  let words := processText text in
  let frequencies :=
    fold_left
      (fun (frequencies : JS.Map Z) word =>
         JS.Map_set frequencies word
           (match JS.Map_get frequencies word with Some n => n | None => 0 end + 1)%Z)
      words [] in
  map fst (firstn 5 (JS.sort_desc (fun e => inject_Z (snd e)) frequencies)).

End TextProcessor.

(* ------------------------------------------------------------------ *)
(** * similarityCalculator.ts *)

Module SimilarityCalculator.

Definition calculateSimilarity `{Runtime} (vector1 vector2 : JS.value) : JS.result Q :=
  if negb (Nat.eqb (JS.length vector1) (JS.length vector2)) then
    JS.Throw (JS.Error "Vectors must have the same length")
  else computeCosineSimilarity vector1 vector2.

(** The value computed when the cache has no entry for the pair; the cache
    itself is [CachedSimilarity] below. *)
Definition calculateTextSimilarity `{Runtime} (text1 text2 : string) : JS.result Q :=
  TextProcessor.calculateSimilarity (JS.Str text1) (JS.Str text2).

End SimilarityCalculator.

(* ------------------------------------------------------------------ *)
(** * accountPatternBuilder.ts *)

Definition account_text (account : Account.t) : string :=
  Account.name account ++ " " ++ JS.or_empty (Account.description account)
    ++ " " ++ Account.type account ++ " " ++ Account.subtype account.

Module AccountPatternBuilder.

Record AccountPattern : Type := {
  code : string;
  type : string;
  keywords : list string;
  description : string;
  vector : list Z
}.

Record t : Type := mk {
  patterns : JS.Map AccountPattern;
  vocabulary : list string
}.

Definition empty : t := mk [] [].

Definition buildVocabulary (accounts : list Account.t) : list string :=
  TextProcessor.buildVocabulary (map account_text accounts).

Definition createPattern (vocabulary : list string) (account : Account.t)
  : AccountPattern :=
  let text := account_text account in
  {| code := Account.code account;
     type := Account.type account;
     keywords := TextProcessor.extractKeyPhrases text;
     description := text;
     vector := TextProcessor.createVector text vocabulary |}.

Definition buildPatterns (this : t) (accounts : list Account.t) : t :=
  let vocabulary := buildVocabulary accounts in
  mk (fold_left
        (fun patterns account =>
           JS.Map_set patterns (Account.id account) (createPattern vocabulary account))
        accounts (patterns this))
     vocabulary.

Record Similar : Type := { accountId : string; similarity : Q }.

(** [arr.slice(0, limit)] *)
Definition slice0 {A} (l : list A) (limit : Z) : list A :=
  if (0 <=? limit)%Z then firstn (Z.to_nat limit) l
  else firstn (Z.to_nat (Z.of_nat (List.length l) + limit)) l.

Fixpoint map_result {A B} (f : A -> JS.result B) (l : list A) : JS.result (list B) :=
  match l with
  | [] => JS.Ok []
  | x :: l' =>
      y <- f x ;;
      ys <- map_result f l' ;;
      JS.Ok (y :: ys)
  end.

Definition findSimilarAccounts `{Runtime} (this : t) (text : string)
           (type_ : option string) (limit : option Z) : JS.result (list Similar) :=
  let limit := match limit with Some n => n | None => 5%Z end in
  let inputVector := TextProcessor.createVector text (vocabulary this) in
  scored <-
    map_result
      (fun '(accountId, pattern) =>
         similarity <- TextProcessor.calculateSimilarity
                         (JS.Arr inputVector) (JS.Arr (vector pattern)) ;;
         JS.Ok {| accountId := accountId; similarity := similarity |})
      (filter
         (fun '(_, pattern) =>
            negb (JS.truthy type_) || String.eqb (type pattern) (JS.or_empty type_))
         (patterns this)) ;;
  JS.Ok (slice0 (JS.sort_desc similarity scored) limit).

End AccountPatternBuilder.

(* ------------------------------------------------------------------ *)
(** * transactionFeatureExtractor.ts *)

Module TransactionFeature.
Inductive value_t : Type :=
| VStr (s : string)
| VNum (n : Z).

Record t : Type := mk {
  type : string;
  value : value_t;
  weight : Q
}.

(** [{ ...f, weight: w }] *)
Definition with_weight (w : Q) (f : t) : t := mk (type f) (value f) w.

(** [`${f.type}:${f.value}`] *)
Definition key (f : t) : string :=
  type f ++ ":" ++ match value f with VStr s => s | VNum n => JS.string_of_Z n end.
End TransactionFeature.

Module TransactionFeatureExtractor.
Import TransactionFeature.

Definition verySmall : Q := 100.
Definition small : Q := 1000.
Definition medium : Q := 10000.
Definition large : Q := 100000.

Fixpoint word_pairs (words : list string) : list t :=
  match words with
  | w1 :: ((w2 :: _) as rest) =>
      mk "description_word_pair" (VStr (w1 ++ "_" ++ w2)) 1.2 :: word_pairs rest
  | _ => []
  end.

Definition extractDescriptionFeatures (description : string) : list t :=
  let words := TextProcessor.processText description in
  map (fun word => mk "description_word" (VStr word) 1) words ++ word_pairs words.

(** A comparison with NaN is false. *)
Definition num_le (amount : option Q) (bound : Q) : bool :=
  match amount with Some a => JS.le a bound | None => false end.

Definition getAmountRange (amount : option Q) : string :=
  if num_le amount verySmall then "very_small"
  else if num_le amount small then "small"
  else if num_le amount medium then "medium"
  else if num_le amount large then "large"
  else "very_large".

Definition is_multiple (amount : option Q) (m : Z) : bool :=
  match amount with Some a => JS.is_multiple a m | None => false end.

Definition isCommonAmount (amount : option Q) : bool :=
  let commonAmounts : list Q := [10; 20; 50; 100; 500; 1000]%Q in
  match amount with
  | Some a => existsb (JS.number_eqb a) commonAmounts
  | None => false
  end || is_multiple amount 100.

Definition extractAmountFeatures `{Runtime} (transaction : Transaction.t) : list t :=
  let debitEntry := Transaction.find_entry transaction debit in
  let amount :=
    match debitEntry with
    | Some e => parseFloat (TransactionEntry.amount e)
    | None => Some 0%Q
    end in
  [mk "amount_range" (VStr (getAmountRange amount)) 1]
    ++ (if is_multiple amount 1
        then [mk "amount_type" (VStr "whole_number") 1.2] else [])
    ++ (if isCommonAmount amount
        then [mk "amount_type" (VStr "common_amount") 1.5] else []).

Definition vendorPatterns : list ((string -> bool) * string) :=
  [ (fun v => existsb (JS.endsWith (JS.toLowerCase v))
                ["inc"; "corp"; "ltd"; "llc"], "company");
    (fun v => existsb (JS.endsWith (JS.toLowerCase v))
                ["store"; "shop"; "mart"; "market"], "retail");
    (fun v => existsb (JS.includes (JS.toLowerCase v))
                ["bank"; "credit union"; "financial"], "financial");
    (fun v => existsb (JS.includes (JS.toLowerCase v))
                ["restaurant"; "cafe"; "diner"], "food_service");
    (fun v => existsb (JS.includes (JS.toLowerCase v))
                ["service"; "consulting"; "professional"], "service") ].

Definition detectVendorTypes (vendor : string) : list string :=
  map snd (filter (fun '(pattern, _) => pattern vendor) vendorPatterns).

Definition extractVendorFeatures (vendor : string) : list t :=
  let normalizedVendor := JS.trim (JS.toLowerCase vendor) in
  mk "vendor" (VStr normalizedVendor) 1
    :: map (fun type_ => mk "vendor_type" (VStr type_) 1.2)
         (detectVendorTypes normalizedVendor).

Definition is_leap (year : Z) : bool :=
  ((year mod 4 =? 0) && negb (year mod 100 =? 0) || (year mod 400 =? 0))%Z.

(** [new Date(year, month + 1, 0).getDate()] for [month] in 0..11 *)
Definition lastDayOfMonth (year month : Z) : Z :=
  if (month =? 1)%Z then (if is_leap year then 29 else 28)%Z
  else if ((month =? 3) || (month =? 5) || (month =? 8) || (month =? 10))%Z
       then 30%Z else 31%Z.

Definition isMonthBoundary (date : JsDate) : bool :=
  let day := getDate date in
  ((day =? 1) || (day =? lastDayOfMonth (getFullYear date) (getMonth date)))%Z.

Definition isWeekend (date : JsDate) : bool :=
  let day := getDay date in
  ((day =? 0) || (day =? 6))%Z.

Definition extractDateFeatures `{Runtime} (date : string) : list t :=
  let dateObj := newDate date in
  [mk "day_of_week" (VNum (getDay dateObj)) 1;
   mk "day_of_month" (VNum (getDate dateObj)) 1]
    ++ (if isMonthBoundary dateObj
        then [mk "date_type" (VStr "month_boundary") 1.5] else [])
    ++ (if isWeekend dateObj
        then [mk "date_type" (VStr "weekend") 1.2] else []).

(** Nothing in the [try] block throws on a transaction of the declared
    type, so the [catch] branch is not represented. *)
Definition extractFeatures `{Runtime} (transaction : Transaction.t) : list t :=
  map (with_weight 0.35) (extractDescriptionFeatures (Transaction.description transaction))
    ++ map (with_weight 0.25) (extractAmountFeatures transaction)
    ++ (if JS.truthy (Transaction.customerName transaction)
        then map (with_weight 0.20)
               (extractVendorFeatures (JS.or_empty (Transaction.customerName transaction)))
        else [])
    ++ map (with_weight 0.15) (extractDateFeatures (Transaction.date transaction))
    ++ [mk "transaction_type"
          (VStr (match Transaction.entries transaction with
                 | e :: _ => EntryType_name (TransactionEntry.type e)
                 | [] => "unknown"
                 end))
          0.05].

End TransactionFeatureExtractor.

(* ------------------------------------------------------------------ *)
(** * Results and log entries *)

(** The object a result carries for an account: an element of the chart of
    accounts, or the literal [{ id } as Account] that has no other field. *)
Inductive AccountObject : Type :=
| FullAccount (account : Account.t)
| IdOnly (id : string).

Module MappingResult.
Record t : Type := mk {
  debitAccount : option AccountObject;
  creditAccount : option AccountObject;
  confidence : Q
}.

(** [{ confidence: 0 }] *)
Definition unmapped : t := mk None None 0.
End MappingResult.

Inductive LogLevel : Type := info | warning | error.

Record LogEntry : Type := { level : LogLevel; message : string }.

(* ------------------------------------------------------------------ *)
(** * accountMatcher.ts *)

Module AccountMatcher.

Record t : Type := mk {
  accounts : list Account.t;
  standard : option AccountingStandard.t;
  accountPatterns : JS.Map (list string)
}.

Definition empty : t := mk [] None [].

(** The character class [[\s-_]] *)
Definition is_separator (c : ascii) : bool :=
  JS.is_space c || Nat.eqb (JS.code c) 45 || Nat.eqb (JS.code c) 95.

Definition extractAccountPatterns (account : Account.t) : list string :=
  let patterns := JS.Set_add [] (JS.toLowerCase (Account.code account)) in
  let patterns :=
    fold_left JS.Set_add
      (JS.split is_separator (JS.toLowerCase (Account.name account))) patterns in
  let patterns :=
    if JS.truthy (Account.description account) then
      fold_left JS.Set_add
        (JS.split is_separator
           (JS.toLowerCase (JS.or_empty (Account.description account))))
        patterns
    else patterns in
  JS.Set_add (JS.Set_add patterns (Account.type account)) (Account.subtype account).

Definition initialize (accounts : list Account.t) (standard : AccountingStandard.t) : t :=
  mk accounts (Some standard)
     (fold_left
        (fun patterns account =>
           JS.Map_set patterns (Account.id account) (extractAccountPatterns account))
        accounts []).

Definition findExactMatch (this : t) (accountNumber : string) : option Account.t :=
  find (fun account =>
          String.eqb (Account.code account) accountNumber && Account.isActive account)
       (accounts this).

(** [.replace(/\D/g, '').replace(/^0+/, '')] *)
Definition normalizeCode (s : string) : string :=
  JS.strip_leading_zeros (JS.keep_chars JS.is_digit s).

Definition findFuzzyCodeMatch (this : t) (accountNumber : string) : option Account.t :=
  let normalizedInput := normalizeCode accountNumber in
  find (fun account =>
          let normalizedCode := normalizeCode (Account.code account) in
          String.eqb normalizedCode normalizedInput && Account.isActive account)
       (accounts this).

Definition ranges : list (string * (Q * Q * Q)) :=
  [ ("asset", (1000, 10000, 100000));
    ("liability", (1000, 10000, 100000));
    ("expense", (100, 1000, 10000));
    ("revenue", (100, 1000, 10000)) ]%Q.

(** What an object literal inherits: [ranges[k]] is a function or an object,
    hence truthy, for these keys, and its [small], [medium] and [large] are
    [undefined]. *)
Definition inheritedKeys : list string :=
  ["constructor"; "hasOwnProperty"; "isPrototypeOf"; "propertyIsEnumerable";
   "toLocaleString"; "toString"; "valueOf"; "__proto__";
   "__defineGetter__"; "__defineSetter__"; "__lookupGetter__"; "__lookupSetter__"].

Definition getAmountRangeScore (amount : option Q) (accountType : string) : Q :=
  match JS.Map_get ranges accountType with
  | None => if JS.array_includes inheritedKeys accountType then 0.4 else 0.5
  | Some (small, medium, large) =>
      if TransactionFeatureExtractor.num_le amount small then 1
      else if TransactionFeatureExtractor.num_le amount medium then 0.8
      else if TransactionFeatureExtractor.num_le amount large then 0.6
      else 0.4
  end.

Record Scored : Type := { account : Account.t; score : Q }.

Definition scoreAccount `{Runtime} (this : t) (description : string)
           (processedDescription : list string) (entryType : EntryType)
           (amount : option Q) (account : Account.t) : JS.result Scored :=
  let patterns :=
    match JS.Map_get (accountPatterns this) (Account.id account) with
    | Some p => p
    | None => []
    end in
  let matchingPatterns :=
    filter (fun pattern => JS.array_includes processedDescription pattern) patterns in
  let score :=
    (inject_Z (Z.of_nat (List.length matchingPatterns))
     / inject_Z (Z.of_nat (List.length patterns))) * 0.4 in
  similarity <-
    SimilarityCalculator.calculateSimilarity
      (JS.Str description)
      (JS.Str (Account.name account ++ " " ++ JS.or_empty (Account.description account))) ;;
  let score := score + similarity * 0.3 in
  let score :=
    match standard this with
    | Some standard =>
        match AccountingStandard.convention standard (Account.type account) with
        | Some signConvention =>
            if EntryType_eqb (AccountingStandard.normalBalance signConvention) entryType
            then score + 0.2 else score
        | None => score
        end
    | None => score
    end in
  let score := score + getAmountRangeScore amount (Account.type account) * 0.1 in
  JS.Ok {| account := account; score := score |}.

Definition findDescriptionMatch `{Runtime} (this : t) (description : string)
           (entryType : EntryType) (amount : option Q) : JS.result (option Account.t) :=
  let processedDescription := TextProcessor.processText description in
  scores <-
    AccountPatternBuilder.map_result
      (scoreAccount this description processedDescription entryType amount)
      (filter Account.isActive (accounts this)) ;;
  JS.Ok match JS.sort_desc score scores with
        | best :: _ => if JS.gt (score best) 0.6 then Some (account best) else None
        | [] => None
        end.

Definition validateAccountMatch (this : t) (account : Account.t)
           (entry : TransactionEntry.t) : bool :=
  match standard this with
  | None => true
  | Some standard =>
      match AccountingStandard.convention standard (Account.type account) with
      | None => false
      | Some signConvention =>
          EntryType_eqb (TransactionEntry.type entry)
                        (AccountingStandard.normalBalance signConvention)
      end
  end.

Definition validated (this : t) (candidate : Account.t) (entry : TransactionEntry.t)
  : option Account.t :=
  if validateAccountMatch this candidate entry then Some candidate else None.

(** The [try] block of [findMatchingAccount] *)
Definition findMatchingAccount_try `{Runtime} (this : t) (entry : TransactionEntry.t)
           (transaction : Transaction.t) : JS.result (option Account.t) :=
  match findExactMatch this (TransactionEntry.accountNumber entry) with
  | Some exactMatch => JS.Ok (validated this exactMatch entry)
  | None =>
      match findFuzzyCodeMatch this (TransactionEntry.accountNumber entry) with
      | Some fuzzyMatch => JS.Ok (validated this fuzzyMatch entry)
      | None =>
          descriptionMatch <-
            findDescriptionMatch this (Transaction.description transaction)
              (TransactionEntry.type entry)
              (parseFloat (TransactionEntry.amount entry)) ;;
          match descriptionMatch with
          | Some descriptionMatch => JS.Ok (validated this descriptionMatch entry)
          | None => JS.Ok None
          end
      end
  end.

Definition findMatchingAccount `{Runtime} (this : t) (entry : TransactionEntry.t)
           (transaction : Transaction.t) : option Account.t :=
  JS.try_catch (findMatchingAccount_try this entry transaction) (fun _ => None).

End AccountMatcher.

(* ------------------------------------------------------------------ *)
(** * transactionPatternMatcher.ts *)

Module TransactionPatternMatcher.

Record Pattern : Type := { debit : string; credit : string }.

Record PatternMatch : Type := {
  accountId : string;
  confidence : Q;
  reason : string
}.

Record Matches : Type := {
  debitMatches : list PatternMatch;
  creditMatches : list PatternMatch
}.

Record t : Type := mk {
  historicalPatterns : JS.Map Pattern;
  vendorPatterns : JS.Map Pattern;
  accountUsageFrequency : JS.Map Z
}.

Definition initialize : t := mk [] [] [].

Definition normalizeText (text : string) : string := JS.trim (JS.toLowerCase text).

Definition incrementAccountUsage (usage : JS.Map Z) (accountId : string) : JS.Map Z :=
  JS.Map_set usage accountId
    (match JS.Map_get usage accountId with Some n => n | None => 0 end + 1)%Z.

Definition learnFromTransaction (this : t) (transaction : Transaction.t)
           (debitAccountId creditAccountId : string) : t :=
  let pattern := {| debit := debitAccountId; credit := creditAccountId |} in
  let normalizedDesc := normalizeText (Transaction.description transaction) in
  mk (JS.Map_set (historicalPatterns this) normalizedDesc pattern)
     (if JS.truthy (Transaction.customerName transaction) then
        JS.Map_set (vendorPatterns this)
          (normalizeText (JS.or_empty (Transaction.customerName transaction))) pattern
      else vendorPatterns this)
     (incrementAccountUsage
        (incrementAccountUsage (accountUsageFrequency this) debitAccountId)
        creditAccountId).

Definition findHistoricalMatch (this : t) (transaction : Transaction.t) : option Pattern :=
  JS.Map_get (historicalPatterns this)
    (normalizeText (Transaction.description transaction)).

Definition findVendorMatch (this : t) (transaction : Transaction.t) : option Pattern :=
  if negb (JS.truthy (Transaction.customerName transaction)) then None
  else JS.Map_get (vendorPatterns this)
         (normalizeText (JS.or_empty (Transaction.customerName transaction))).

Definition push (results : Matches) (debits credits : list PatternMatch) : Matches :=
  {| debitMatches := debitMatches results ++ debits;
     creditMatches := creditMatches results ++ credits |}.

Definition both (pattern : Pattern) (confidence : Q) (reason : string) (results : Matches)
  : Matches :=
  push results
    [{| accountId := debit pattern; confidence := confidence; reason := reason |}]
    [{| accountId := credit pattern; confidence := confidence; reason := reason |}].

(** The [for ... of this.historicalPatterns.entries()] loop *)
Fixpoint similar_loop `{Runtime} (transaction : Transaction.t)
         (entries : JS.Map Pattern) (results : Matches) : JS.result Matches :=
  match entries with
  | [] => JS.Ok results
  | (desc, pattern) :: rest =>
      similarity <-
        SimilarityCalculator.calculateSimilarity
          (JS.Str (Transaction.description transaction)) (JS.Str desc) ;;
      similar_loop transaction rest
        (if JS.gt similarity 0.7
         then both pattern (similarity * 0.85) "Similar description match" results
         else results)
  end.

Definition findSimilarDescriptionMatches `{Runtime} (this : t)
           (transaction : Transaction.t) : JS.result Matches :=
  similar_loop transaction (historicalPatterns this)
    {| debitMatches := []; creditMatches := [] |}.

Definition getFrequencyBasedMatches (this : t) : list PatternMatch :=
  let sortedAccounts :=
    firstn 5 (JS.sort_desc (fun e => inject_Z (snd e)) (accountUsageFrequency this)) in
  map (fun '(accountId, frequency) =>
         {| accountId := accountId;
            confidence :=
              0.5 + inject_Z frequency
                    / inject_Z (Z.of_nat (List.length (historicalPatterns this)) * 2);
            reason := "Frequently used account" |})
      sortedAccounts.

(** The candidates pushed before the similarity scan *)
Definition exactMatches (this : t) (transaction : Transaction.t) : Matches :=
  let results := {| debitMatches := []; creditMatches := [] |} in
  let results :=
    match findHistoricalMatch this transaction with
    | Some historicalMatch => both historicalMatch 0.95 "Historical pattern match" results
    | None => results
    end in
  match findVendorMatch this transaction with
  | Some vendorMatch => both vendorMatch 0.9 "Vendor pattern match" results
  | None => results
  end.

(** [results] is filled in place, and the [catch] branch returns it as it
    stands when the exception arrives. *)
Definition findMatches `{Runtime} (this : t) (transaction : Transaction.t) : Matches :=
  let results := exactMatches this transaction in
  JS.try_catch
    (similarMatches <- findSimilarDescriptionMatches this transaction ;;
     let results :=
       push results (debitMatches similarMatches) (creditMatches similarMatches) in
     let frequencyMatches := getFrequencyBasedMatches this in
     JS.Ok (push results frequencyMatches frequencyMatches))
    (fun _ => results).

End TransactionPatternMatcher.

(* ------------------------------------------------------------------ *)
(** * ragMapper.ts *)

Module RAGMapper.

Record t : Type := mk {
  accounts : list Account.t;
  standard : option AccountingStandard.t;
  accountEmbeddings : JS.Map (list Z);
  vocabulary : list string
}.

Definition empty : t := mk [] None [] [].

Definition buildVocabulary (accounts : list Account.t) : list string :=
  TextProcessor.buildVocabulary (map account_text accounts).

Definition createAccountEmbeddings (vocabulary : list string)
           (accounts : list Account.t) : JS.Map (list Z) :=
  fold_left
    (fun embeddings account =>
       JS.Map_set embeddings (Account.id account)
         (TextProcessor.createVector (account_text account) vocabulary))
    accounts [].

Definition initialize (accounts : list Account.t) (standard : AccountingStandard.t) : t :=
  let vocabulary := buildVocabulary accounts in
  mk accounts (Some standard) (createAccountEmbeddings vocabulary accounts) vocabulary.

Definition createTransactionEmbedding (this : t) (transaction : Transaction.t)
           (features : list TransactionFeature.t) : list Z :=
  let text :=
    JS.join " "
      ([Transaction.description transaction;
        JS.or_empty (Transaction.customerName transaction)]
         ++ map TransactionFeature.key features) in
  TextProcessor.createVector text (vocabulary this).

Definition getSignConventionBoost (normalBalance : EntryType) (amount : option Q) : Q :=
  match amount with
  | Some amount =>
      if (JS.gt amount 0 && EntryType_eqb normalBalance debit)
         || (JS.lt amount 0 && EntryType_eqb normalBalance credit)
      then 1.2 else 0.8
  | None => 0.8
  end.

Definition normal_balance_is (this : t) (account : option Account.t) (side : EntryType)
  : bool :=
  match standard this, account with
  | Some standard, Some account =>
      match AccountingStandard.convention standard (Account.type account) with
      | Some signConvention =>
          EntryType_eqb (AccountingStandard.normalBalance signConvention) side
      | None => false
      end
  | _, _ => false
  end.

Definition isValidDebitAccount (this : t) (account : option Account.t) : bool :=
  normal_balance_is this account debit.

Definition isValidCreditAccount (this : t) (account : option Account.t) : bool :=
  normal_balance_is this account credit.

Record Scored : Type := { account : option Account.t; similarity : Q }.

Definition scoreEmbedding `{Runtime} (this : t) (transactionEmbedding : list Z)
           (debitEntry : TransactionEntry.t) (entry : string * list Z)
  : JS.result Scored :=
  let '(accountId, embedding) := entry in
  similarity <-
    SimilarityCalculator.calculateSimilarity
      (JS.Arr transactionEmbedding) (JS.Arr embedding) ;;
  let account :=
    find (fun a => String.eqb (Account.id a) accountId) (accounts this) in
  match account, standard this with
  | Some a, Some standard =>
      match AccountingStandard.convention standard (Account.type a) with
      | Some signConvention =>
          let boost :=
            getSignConventionBoost
              (AccountingStandard.normalBalance signConvention)
              (parseFloat (TransactionEntry.amount debitEntry)) in
          JS.Ok {| account := account; similarity := similarity * boost |}
      | None => JS.Ok {| account := account; similarity := similarity |}
      end
  | _, _ => JS.Ok {| account := account; similarity := 0 |}
  end.

(** [x !== y] on two optional accounts taken from the chart *)
Definition same_account (x y : option Account.t) : bool :=
  match x, y with
  | Some a, Some b => Account.eqb a b
  | None, None => true
  | _, _ => false
  end.

Definition findBestMatches `{Runtime} (this : t) (transactionEmbedding : list Z)
           (transaction : Transaction.t) : JS.result MappingResult.t :=
  match Transaction.find_entry transaction debit,
        Transaction.find_entry transaction credit with
  | Some debitEntry, Some creditEntry =>
      scores <-
        AccountPatternBuilder.map_result
          (scoreEmbedding this transactionEmbedding debitEntry)
          (accountEmbeddings this) ;;
      let scores := JS.sort_desc similarity scores in
      let bestDebit := find (fun s => isValidDebitAccount this (account s)) scores in
      let bestCredit :=
        find (fun s =>
                negb (same_account (account s)
                        (match bestDebit with Some b => account b | None => None end))
                && isValidCreditAccount this (account s))
             scores in
      match bestDebit, bestCredit with
      | Some bestDebit, Some bestCredit =>
          JS.Ok (MappingResult.mk
                   (option_map FullAccount (account bestDebit))
                   (option_map FullAccount (account bestCredit))
                   (Qmin (similarity bestDebit) (similarity bestCredit)))
      | _, _ => JS.Ok MappingResult.unmapped
      end
  | _, _ => JS.Ok MappingResult.unmapped
  end.

(** The [try] block of [mapTransaction] *)
Definition mapTransaction_try `{Runtime} (this : t) (transaction : Transaction.t)
  : JS.result MappingResult.t :=
  let features := TransactionFeatureExtractor.extractFeatures transaction in
  let transactionEmbedding := createTransactionEmbedding this transaction features in
  findBestMatches this transactionEmbedding transaction.

Definition mapTransaction `{Runtime} (this : t) (transaction : Transaction.t)
  : MappingResult.t :=
  JS.try_catch (mapTransaction_try this transaction)
               (fun _ => MappingResult.unmapped).

End RAGMapper.

(* ------------------------------------------------------------------ *)
(** * mappingOrchestrator.ts *)

Module MappingOrchestrator.

(** The orchestrator's flag together with the module-level singletons it
    drives. *)
Record t : Type := mk {
  initialized : bool;
  ragMapper : RAGMapper.t;
  accountMatcher : AccountMatcher.t;
  transactionPatternMatcher : TransactionPatternMatcher.t;
  accountPatternBuilder : AccountPatternBuilder.t
}.

Definition fresh : t :=
  mk false RAGMapper.empty AccountMatcher.empty
     TransactionPatternMatcher.initialize AccountPatternBuilder.empty.

Definition initialize (this : t) (accounts : list Account.t)
           (standard : AccountingStandard.t) : t :=
  mk true
     (RAGMapper.initialize accounts standard)
     (AccountMatcher.initialize accounts standard)
     TransactionPatternMatcher.initialize
     (AccountPatternBuilder.buildPatterns (accountPatternBuilder this) accounts).

(** The learning entry point of the pattern matcher, on the shared instance *)
Definition learnFromTransaction (this : t) (transaction : Transaction.t)
           (debitAccountId creditAccountId : string) : t :=
  mk (initialized this) (ragMapper this) (accountMatcher this)
     (TransactionPatternMatcher.learnFromTransaction
        (transactionPatternMatcher this) transaction debitAccountId creditAccountId)
     (accountPatternBuilder this).

Definition tryPatternMatching `{Runtime} (this : t) (transaction : Transaction.t)
  : MappingResult.t :=
  JS.try_catch
    (let matches :=
       TransactionPatternMatcher.findMatches (transactionPatternMatcher this) transaction in
     match TransactionPatternMatcher.debitMatches matches,
           TransactionPatternMatcher.creditMatches matches with
     | bestDebit :: _, bestCredit :: _ =>
         JS.Ok (MappingResult.mk
                  (Some (IdOnly (TransactionPatternMatcher.accountId bestDebit)))
                  (Some (IdOnly (TransactionPatternMatcher.accountId bestCredit)))
                  (Qmin (TransactionPatternMatcher.confidence bestDebit)
                        (TransactionPatternMatcher.confidence bestCredit)))
     | _, _ => JS.Ok MappingResult.unmapped
     end)
    (fun _ => MappingResult.unmapped).

(** The [try] block of [tryAccountMatching] *)
Definition tryAccountMatching_try `{Runtime} (this : t) (transaction : Transaction.t)
  : JS.result MappingResult.t :=
  match Transaction.find_entry transaction debit,
        Transaction.find_entry transaction credit with
  | Some debitEntry, Some creditEntry =>
      let debitAccount :=
        AccountMatcher.findMatchingAccount (accountMatcher this) debitEntry transaction in
      let creditAccount :=
        AccountMatcher.findMatchingAccount (accountMatcher this) creditEntry transaction in
      match debitAccount, creditAccount with
      | Some debitAccount, Some creditAccount =>
          JS.Ok (MappingResult.mk (Some (FullAccount debitAccount))
                                  (Some (FullAccount creditAccount)) 0.6)
      | _, _ => JS.Ok MappingResult.unmapped
      end
  | _, _ => JS.Throw (JS.Error "Transaction must have both debit and credit entries")
  end.

Definition tryAccountMatching `{Runtime} (this : t) (transaction : Transaction.t)
  : MappingResult.t :=
  JS.try_catch (tryAccountMatching_try this transaction)
               (fun _ => MappingResult.unmapped).

(** The value [mapTransaction] resolves to, with the entry it logs on its
    way out. *)
Definition mapTransaction `{Runtime} (this : t) (transaction : Transaction.t)
  : JS.result (MappingResult.t * LogEntry) :=
  if negb (initialized this) then
    JS.Throw (JS.Error "Mapping orchestrator not initialized")
  else
    JS.Ok
      (JS.try_catch
         (let ragResult := RAGMapper.mapTransaction (ragMapper this) transaction in
          if JS.gt (MappingResult.confidence ragResult) 0.8 then
            JS.Ok (ragResult, {| level := info; message := "RAG mapping successful" |})
          else
            let patternResult := tryPatternMatching this transaction in
            if JS.gt (MappingResult.confidence patternResult) 0.7 then
              JS.Ok (patternResult,
                     {| level := info; message := "Pattern matching successful" |})
            else
              let matchResult := tryAccountMatching this transaction in
              if JS.gt (MappingResult.confidence matchResult) 0 then
                JS.Ok (matchResult,
                       {| level := info; message := "Account matching successful" |})
              else
                JS.Ok (MappingResult.unmapped,
                       {| level := warning; message := "No successful mapping found" |}))
         (fun _ => (MappingResult.unmapped,
                    {| level := error; message := "Error mapping transaction" |}))).

End MappingOrchestrator.

(* ------------------------------------------------------------------ *)
(** * A runtime and a chart of accounts to evaluate the services on *)

Module Fixtures.

Fixpoint take_digits (cs : list ascii) : list ascii * list ascii :=
  match cs with
  | c :: cs' =>
      if JS.is_digit c then
        let '(ds, rest) := take_digits cs' in (c :: ds, rest)
      else ([], cs)
  | [] => ([], [])
  end.

Definition digits_value (ds : list ascii) : Z :=
  fold_left (fun acc c => (acc * 10 + Z.of_nat (JS.code c - 48))%Z) ds 0%Z.

(** [parseFloat] on decimal literals: blanks, a sign, digits, a fraction *)
Definition parseDecimal (s : string) : option Q :=
  let cs := JS.drop_while JS.is_space (JS.chars s) in
  let '(negative, cs) :=
    match cs with
    | c :: cs' =>
        if Nat.eqb (JS.code c) 45 then (true, cs')
        else if Nat.eqb (JS.code c) 43 then (false, cs')
        else (false, cs)
    | [] => (false, cs)
    end in
  let '(whole, rest) := take_digits cs in
  let fraction :=
    match rest with
    | c :: rest' => if Nat.eqb (JS.code c) 46 then fst (take_digits rest') else []
    | [] => []
    end in
  match whole, fraction with
  | [], [] => None
  | _, _ =>
      let magnitude :=
        (inject_Z (digits_value whole)
         + inject_Z (digits_value fraction)
           / inject_Z (10 ^ Z.of_nat (List.length fraction)))%Q in
      Some (Qred (if negative then - magnitude else magnitude))
  end.

(** Day of the week of a Gregorian date, 0 = Sunday *)
Definition weekday (y m d : Z) : Z :=
  let offsets := [0; 3; 2; 5; 0; 3; 5; 1; 4; 6; 2; 4]%Z in
  let y' := (if m <? 3 then y - 1 else y)%Z in
  ((y' + y' / 4 - y' / 100 + y' / 400
    + nth (Z.to_nat (m - 1)) offsets 0 + d) mod 7)%Z.

(** A date written [YYYY-MM-DD], read in the zone it was written in *)
Definition isoDate (s : string) : JsDate :=
  let cs := JS.chars s in
  let y := digits_value (firstn 4 cs) in
  let m := digits_value (firstn 2 (skipn 5 cs)) in
  let d := digits_value (firstn 2 (skipn 8 cs)) in
  {| getFullYear := y; getMonth := (m - 1)%Z; getDate := d; getDay := weekday y m d |}.

(** A cosine routine that rejects anything but arrays.  On arrays it tells
    equal vectors from different ones, which is all the evaluations below
    need; for a zero vector, where the quotient of the routine is 0 / 0, it
    answers 0. *)
Definition arrayCosine (x y : JS.value) : JS.result Q :=
  match x, y with
  | JS.Arr u, JS.Arr v =>
      JS.Ok (if forallb (Z.eqb 0) u || forallb (Z.eqb 0) v then 0
             else if list_eq_dec Z.eq_dec u v then 1 else 0.5)
  | JS.Arr _, JS.Str _ =>
      JS.Throw (JS.TypeError "Second argument must be an array")
  | JS.Str _, _ =>
      JS.Throw (JS.TypeError "First argument must be an array")
  end.

Definition equalStrings (a b : string) : Q := if String.eqb a b then 1 else 0.

Definition strict : Runtime :=
  {| computeCosineSimilarity := arrayCosine;
     compareTwoStrings := equalStrings;
     parseFloat := parseDecimal;
     newDate := isoDate |}.

Definition cash : Account.t :=
  Account.mk "acc-1000" "1000" "Cash" (Some "Cash on hand") "asset" "current" true.

Definition payable : Account.t :=
  Account.mk "acc-2000" "2000" "Accounts Payable" None "liability" "current" true.

Definition supplies : Account.t :=
  Account.mk "acc-5200" "5200" "Office Supplies" (Some "Office supplies expense")
             "expense" "operating" true.

Definition chart : list Account.t := [cash; payable; supplies].

Definition standard : AccountingStandard.t :=
  AccountingStandard.mk "GAAP"
    [ ("asset", {| AccountingStandard.normalBalance := debit |});
      ("expense", {| AccountingStandard.normalBalance := debit |});
      ("liability", {| AccountingStandard.normalBalance := credit |});
      ("revenue", {| AccountingStandard.normalBalance := credit |}) ].

Definition entry (number : string) (side : EntryType) (amount : string)
  : TransactionEntry.t :=
  TransactionEntry.mk number side amount.

(** A purchase of supplies on credit *)
Definition purchase (description : string) : Transaction.t :=
  Transaction.mk "tx-1" description None "2024-03-15"
    [entry "5200" debit "500.00"; entry "2000" credit "500.00"].

Definition ready : MappingOrchestrator.t :=
  MappingOrchestrator.initialize MappingOrchestrator.fresh chart standard.

End Fixtures.


(* ------------------------------------------------------------------ *)
(** * The rest of textProcessing.ts *)

Module AmountAndDate.

(** [findAmountPattern]; [None] is NaN, for which every test fails *)
Definition findAmountPattern (amount : option Q) : string :=
  if match amount with Some a => JS.number_eqb a 0 | None => false end then "zero"
  else if TransactionFeatureExtractor.is_multiple amount 1000 then "thousand_multiple"
  else if TransactionFeatureExtractor.is_multiple amount 100 then "hundred_multiple"
  else if TransactionFeatureExtractor.is_multiple amount 1 then "whole_number"
  else "decimal".

Definition findDatePattern `{Runtime} (dateStr : string) : string :=
  let date := newDate dateStr in
  let day := getDate date in
  let month := (getMonth date + 1)%Z in
  if (day =? 1)%Z then "month_start"
  else if (day =? TransactionFeatureExtractor.lastDayOfMonth
                    (getFullYear date) (month - 1))%Z then "month_end"
  else if (day <=? 5)%Z then "month_beginning"
  else if (25 <=? day)%Z then "month_ending"
  else "mid_month".

End AmountAndDate.

(* ------------------------------------------------------------------ *)
(** * The cache of similarityCalculator.ts *)

Module CachedSimilarity.

(** [[text1, text2].sort()] puts the smaller string first; the key joins the
    two with a bar. *)
Definition getCacheKey (text1 text2 : string) : string :=
  if String.ltb text2 text1 then text2 ++ "|" ++ text1
  else text1 ++ "|" ++ text2.

(** [calculateTextSimilarity], with the cache it reads and leaves *)
Definition calculateTextSimilarity `{Runtime} (cache : JS.Map Q) (text1 text2 : string)
  : JS.result (Q * JS.Map Q) :=
  let key := getCacheKey text1 text2 in
  match JS.Map_get cache key with
  | Some similarity => JS.Ok (similarity, cache)
  | None =>
      similarity <- TextProcessor.calculateSimilarity (JS.Str text1) (JS.Str text2) ;;
      JS.Ok (similarity, JS.Map_set cache key similarity)
  end.

Definition clearCache (cache : JS.Map Q) : JS.Map Q := [].

Definition getCacheSize (cache : JS.Map Q) : nat := List.length cache.

End CachedSimilarity.

(* ------------------------------------------------------------------ *)
(** * The attempt counters of mappingLogger.ts

    The log entries themselves (time stamps, console output) are left out;
    [performance.now()] is the argument [now] of the two operations. *)

Module MappingLogger.

(** The counters of [AttemptSummary].  Its [averageDuration], a running mean
    kept in floating point, is not represented. *)
Record AttemptSummary : Type := {
  total : Z;
  successful : Z;
  failed : Z
}.

Record t : Type := mk {
  attempts : AttemptSummary;
  startTimes : JS.Map Q
}.

(** The state a new logger starts in and [clear] returns to *)
Definition clear : t :=
  mk {| total := 0; successful := 0; failed := 0 |} [].

Definition startAttempt (this : t) (transactionId : string) (now : Q) : t :=
  let a := attempts this in
  mk {| total := total a + 1; successful := successful a; failed := failed a |}
     (JS.Map_set (startTimes this) transactionId now).

(** The new state and the value returned.  [if (startTime)] fails for a
    missing entry and for a start time of 0.  The update of the running
    average is not represented. *)
Definition endAttempt (this : t) (transactionId : string) (success : bool) (now : Q)
  : t * Q :=
  match JS.Map_get (startTimes this) transactionId with
  | Some startTime =>
      if JS.number_eqb startTime 0 then (this, 0%Q)
      else
        let duration := (now - startTime)%Q in
        let a := attempts this in
        let successful' := if success then (successful a + 1)%Z else successful a in
        let failed' := if success then failed a else (failed a + 1)%Z in
        (mk {| total := total a; successful := successful'; failed := failed' |}
            (JS.Map_delete (startTimes this) transactionId),
         duration)
  | None => (this, 0%Q)
  end.

Record PerformanceMetrics : Type := {
  successRate : Q;
  totalAttempts : Z;
  successfulAttempts : Z;
  failedAttempts : Z
}.

Definition getPerformanceMetrics (this : t) : PerformanceMetrics :=
  let a := attempts this in
  {| successRate :=
       if (0 <? total a)%Z
       then (inject_Z (successful a) / inject_Z (total a) * 100)%Q else 0%Q;
     totalAttempts := total a;
     successfulAttempts := successful a;
     failedAttempts := failed a |}.

(** A call of one of the two operations *)
Inductive call : Type :=
| Start (transactionId : string) (now : Q)
| Finish (transactionId : string) (success : bool) (now : Q).

(** The logger after a sequence of calls, with the durations [endAttempt]
    returned, latest first *)
Fixpoint run (calls : list call) (this : t) (returned : list Q) : t * list Q :=
  match calls with
  | [] => (this, returned)
  | Start transactionId now :: rest =>
      run rest (startAttempt this transactionId now) returned
  | Finish transactionId success now :: rest =>
      let '(this', duration) := endAttempt this transactionId success now in
      run rest this' (duration :: returned)
  end.

End MappingLogger.

(* ------------------------------------------------------------------ *)
(** * patternMatcher.ts (the feature-set matcher) *)

Module PatternMatcher.

Record PatternMatchResult : Type := {
  accountId : string;
  confidence : Q;
  features : list string
}.

Record t : Type := mk {
  accountFeatures : JS.Map (list string);
  featureWeights : JS.Map Q
}.

(** [new PatternMatcher()] *)
Definition fresh : t := mk [] [].

Definition initializeFeatureWeights (weights : JS.Map Q) : JS.Map Q :=
  fold_left (fun w '(k, v) => JS.Map_set w k v)
    [ ("description_word", 0.3); ("description_word_pair", 0.4);
      ("amount_range", 0.2); ("amount_type", 0.15);
      ("vendor", 0.25); ("vendor_type", 0.2);
      ("day_of_week", 0.1); ("day_of_month", 0.1);
      ("date_type", 0.15); ("transaction_type", 0.25) ]%Q
    weights.

(** [/\s+/] splits like [JS.split JS.is_space]. *)
Definition accountFeatureSet (account : Account.t) : list string :=
  let features := JS.Set_add [] ("code:" ++ Account.code account) in
  let features := JS.Set_add features ("type:" ++ Account.type account) in
  let features := JS.Set_add features ("subtype:" ++ Account.subtype account) in
  let features :=
    fold_left (fun features word => JS.Set_add features ("name_word:" ++ word))
      (JS.split JS.is_space (JS.toLowerCase (Account.name account))) features in
  if JS.truthy (Account.description account) then
    fold_left (fun features word => JS.Set_add features ("description_word:" ++ word))
      (JS.split JS.is_space
         (JS.toLowerCase (JS.or_empty (Account.description account)))) features
  else features.

Definition buildAccountFeatures (accountFeatures : JS.Map (list string))
           (accounts : list Account.t) : JS.Map (list string) :=
  fold_left
    (fun m account => JS.Map_set m (Account.id account) (accountFeatureSet account))
    accounts accountFeatures.

Definition initialize (this : t) (accounts : list Account.t) : t :=
  mk (buildAccountFeatures (accountFeatures this) accounts)
     (initializeFeatureWeights (featureWeights this)).

(** [this.featureWeights.get(featureType) || 0.1] *)
Definition weightOf (this : t) (feature : string) : Q :=
  match JS.Map_get (featureWeights this) (JS.before_colon feature) with
  | Some w => if JS.number_eqb w 0 then 0.1 else w
  | None => 0.1
  end.

(** The two running sums of [calculateMatchScore] *)
Definition scoreSums (this : t) (transactionFeatures accountFeatures : list string)
  : Q * Q :=
  fold_left
    (fun '(totalScore, totalWeight) feature =>
       let weight := weightOf this feature in
       ((if JS.array_includes accountFeatures feature
         then totalScore + weight else totalScore)%Q,
        (totalWeight + weight)%Q))
    transactionFeatures (0%Q, 0%Q).

Definition calculateMatchScore (this : t) (transactionFeatures accountFeatures : list string)
  : Q :=
  let '(totalScore, totalWeight) := scoreSums this transactionFeatures accountFeatures in
  if JS.gt totalWeight 0 then (totalScore / totalWeight)%Q else 0%Q.

Definition featureSetOf `{Runtime} (transaction : Transaction.t) : list string :=
  JS.Set_of (map TransactionFeature.key
               (TransactionFeatureExtractor.extractFeatures transaction)).

(** Nothing in the [try] block throws on a transaction of the declared
    type. *)
Definition findMatches `{Runtime} (this : t) (transaction : Transaction.t)
  : list PatternMatchResult :=
  let featureSet := featureSetOf transaction in
  let matches :=
    flat_map
      (fun '(accountId, accountFeatures) =>
         let score := calculateMatchScore this featureSet accountFeatures in
         if JS.gt score 0
         then [{| accountId := accountId; confidence := score; features := featureSet |}]
         else [])
      (accountFeatures this) in
  JS.sort_desc confidence matches.

Definition learnFromMatch `{Runtime} (this : t) (transaction : Transaction.t)
           (accountId : string) : t :=
  let features := TransactionFeatureExtractor.extractFeatures transaction in
  let accountFeatures :=
    match JS.Map_get (accountFeatures this) accountId with
    | Some known => known
    | None => []
    end in
  mk (JS.Map_set (PatternMatcher.accountFeatures this) accountId
        (fold_left JS.Set_add (map TransactionFeature.key features) accountFeatures))
     (featureWeights this).

End PatternMatcher.

(* ------------------------------------------------------------------ *)
(** * transactionStore.ts: what [autoMapTransactions] does with one result *)

Definition AccountObject_id (o : AccountObject) : string :=
  match o with
  | FullAccount a => Account.id a
  | IdOnly i => i
  end.

Module TransactionStore.

(** The body of the loop: the two account ids handed to
    [updateTransactionMapping], if the call is made. *)
Definition autoMapOne `{Runtime} (orchestrator : MappingOrchestrator.t)
           (transaction : Transaction.t) : option (string * string) :=
  match MappingOrchestrator.mapTransaction orchestrator transaction with
  | JS.Ok (result, _) =>
      if JS.gt (MappingResult.confidence result) 0.7 then
        match MappingResult.debitAccount result, MappingResult.creditAccount result with
        | Some d, Some c => Some (AccountObject_id d, AccountObject_id c)
        | _, _ => None
        end
      else None
  | JS.Throw _ => None
  end.

End TransactionStore.

(* ------------------------------------------------------------------ *)
(** * Sequences of confirmed mappings *)

(** The pattern tables after [initialize] and the confirmed mappings of
    [confirmed], in order *)
Definition learnAll (confirmed : list (Transaction.t * string * string))
  : TransactionPatternMatcher.t :=
  fold_left
    (fun this '(transaction, debitAccountId, creditAccountId) =>
       TransactionPatternMatcher.learnFromTransaction
         this transaction debitAccountId creditAccountId)
    confirmed TransactionPatternMatcher.initialize.

(** What the two candidate lists are compared by, position by position *)
Definition confidenceAndReason (m : TransactionPatternMatcher.PatternMatch) : Q * string :=
  (TransactionPatternMatcher.confidence m, TransactionPatternMatcher.reason m).

Definition sumZ (l : list Z) : Z := fold_right Z.add 0%Z l.

(* ------------------------------------------------------------------ *)
(** * Reading the cascade *)

(** The heads of the two candidate lists, when both lists have one *)
Definition headPair (matches : TransactionPatternMatcher.Matches)
  : option (TransactionPatternMatcher.PatternMatch * TransactionPatternMatcher.PatternMatch) :=
  match TransactionPatternMatcher.debitMatches matches,
        TransactionPatternMatcher.creditMatches matches with
  | bestDebit :: _, bestCredit :: _ => Some (bestDebit, bestCredit)
  | _, _ => None
  end.

Definition pairConfidence
           (p : TransactionPatternMatcher.PatternMatch * TransactionPatternMatcher.PatternMatch) : Q :=
  Qmin (TransactionPatternMatcher.confidence (fst p))
       (TransactionPatternMatcher.confidence (snd p)).

(** The accounts the account matcher resolves the debit and the credit entry
    to, when both entries exist and both resolve *)
Definition resolvedPair `{Runtime} (matcher : AccountMatcher.t) (transaction : Transaction.t)
  : option (Account.t * Account.t) :=
  match Transaction.find_entry transaction debit,
        Transaction.find_entry transaction credit with
  | Some debitEntry, Some creditEntry =>
      match AccountMatcher.findMatchingAccount matcher debitEntry transaction,
            AccountMatcher.findMatchingAccount matcher creditEntry transaction with
      | Some a, Some b => Some (a, b)
      | _, _ => None
      end
  | _, _ => None
  end.

(** The pattern stage clears its bar: both lists are non-empty and the
    smaller head confidence exceeds 0.7. *)
Definition patternAccepted (matches : TransactionPatternMatcher.Matches) : Prop :=
  exists p, headPair matches = Some p /\ (0.7 < pairConfidence p)%Q.

(** The text [createTransactionEmbedding] turns into a vector *)
Definition embeddedText `{Runtime} (transaction : Transaction.t) : string :=
  JS.join " "
    ([Transaction.description transaction;
      JS.or_empty (Transaction.customerName transaction)]
       ++ map TransactionFeature.key
            (TransactionFeatureExtractor.extractFeatures transaction)).

(** A cosine routine that, like [compute-cosine-similarity], throws when an
    argument is not an array *)
Definition cosine_needs_arrays (R : Runtime) : Prop :=
  forall x y,
    match x, y with
    | JS.Arr _, JS.Arr _ => True
    | _, _ => exists e, computeCosineSimilarity x y = JS.Throw e
    end.

(** The tables of the pattern matcher after [initialize] and any number of
    confirmed mappings *)
Inductive learned : TransactionPatternMatcher.t -> Prop :=
| learned_initialize : learned TransactionPatternMatcher.initialize
| learned_step this transaction debitAccountId creditAccountId :
    learned this ->
    learned (TransactionPatternMatcher.learnFromTransaction
               this transaction debitAccountId creditAccountId).

(** Every candidate of both lists *)
Definition candidates (matches : TransactionPatternMatcher.Matches)
  : list TransactionPatternMatcher.PatternMatch :=
  TransactionPatternMatcher.debitMatches matches
    ++ TransactionPatternMatcher.creditMatches matches.

(** The group a feature tag belongs to, by its weight in [extractFeatures] *)
Definition groupWeight (tag : string) : Q :=
  if existsb (String.eqb tag) ["description_word"; "description_word_pair"] then 0.35
  else if existsb (String.eqb tag) ["amount_range"; "amount_type"] then 0.25
  else if existsb (String.eqb tag) ["vendor"; "vendor_type"] then 0.20
  else if existsb (String.eqb tag) ["day_of_week"; "day_of_month"; "date_type"] then 0.15
  else 0.05.

(** The first of the three matching stages that produces a candidate *)
Inductive produces `{Runtime} (this : AccountMatcher.t) (entry : TransactionEntry.t)
          (transaction : Transaction.t) : Account.t -> Prop :=
| produces_exact c :
    AccountMatcher.findExactMatch this (TransactionEntry.accountNumber entry) = Some c ->
    produces this entry transaction c
| produces_fuzzy c :
    AccountMatcher.findExactMatch this (TransactionEntry.accountNumber entry) = None ->
    AccountMatcher.findFuzzyCodeMatch this (TransactionEntry.accountNumber entry) = Some c ->
    produces this entry transaction c
| produces_description c :
    AccountMatcher.findExactMatch this (TransactionEntry.accountNumber entry) = None ->
    AccountMatcher.findFuzzyCodeMatch this (TransactionEntry.accountNumber entry) = None ->
    AccountMatcher.findDescriptionMatch this (Transaction.description transaction)
      (TransactionEntry.type entry) (parseFloat (TransactionEntry.amount entry))
      = JS.Ok (Some c) ->
    produces this entry transaction c.

(** The entry type is the normal balance the standard gives the account's
    type. *)
Definition conventionFits (standard : AccountingStandard.t) (account : Account.t)
           (entry : TransactionEntry.t) : Prop :=
  exists signConvention,
    AccountingStandard.convention standard (Account.type account) = Some signConvention
    /\ AccountingStandard.normalBalance signConvention = TransactionEntry.type entry.

(* ------------------------------------------------------------------ *)
(** * Basic facts *)

Lemma gt_true (a b : Q) : JS.gt a b = true <-> (b < a)%Q.
Proof.
  unfold JS.gt. rewrite (Qgt_alt a b).
  destruct (Qcompare a b); split; intro E; congruence.
Qed.

Lemma gt_false (a b : Q) : JS.gt a b = false <-> (a <= b)%Q.
Proof.
  unfold JS.gt. rewrite (Qle_alt a b).
  destruct (Qcompare a b); split; intro E; congruence.
Qed.

Lemma EntryType_eqb_eq (a b : EntryType) : EntryType_eqb a b = true <-> a = b.
Proof. destruct a, b; simpl; split; congruence. Qed.

Lemma insert_desc_In {A} (key : A -> Q) (x y : A) (l : list A) :
  In y (JS.insert_desc key x l) <-> y = x \/ In y l.
Proof.
  induction l as [|z l IH]; simpl.
  - intuition congruence.
  - destruct (JS.gt (key z) (key x)); simpl; rewrite ?IH; intuition congruence.
Qed.

Lemma sort_desc_In {A} (key : A -> Q) (y : A) (l : list A) :
  In y (JS.sort_desc key l) <-> In y l.
Proof.
  induction l as [|x l IH]; simpl; [tauto|].
  rewrite insert_desc_In, IH. intuition congruence.
Qed.

Lemma In_firstn {A} (n : nat) (l : list A) (x : A) : In x (firstn n l) -> In x l.
Proof.
  revert l. induction n as [|n IH]; intros [|y l]; simpl; try tauto.
  intros [-> | Hx]; auto.
Qed.

Lemma map_result_In {A B} (f : A -> JS.result B) (l : list A) (ys : list B) (y : B) :
  AccountPatternBuilder.map_result f l = JS.Ok ys ->
  In y ys -> exists x, In x l /\ f x = JS.Ok y.
Proof.
  revert ys. induction l as [|x l IH]; simpl; intros ys E Hy.
  - injection E as <-. destruct Hy.
  - destruct (f x) as [b|e] eqn:Efx; simpl in E; [|discriminate].
    destruct (AccountPatternBuilder.map_result f l) as [bs|e]; simpl in E; [|discriminate].
    injection E as <-. destruct Hy as [<-|Hy].
    + exists x. auto.
    + destruct (IH bs eq_refl Hy) as (x' & Hin & Hfx'). exists x'. auto.
Qed.

Lemma map_result_throws {A B} (f : A -> JS.result B) (l : list A) (e : JS.exn) :
  l <> [] -> (forall x, f x = JS.Throw e) ->
  AccountPatternBuilder.map_result f l = JS.Throw e.
Proof.
  intros Hne Hf. destruct l as [|x l]; [congruence|].
  simpl. rewrite Hf. reflexivity.
Qed.

(* ------------------------------------------------------------------ *)
(** * The orchestrator's cascade *)

Lemma tryPatternMatching_eq `{Runtime} (this : MappingOrchestrator.t)
      (transaction : Transaction.t) :
  MappingOrchestrator.tryPatternMatching this transaction =
  match headPair (TransactionPatternMatcher.findMatches
                    (MappingOrchestrator.transactionPatternMatcher this) transaction) with
  | Some p =>
      MappingResult.mk
        (Some (IdOnly (TransactionPatternMatcher.accountId (fst p))))
        (Some (IdOnly (TransactionPatternMatcher.accountId (snd p))))
        (pairConfidence p)
  | None => MappingResult.unmapped
  end.
Proof.
  unfold MappingOrchestrator.tryPatternMatching, headPair, pairConfidence.
  destruct (TransactionPatternMatcher.findMatches _ transaction) as [ds cs].
  destruct ds, cs; reflexivity.
Qed.

Lemma tryAccountMatching_eq `{Runtime} (this : MappingOrchestrator.t)
      (transaction : Transaction.t) :
  MappingOrchestrator.tryAccountMatching this transaction =
  match resolvedPair (MappingOrchestrator.accountMatcher this) transaction with
  | Some (a, b) => MappingResult.mk (Some (FullAccount a)) (Some (FullAccount b)) 0.6
  | None => MappingResult.unmapped
  end.
Proof.
  unfold MappingOrchestrator.tryAccountMatching,
    MappingOrchestrator.tryAccountMatching_try, resolvedPair.
  destruct (Transaction.find_entry transaction debit) as [de|];
    destruct (Transaction.find_entry transaction credit) as [ce|]; try reflexivity.
  simpl.
  destruct (AccountMatcher.findMatchingAccount
              (MappingOrchestrator.accountMatcher this) de transaction);
    destruct (AccountMatcher.findMatchingAccount
                (MappingOrchestrator.accountMatcher this) ce transaction); reflexivity.
Qed.

Lemma patternAccepted_dec (matches : TransactionPatternMatcher.Matches) :
  match headPair matches with
  | Some p => if JS.gt (pairConfidence p) 0.7 then patternAccepted matches
              else ~ patternAccepted matches
  | None => ~ patternAccepted matches
  end.
Proof.
  unfold patternAccepted.
  destruct (headPair matches) as [p|].
  - destruct (JS.gt (pairConfidence p) 0.7) eqn:E.
    + exists p. split; [reflexivity | now apply gt_true].
    + apply gt_false in E. intros (p' & Hp' & Hlt).
      injection Hp' as <-. now apply (Qle_not_lt _ _ E).
  - intros (p' & Hp' & _). discriminate.
Qed.

(** The four ways out of [mapTransaction], each with its log entry *)
Lemma cascade_cases `{Runtime}
        (this : MappingOrchestrator.t) (transaction : Transaction.t) :
  MappingOrchestrator.initialized this = true ->
  let ragResult :=
    RAGMapper.mapTransaction (MappingOrchestrator.ragMapper this) transaction in
  let matches :=
    TransactionPatternMatcher.findMatches
      (MappingOrchestrator.transactionPatternMatcher this) transaction in
  let resolved := resolvedPair (MappingOrchestrator.accountMatcher this) transaction in
  exists result entry,
    MappingOrchestrator.mapTransaction this transaction = JS.Ok (result, entry)
    /\ (message entry = "RAG mapping successful"
        <-> (0.8 < MappingResult.confidence ragResult)%Q)
    /\ (message entry = "RAG mapping successful" -> result = ragResult)
    /\ (message entry = "Pattern matching successful"
        <-> ~ (0.8 < MappingResult.confidence ragResult)%Q /\ patternAccepted matches)
    /\ (message entry = "Pattern matching successful" ->
        exists p, headPair matches = Some p
                  /\ result = MappingResult.mk
                                (Some (IdOnly (TransactionPatternMatcher.accountId (fst p))))
                                (Some (IdOnly (TransactionPatternMatcher.accountId (snd p))))
                                (pairConfidence p))
    /\ (message entry = "Account matching successful"
        <-> ~ (0.8 < MappingResult.confidence ragResult)%Q
            /\ ~ patternAccepted matches /\ resolved <> None)
    /\ (message entry = "Account matching successful" ->
        exists a b, resolved = Some (a, b)
                    /\ result = MappingResult.mk (Some (FullAccount a))
                                                 (Some (FullAccount b)) 0.6)
    /\ (message entry = "No successful mapping found"
        <-> ~ (0.8 < MappingResult.confidence ragResult)%Q
            /\ ~ patternAccepted matches /\ resolved = None)
    /\ (message entry = "No successful mapping found" ->
        result = MappingResult.unmapped).
Proof.
  intros Hinit ragResult matches resolved.
  unfold MappingOrchestrator.mapTransaction. rewrite Hinit. simpl.
  rewrite tryPatternMatching_eq, tryAccountMatching_eq.
  fold ragResult matches resolved.
  destruct (JS.gt (MappingResult.confidence ragResult) 0.8) eqn:Erag.
  { apply gt_true in Erag. simpl.
    eexists _, _. split; [reflexivity|]. simpl.
    repeat split; intros; try discriminate; try tauto. }
  apply gt_false in Erag.
  assert (Hrag : ~ (0.8 < MappingResult.confidence ragResult)%Q)
    by now apply Qle_not_lt.
  pose proof (patternAccepted_dec matches) as Hpat.
  destruct (headPair matches) as [p|] eqn:Ehead.
  - simpl. destruct (JS.gt (pairConfidence p) 0.7) eqn:Epair.
    + simpl. eexists _, _. split; [reflexivity|]. simpl.
      repeat split; intros; try discriminate; try tauto.
      exists p. auto.
    + simpl. destruct resolved as [[a b]|] eqn:Eres; simpl;
        (eexists _, _; split; [reflexivity|]); simpl;
        repeat split; intros; try discriminate; try tauto; try congruence.
      * exists a, b. auto.
      * match goal with Hc : _ /\ _ /\ _ |- _ => destruct Hc as (_ & _ & Hne) end. congruence.
  - simpl. destruct resolved as [[a b]|] eqn:Eres; simpl;
      (eexists _, _; split; [reflexivity|]); simpl;
      repeat split; intros; try discriminate; try tauto; try congruence.
    + exists a, b. auto.
    + match goal with Hc : _ /\ _ /\ _ |- _ => destruct Hc as (_ & _ & Hne) end. congruence.
Qed.

(** C1. Once initialised, [mapTransaction] accepts the RAG result exactly
    when its confidence exceeds 0.8; otherwise the pattern result (the heads
    of the two candidate lists, present only when both lists are non-empty,
    with the smaller of the two head confidences) exactly when that
    confidence exceeds 0.7; otherwise the account-matcher result, with
    confidence 0.6, exactly when both entries resolve; otherwise a result of
    confidence 0.  The stage that was accepted is read off the entry
    [mapTransaction] logs. *)
Theorem mapTransaction_cascade `{Runtime}
        (this : MappingOrchestrator.t) (transaction : Transaction.t) :
  MappingOrchestrator.initialized this = true ->
  let ragResult :=
    RAGMapper.mapTransaction (MappingOrchestrator.ragMapper this) transaction in
  let matches :=
    TransactionPatternMatcher.findMatches
      (MappingOrchestrator.transactionPatternMatcher this) transaction in
  let resolved := resolvedPair (MappingOrchestrator.accountMatcher this) transaction in
  exists result entry,
    MappingOrchestrator.mapTransaction this transaction = JS.Ok (result, entry)
    /\ (message entry = "RAG mapping successful"
        <-> (0.8 < MappingResult.confidence ragResult)%Q)
    /\ (message entry = "RAG mapping successful" -> result = ragResult)
    /\ (message entry = "Pattern matching successful"
        <-> ~ (0.8 < MappingResult.confidence ragResult)%Q /\ patternAccepted matches)
    /\ (message entry = "Pattern matching successful" ->
        exists p, headPair matches = Some p
                  /\ result = MappingResult.mk
                                (Some (IdOnly (TransactionPatternMatcher.accountId (fst p))))
                                (Some (IdOnly (TransactionPatternMatcher.accountId (snd p))))
                                (pairConfidence p))
    /\ (message entry = "Account matching successful"
        <-> ~ (0.8 < MappingResult.confidence ragResult)%Q
            /\ ~ patternAccepted matches /\ resolved <> None)
    /\ (message entry = "Account matching successful" ->
        exists a b, resolved = Some (a, b)
                    /\ result = MappingResult.mk (Some (FullAccount a))
                                                 (Some (FullAccount b)) 0.6)
    /\ (message entry = "No successful mapping found"
        <-> ~ (0.8 < MappingResult.confidence ragResult)%Q
            /\ ~ patternAccepted matches /\ resolved = None)
    /\ (message entry = "No successful mapping found" ->
        result = MappingResult.unmapped).
Proof. exact (cascade_cases this transaction). Qed.


(* ------------------------------------------------------------------ *)
(** * The account matcher *)

Lemma scoreAccount_account `{Runtime} this description processed entryType amount x s :
  AccountMatcher.scoreAccount this description processed entryType amount x = JS.Ok s ->
  AccountMatcher.account s = x.
Proof.
  unfold AccountMatcher.scoreAccount.
  destruct (SimilarityCalculator.calculateSimilarity _ _) as [q|e]; simpl; [|discriminate].
  intros E. injection E as <-. reflexivity.
Qed.

Lemma findDescriptionMatch_In `{Runtime} this description entryType amount c :
  AccountMatcher.findDescriptionMatch this description entryType amount = JS.Ok (Some c) ->
  In c (AccountMatcher.accounts this).
Proof.
  unfold AccountMatcher.findDescriptionMatch.
  destruct (AccountPatternBuilder.map_result _ _) as [scores|e] eqn:Escores;
    simpl; [|discriminate].
  destruct (JS.sort_desc AccountMatcher.score scores) as [|best rest] eqn:Esorted;
    [discriminate|].
  destruct (JS.gt (AccountMatcher.score best) 0.6); [|discriminate].
  intros E. injection E as <-.
  assert (Hbest : In best scores).
  { apply (sort_desc_In AccountMatcher.score). rewrite Esorted. now left. }
  destruct (map_result_In _ _ _ _ Escores Hbest) as (x & Hx & Hscore).
  apply scoreAccount_account in Hscore. rewrite Hscore.
  apply filter_In in Hx. tauto.
Qed.

Lemma produces_In `{Runtime} this entry transaction c :
  produces this entry transaction c -> In c (AccountMatcher.accounts this).
Proof.
  intros [c' E | c' _ E | c' _ _ E].
  - apply find_some in E. tauto.
  - apply find_some in E. tauto.
  - now apply findDescriptionMatch_In in E.
Qed.

Lemma produces_result `{Runtime} this entry transaction c :
  produces this entry transaction c ->
  AccountMatcher.findMatchingAccount this entry transaction
  = AccountMatcher.validated this c entry.
Proof.
  unfold AccountMatcher.findMatchingAccount, AccountMatcher.findMatchingAccount_try.
  intros [c' E | c' E1 E2 | c' E1 E2 E3].
  - rewrite E. reflexivity.
  - rewrite E1, E2. reflexivity.
  - rewrite E1, E2, E3. reflexivity.
Qed.

Lemma findMatchingAccount_produces `{Runtime} this entry transaction a :
  AccountMatcher.findMatchingAccount this entry transaction = Some a ->
  produces this entry transaction a
  /\ AccountMatcher.validateAccountMatch this a entry = true.
Proof.
  unfold AccountMatcher.findMatchingAccount, AccountMatcher.findMatchingAccount_try.
  destruct (AccountMatcher.findExactMatch _ _) as [x|] eqn:E1.
  { simpl. unfold AccountMatcher.validated.
    destruct (AccountMatcher.validateAccountMatch this x entry) eqn:V; [|discriminate].
    intros E. injection E as <-. split; [now apply produces_exact | exact V]. }
  destruct (AccountMatcher.findFuzzyCodeMatch _ _) as [x|] eqn:E2.
  { simpl. unfold AccountMatcher.validated.
    destruct (AccountMatcher.validateAccountMatch this x entry) eqn:V; [|discriminate].
    intros E. injection E as <-. split; [now apply produces_fuzzy | exact V]. }
  destruct (AccountMatcher.findDescriptionMatch _ _ _ _) as [[x|]|e] eqn:E3;
    simpl; try discriminate.
  unfold AccountMatcher.validated.
  destruct (AccountMatcher.validateAccountMatch this x entry) eqn:V; [|discriminate].
  intros E. injection E as <-. split; [now apply produces_description | exact V].
Qed.

Lemma validateAccountMatch_fits this standard account entry :
  AccountMatcher.standard this = Some standard ->
  (AccountMatcher.validateAccountMatch this account entry = true
   <-> conventionFits standard account entry).
Proof.
  intros Hstd. unfold AccountMatcher.validateAccountMatch, conventionFits.
  rewrite Hstd.
  destruct (AccountingStandard.convention standard (Account.type account)) as [sc|].
  - rewrite EntryType_eqb_eq. split.
    + intros E. exists sc. auto.
    + intros (sc' & E & Hnb). injection E as <-. auto.
  - split; [discriminate|]. intros (sc' & E & _). discriminate.
Qed.

(** C6. With a standard installed, the candidate that the first successful
    stage (exact code, fuzzy code, description score) produces is returned
    exactly when the entry's type is the normal balance the standard gives
    the account's type; when the types differ or the standard has no
    convention for that type the answer is "no account".  The matcher is a
    total function: a failure inside its [try] block also ends in "no
    account". *)
Theorem findMatchingAccount_sign_gate `{Runtime}
        (this : AccountMatcher.t) (standard : AccountingStandard.t)
        (entry : TransactionEntry.t) (transaction : Transaction.t) :
  AccountMatcher.standard this = Some standard ->
  (forall a,
      AccountMatcher.findMatchingAccount this entry transaction = Some a ->
      produces this entry transaction a /\ conventionFits standard a entry)
  /\ (forall c,
         produces this entry transaction c ->
         conventionFits standard c entry ->
         AccountMatcher.findMatchingAccount this entry transaction = Some c)
  /\ (forall c,
         produces this entry transaction c ->
         ~ conventionFits standard c entry ->
         AccountMatcher.findMatchingAccount this entry transaction = None)
  /\ (forall e,
         AccountMatcher.findMatchingAccount_try this entry transaction = JS.Throw e ->
         AccountMatcher.findMatchingAccount this entry transaction = None).
Proof.
  intros Hstd. split; [|split; [|split]].
  - intros a Ha. apply findMatchingAccount_produces in Ha as [Hp V].
    split; [exact Hp|].
    now apply (validateAccountMatch_fits this standard) in V.
  - intros c Hc Hfit. rewrite (produces_result _ _ _ _ Hc).
    unfold AccountMatcher.validated.
    apply (validateAccountMatch_fits this standard) in Hfit; [|exact Hstd].
    now rewrite Hfit.
  - intros c Hc Hfit. rewrite (produces_result _ _ _ _ Hc).
    unfold AccountMatcher.validated.
    destruct (AccountMatcher.validateAccountMatch this c entry) eqn:V; [|reflexivity].
    apply (validateAccountMatch_fits this standard) in V; [|exact Hstd]. contradiction.
  - intros e E. unfold AccountMatcher.findMatchingAccount. now rewrite E.
Qed.

(* ------------------------------------------------------------------ *)
(** * The RAG mapper *)

Lemma normal_balance_is_true this account side :
  RAGMapper.normal_balance_is this account side = true ->
  exists standard a signConvention,
    RAGMapper.standard this = Some standard /\ account = Some a
    /\ AccountingStandard.convention standard (Account.type a) = Some signConvention
    /\ AccountingStandard.normalBalance signConvention = side.
Proof.
  unfold RAGMapper.normal_balance_is.
  destruct (RAGMapper.standard this) as [standard|]; [|discriminate].
  destruct account as [a|]; [|discriminate].
  destruct (AccountingStandard.convention standard (Account.type a)) as [sc|] eqn:E;
    [|discriminate].
  rewrite EntryType_eqb_eq. intros Hnb. exists standard, a, sc. auto.
Qed.

Lemma scoreEmbedding_spec `{Runtime} this embedding debitEntry accountId e s :
  RAGMapper.scoreEmbedding this embedding debitEntry (accountId, e) = JS.Ok s ->
  exists q,
    SimilarityCalculator.calculateSimilarity (JS.Arr embedding) (JS.Arr e) = JS.Ok q
    /\ RAGMapper.account s
       = find (fun a => String.eqb (Account.id a) accountId) (RAGMapper.accounts this)
    /\ (forall side,
           RAGMapper.normal_balance_is this (RAGMapper.account s) side = true ->
           RAGMapper.similarity s
           = (q * RAGMapper.getSignConventionBoost side
                    (parseFloat (TransactionEntry.amount debitEntry)))%Q).
Proof.
  unfold RAGMapper.scoreEmbedding.
  destruct (SimilarityCalculator.calculateSimilarity _ _) as [q|err]; simpl; [|discriminate].
  intros E. exists q. split; [reflexivity|].
  destruct (find _ (RAGMapper.accounts this)) as [a|] eqn:Efind.
  - destruct (RAGMapper.standard this) as [standard|] eqn:Estd.
    + destruct (AccountingStandard.convention standard (Account.type a)) as [sc|] eqn:Econv;
        injection E as <-; simpl; (split; [reflexivity|]); intros side Hside;
        apply normal_balance_is_true in Hside
          as (standard' & a' & sc' & Hs & Ha & Hc & Hnb);
        assert (standard' = standard) by congruence; subst standard';
        assert (a' = a) by congruence; subst a';
        rewrite Econv in Hc; [|discriminate].
      assert (sc' = sc) by congruence. subst sc'. now rewrite Hnb.
    + injection E as <-. simpl. split; [reflexivity|]. intros side Hside.
      apply normal_balance_is_true in Hside as (standard' & _ & _ & Hs & _).
      rewrite Estd in Hs. discriminate.
  - injection E as <-. simpl. split; [reflexivity|]. intros side Hside.
    apply normal_balance_is_true in Hside as (_ & a' & _ & _ & Ha & _). discriminate.
Qed.

(** What [findBestMatches] can answer: nothing, or two accounts of the chart
    picked from two scored entries. *)
Lemma findBestMatches_shape `{Runtime} this embedding transaction r :
  RAGMapper.findBestMatches this embedding transaction = JS.Ok r ->
  r = MappingResult.unmapped
  \/ exists debitEntry scores sd sc a b,
      Transaction.find_entry transaction debit = Some debitEntry
      /\ AccountPatternBuilder.map_result
           (RAGMapper.scoreEmbedding this embedding debitEntry)
           (RAGMapper.accountEmbeddings this) = JS.Ok scores
      /\ In sd scores /\ In sc scores
      /\ RAGMapper.account sd = Some a /\ RAGMapper.account sc = Some b
      /\ RAGMapper.normal_balance_is this (Some a) debit = true
      /\ RAGMapper.normal_balance_is this (Some b) credit = true
      /\ a <> b
      /\ r = MappingResult.mk (Some (FullAccount a)) (Some (FullAccount b))
                              (Qmin (RAGMapper.similarity sd) (RAGMapper.similarity sc)).
Proof.
  unfold RAGMapper.findBestMatches.
  destruct (Transaction.find_entry transaction debit) as [de|] eqn:Ede;
    [|intros E; injection E as <-; now left].
  destruct (Transaction.find_entry transaction credit) as [ce|];
    [|intros E; injection E as <-; now left].
  destruct (AccountPatternBuilder.map_result _ _) as [scores|e] eqn:Escores;
    simpl; [|discriminate].
  destruct (find (fun s => RAGMapper.isValidDebitAccount this (RAGMapper.account s)) _)
    as [sd|] eqn:Ed;
    [|destruct (find _ _); intros E; injection E as <-; now left].
  match goal with
  | |- match ?pick with _ => _ end = _ -> _ => destruct pick as [sc|] eqn:Ec
  end; [|intros E; injection E as <-; now left].
  intros E. injection E as <-. right.
  apply find_some in Ed as [Hsd Vd]. apply find_some in Ec as [Hsc Vc].
  apply sort_desc_In in Hsd. apply sort_desc_In in Hsc.
  apply andb_prop in Vc as [Hdiff Vc].
  unfold RAGMapper.isValidDebitAccount in Vd.
  unfold RAGMapper.isValidCreditAccount in Vc.
  destruct (normal_balance_is_true _ _ _ Vd) as (_ & a & _ & _ & Ha & _).
  destruct (normal_balance_is_true _ _ _ Vc) as (_ & b & _ & _ & Hb & _).
  exists de, scores, sd, sc, a, b.
  rewrite Ha in *. rewrite Hb in *. simpl in Hdiff.
  repeat split; auto.
  intros ->. unfold Account.eqb in Hdiff.
  destruct (Account.eq_dec b b); [discriminate | congruence].
Qed.

Lemma scored_account_In `{Runtime} this embedding debitEntry scores s a :
  AccountPatternBuilder.map_result
    (RAGMapper.scoreEmbedding this embedding debitEntry)
    (RAGMapper.accountEmbeddings this) = JS.Ok scores ->
  In s scores -> RAGMapper.account s = Some a -> In a (RAGMapper.accounts this).
Proof.
  intros Escores Hs Ha.
  destruct (map_result_In _ _ _ _ Escores Hs) as ([accountId e] & _ & Hscore).
  apply scoreEmbedding_spec in Hscore as (_ & _ & Hacc & _).
  rewrite Ha in Hacc. symmetry in Hacc. apply find_some in Hacc. tauto.
Qed.

Lemma RAG_mapTransaction_shape `{Runtime} this transaction :
  RAGMapper.mapTransaction this transaction = MappingResult.unmapped
  \/ exists a b q,
      RAGMapper.mapTransaction this transaction
      = MappingResult.mk (Some (FullAccount a)) (Some (FullAccount b)) q
      /\ In a (RAGMapper.accounts this) /\ In b (RAGMapper.accounts this) /\ a <> b.
Proof.
  unfold RAGMapper.mapTransaction, RAGMapper.mapTransaction_try.
  destruct (RAGMapper.findBestMatches _ _ _) as [r|e] eqn:E; simpl; [|now left].
  apply findBestMatches_shape in E
    as [-> | (de & scores & sd & sc & a & b & _ & Es & Hsd & Hsc & Ha & Hb & _ & _ & Hab & ->)].
  - now left.
  - right. exists a, b, (Qmin (RAGMapper.similarity sd) (RAGMapper.similarity sc)).
    repeat split; eauto using scored_account_In.
Qed.

(** C1, at work: the purchase of supplies is settled by the account matcher. *)
Lemma mapTransaction_cascade_witness :
  exists result entry,
    @MappingOrchestrator.mapTransaction Fixtures.strict Fixtures.ready
      (Fixtures.purchase "Payment for office supplies") = JS.Ok (result, entry)
    /\ message entry = "Account matching successful"
    /\ result = MappingResult.mk (Some (FullAccount Fixtures.supplies))
                                 (Some (FullAccount Fixtures.payable)) 0.6.
Proof.
  destruct (@mapTransaction_cascade Fixtures.strict Fixtures.ready
              (Fixtures.purchase "Payment for office supplies") eq_refl)
    as (result & entry & E & _ & _ & _ & _ & _ & Hacc & _).
  exists result, entry. split; [exact E|].
  vm_compute in E. injection E as <- <-. split; [reflexivity|].
  destruct (Hacc eq_refl) as (a & b & Hres & _).
  vm_compute in Hres. injection Hres as <- <-. reflexivity.
Defined.

(** C6, at work: the debit entry numbered 5200 gets the supplies account, an
    expense account of debit normal balance; the same number on a credit
    entry gets nothing. *)
Lemma findMatchingAccount_sign_gate_witness :
  let matcher := AccountMatcher.initialize Fixtures.chart Fixtures.standard in
  let transaction := Fixtures.purchase "Payment for office supplies" in
  @AccountMatcher.findMatchingAccount Fixtures.strict matcher
    (Fixtures.entry "5200" debit "500.00") transaction = Some Fixtures.supplies
  /\ @AccountMatcher.findMatchingAccount Fixtures.strict matcher
       (Fixtures.entry "5200" credit "500.00") transaction = None.
Proof.
  intros matcher transaction. split.
  - destruct (@findMatchingAccount_sign_gate Fixtures.strict matcher Fixtures.standard
                (Fixtures.entry "5200" debit "500.00") transaction eq_refl)
      as (_ & Hyes & _).
    apply Hyes.
    + apply produces_exact. reflexivity.
    + exists {| AccountingStandard.normalBalance := debit |}. split; reflexivity.
  - destruct (@findMatchingAccount_sign_gate Fixtures.strict matcher Fixtures.standard
                (Fixtures.entry "5200" credit "500.00") transaction eq_refl)
      as (_ & _ & Hno & _).
    apply (Hno Fixtures.supplies).
    + apply produces_exact. reflexivity.
    + intros (sc & E & Hnb). vm_compute in E. injection E as <-. discriminate.
Defined.

(* ------------------------------------------------------------------ *)
(** * What the accepted stage puts in the result *)

Lemma mapTransaction_initialized `{Runtime} this transaction outcome :
  MappingOrchestrator.mapTransaction this transaction = JS.Ok outcome ->
  MappingOrchestrator.initialized this = true.
Proof.
  unfold MappingOrchestrator.mapTransaction.
  destruct (MappingOrchestrator.initialized this); [reflexivity | discriminate].
Qed.

Lemma resolvedPair_In `{Runtime} matcher transaction a b :
  resolvedPair matcher transaction = Some (a, b) ->
  In a (AccountMatcher.accounts matcher) /\ In b (AccountMatcher.accounts matcher).
Proof.
  unfold resolvedPair.
  destruct (Transaction.find_entry transaction debit) as [de|]; [|discriminate].
  destruct (Transaction.find_entry transaction credit) as [ce|]; [|discriminate].
  destruct (AccountMatcher.findMatchingAccount matcher de transaction) as [x|] eqn:Ex;
    [|discriminate].
  destruct (AccountMatcher.findMatchingAccount matcher ce transaction) as [y|] eqn:Ey;
    [|discriminate].
  intros E. injection E as <- <-.
  apply findMatchingAccount_produces in Ex as [Hx _].
  apply findMatchingAccount_produces in Ey as [Hy _].
  split; eapply produces_In; eassumption.
Qed.

(** C10. When the pattern stage is the one accepted, both accounts of the
    result are [{ id }] objects that hold the account id of the head
    candidate and nothing else; when the RAG stage or the account matcher is
    accepted, both are accounts of the chart the component was initialised
    with. *)
Theorem accepted_accounts_shape `{Runtime}
        (this : MappingOrchestrator.t) (transaction : Transaction.t)
        (result : MappingResult.t) (entry : LogEntry) :
  MappingOrchestrator.mapTransaction this transaction = JS.Ok (result, entry) ->
  (message entry = "Pattern matching successful" ->
   exists p,
     headPair (TransactionPatternMatcher.findMatches
                 (MappingOrchestrator.transactionPatternMatcher this) transaction) = Some p
     /\ MappingResult.debitAccount result
        = Some (IdOnly (TransactionPatternMatcher.accountId (fst p)))
     /\ MappingResult.creditAccount result
        = Some (IdOnly (TransactionPatternMatcher.accountId (snd p))))
  /\ (message entry = "RAG mapping successful" ->
      exists a b,
        MappingResult.debitAccount result = Some (FullAccount a)
        /\ MappingResult.creditAccount result = Some (FullAccount b)
        /\ In a (RAGMapper.accounts (MappingOrchestrator.ragMapper this))
        /\ In b (RAGMapper.accounts (MappingOrchestrator.ragMapper this)))
  /\ (message entry = "Account matching successful" ->
      exists a b,
        MappingResult.debitAccount result = Some (FullAccount a)
        /\ MappingResult.creditAccount result = Some (FullAccount b)
        /\ In a (AccountMatcher.accounts (MappingOrchestrator.accountMatcher this))
        /\ In b (AccountMatcher.accounts (MappingOrchestrator.accountMatcher this))).
Proof.
  intros E. pose proof (mapTransaction_initialized _ _ _ E) as Hinit.
  destruct (cascade_cases this transaction Hinit)
    as (result' & entry' & E' & Hrag & Hrag' & _ & Hpat & _ & Hacc & _).
  rewrite E in E'. injection E' as <- <-.
  split; [|split].
  - intros Hm. destruct (Hpat Hm) as (p & Hp & ->). exists p. auto.
  - intros Hm. pose proof (proj1 Hrag Hm) as Hlt. rewrite (Hrag' Hm) in *.
    destruct (RAG_mapTransaction_shape (MappingOrchestrator.ragMapper this) transaction)
      as [Hu | (a & b & q & Hr & Ha & Hb & _)].
    + rewrite Hu in Hlt. vm_compute in Hlt. discriminate.
    + exists a, b. rewrite Hr. auto.
  - intros Hm. destruct (Hacc Hm) as (a & b & Hres & ->).
    apply resolvedPair_In in Hres as [Ha Hb]. exists a, b. auto.
Qed.

(** C10, at work: after one confirmed mapping the same purchase comes back
    from the pattern stage with two id-only objects. *)
Lemma accepted_accounts_shape_witness :
  let this :=
    MappingOrchestrator.learnFromTransaction Fixtures.ready
      (Fixtures.purchase "Office Depot supplies") "acc-5200" "acc-2000" in
  exists result entry,
    @MappingOrchestrator.mapTransaction Fixtures.strict this
      (Fixtures.purchase "Office Depot supplies") = JS.Ok (result, entry)
    /\ MappingResult.debitAccount result = Some (IdOnly "acc-5200")
    /\ MappingResult.creditAccount result = Some (IdOnly "acc-2000").
Proof.
  intros this.
  destruct (@MappingOrchestrator.mapTransaction Fixtures.strict this
              (Fixtures.purchase "Office Depot supplies")) as [[result entry]|e] eqn:E;
    [|vm_compute in E; discriminate].
  exists result, entry. split; [reflexivity|].
  destruct (@accepted_accounts_shape Fixtures.strict this _ result entry E)
    as (Hpat & _ & _).
  vm_compute in E. injection E as <- <-.
  destruct (Hpat eq_refl) as (p & Hp & Hd & Hc).
  vm_compute in Hp. injection Hp as <-. split; [exact Hd | exact Hc].
Defined.

(* ------------------------------------------------------------------ *)
(** * Failures inside the stages *)

Lemma RAG_missing_entry `{Runtime} this transaction :
  Transaction.find_entry transaction debit = None
  \/ Transaction.find_entry transaction credit = None ->
  RAGMapper.mapTransaction this transaction = MappingResult.unmapped.
Proof.
  unfold RAGMapper.mapTransaction, RAGMapper.mapTransaction_try,
    RAGMapper.findBestMatches.
  intros [E | E]; rewrite E; [reflexivity|].
  destruct (Transaction.find_entry transaction debit); reflexivity.
Qed.

Lemma tryAccountMatching_missing_entry `{Runtime} this transaction :
  Transaction.find_entry transaction debit = None
  \/ Transaction.find_entry transaction credit = None ->
  MappingOrchestrator.tryAccountMatching_try this transaction
  = JS.Throw (JS.Error "Transaction must have both debit and credit entries")
  /\ MappingOrchestrator.tryAccountMatching this transaction = MappingResult.unmapped.
Proof.
  unfold MappingOrchestrator.tryAccountMatching,
    MappingOrchestrator.tryAccountMatching_try.
  intros [E | E]; rewrite E.
  - split; reflexivity.
  - destruct (Transaction.find_entry transaction debit); split; reflexivity.
Qed.

Lemma findMatches_scan_failed `{Runtime} this transaction e :
  TransactionPatternMatcher.findSimilarDescriptionMatches this transaction = JS.Throw e ->
  TransactionPatternMatcher.findMatches this transaction
  = TransactionPatternMatcher.exactMatches this transaction.
Proof.
  intros E. unfold TransactionPatternMatcher.findMatches. rewrite E. reflexivity.
Qed.

(** The scan stops at the first stored description whose length differs from
    the transaction's, whatever the cosine routine is. *)
Lemma similar_loop_length_mismatch `{Runtime} transaction desc pattern rest results :
  String.length (Transaction.description transaction) <> String.length desc ->
  TransactionPatternMatcher.similar_loop transaction ((desc, pattern) :: rest) results
  = JS.Throw (JS.Error "Vectors must have the same length").
Proof.
  intros Hlen. simpl. unfold SimilarityCalculator.calculateSimilarity. simpl.
  apply Nat.eqb_neq in Hlen. rewrite Hlen. reflexivity.
Qed.

(** C2, as the code has it.  An initialised orchestrator always answers, and
    never through its own [catch] branch; before initialisation the call
    fails.  A failure in the [try] block of the RAG mapper or of the account
    stage, a missing debit or credit entry included, makes that stage answer
    [{ confidence: 0 }].  A failure of the similarity scan inside
    [findMatches] leaves the exact historical and vendor candidates in
    place. *)
Theorem mapTransaction_failures `{Runtime}
        (this : MappingOrchestrator.t) (transaction : Transaction.t) :
  (MappingOrchestrator.initialized this = true ->
   exists result entry,
     MappingOrchestrator.mapTransaction this transaction = JS.Ok (result, entry)
     /\ message entry <> "Error mapping transaction")
  /\ (MappingOrchestrator.initialized this = false ->
      MappingOrchestrator.mapTransaction this transaction
      = JS.Throw (JS.Error "Mapping orchestrator not initialized"))
  /\ (forall e,
         RAGMapper.mapTransaction_try (MappingOrchestrator.ragMapper this) transaction
         = JS.Throw e ->
         RAGMapper.mapTransaction (MappingOrchestrator.ragMapper this) transaction
         = MappingResult.unmapped)
  /\ (forall e,
         MappingOrchestrator.tryAccountMatching_try this transaction = JS.Throw e ->
         MappingOrchestrator.tryAccountMatching this transaction = MappingResult.unmapped)
  /\ (Transaction.find_entry transaction debit = None
      \/ Transaction.find_entry transaction credit = None ->
      RAGMapper.mapTransaction (MappingOrchestrator.ragMapper this) transaction
      = MappingResult.unmapped
      /\ MappingOrchestrator.tryAccountMatching this transaction = MappingResult.unmapped)
  /\ (forall e,
         TransactionPatternMatcher.findSimilarDescriptionMatches
           (MappingOrchestrator.transactionPatternMatcher this) transaction = JS.Throw e ->
         TransactionPatternMatcher.findMatches
           (MappingOrchestrator.transactionPatternMatcher this) transaction
         = TransactionPatternMatcher.exactMatches
             (MappingOrchestrator.transactionPatternMatcher this) transaction).
Proof.
  split; [|split; [|split; [|split; [|split]]]].
  - intros Hinit.
    destruct (cascade_cases this transaction Hinit)
      as (result & entry & E & Hrag & _ & Hpat & _ & Hacc & _ & Hnone & _).
    exists result, entry. split; [exact E|]. intros Hm.
    unfold MappingOrchestrator.mapTransaction in E. rewrite Hinit in E. simpl in E.
    injection E as E.
    destruct (JS.gt _ 0.8) in E; simpl in E;
      [injection E as <- <-; discriminate|].
    destruct (JS.gt _ 0.7) in E; simpl in E;
      [injection E as <- <-; discriminate|].
    destruct (JS.gt _ 0) in E; simpl in E; injection E as <- <-; discriminate.
  - intros Hinit. unfold MappingOrchestrator.mapTransaction. now rewrite Hinit.
  - intros e E. unfold RAGMapper.mapTransaction. now rewrite E.
  - intros e E. unfold MappingOrchestrator.tryAccountMatching. now rewrite E.
  - intros Hmissing. split.
    + now apply RAG_missing_entry.
    + now apply tryAccountMatching_missing_entry.
  - intros e E. now apply findMatches_scan_failed with e.
Qed.

(** C2, at work: a transaction with no credit entry is answered with
    [{ confidence: 0 }], and a fresh orchestrator refuses the call. *)
Lemma mapTransaction_failures_witness :
  let debitOnly :=
    Transaction.mk "tx-2" "Payment for office supplies" None "2024-03-15"
      [Fixtures.entry "5200" debit "500.00"] in
  @MappingOrchestrator.mapTransaction Fixtures.strict Fixtures.ready debitOnly
  = JS.Ok (MappingResult.unmapped,
           {| level := warning; message := "No successful mapping found" |})
  /\ @MappingOrchestrator.mapTransaction Fixtures.strict MappingOrchestrator.fresh debitOnly
     = JS.Throw (JS.Error "Mapping orchestrator not initialized").
Proof.
  intros debitOnly.
  destruct (@mapTransaction_failures Fixtures.strict Fixtures.ready debitOnly)
    as (Hok & _).
  destruct (@mapTransaction_failures Fixtures.strict MappingOrchestrator.fresh debitOnly)
    as (_ & Hfresh & _).
  split.
  - destruct (Hok eq_refl) as (result & entry & E & _).
    rewrite E. vm_compute in E. injection E as <- <-. reflexivity.
  - exact (Hfresh eq_refl).
Defined.

(** The defect behind C2: with "monthly rent" and "office depot supplies"
    learned, the similarity scan for a transaction described "Office Depot
    supplies" fails on the first stored description, yet the pattern stage
    answers with confidence 0.95 and is the stage accepted. *)
Lemma pattern_stage_failure_keeps_confidence :
  let this :=
    MappingOrchestrator.learnFromTransaction
      (MappingOrchestrator.learnFromTransaction Fixtures.ready
         (Fixtures.purchase "Monthly rent") "acc-6100" "acc-1000")
      (Fixtures.purchase "Office Depot supplies") "acc-5200" "acc-2000" in
  let transaction := Fixtures.purchase "Office Depot supplies" in
  @TransactionPatternMatcher.findSimilarDescriptionMatches Fixtures.strict
    (MappingOrchestrator.transactionPatternMatcher this) transaction
  = JS.Throw (JS.Error "Vectors must have the same length")
  /\ ~ (MappingResult.confidence
          (@MappingOrchestrator.tryPatternMatching Fixtures.strict this transaction) == 0)%Q
  /\ @MappingOrchestrator.mapTransaction Fixtures.strict this transaction
     = JS.Ok (MappingResult.mk (Some (IdOnly "acc-5200")) (Some (IdOnly "acc-2000")) 0.95,
              {| level := info; message := "Pattern matching successful" |}).
Proof.
  intros this transaction. split; [|split].
  - vm_compute. reflexivity.
  - vm_compute. discriminate.
  - vm_compute. reflexivity.
Qed.

(* ------------------------------------------------------------------ *)
(** * Confidence ranges *)

(** A routine that needs arrays fails on two strings: the length check
    throws, or the routine does. *)
Lemma calculateSimilarity_strings `{R : Runtime} (a b : string) :
  cosine_needs_arrays R ->
  exists e, SimilarityCalculator.calculateSimilarity (JS.Str a) (JS.Str b) = JS.Throw e.
Proof.
  intros Hneeds. unfold SimilarityCalculator.calculateSimilarity.
  destruct (negb _); [eexists; reflexivity|].
  exact (Hneeds (JS.Str a) (JS.Str b)).
Qed.

(** On arrays that pass the length check the similarity is the routine's
    answer. *)
Lemma calculateSimilarity_answer `{Runtime} x y q :
  SimilarityCalculator.calculateSimilarity x y = JS.Ok q ->
  computeCosineSimilarity x y = JS.Ok q.
Proof.
  unfold SimilarityCalculator.calculateSimilarity.
  destruct (negb _); [discriminate | auto].
Qed.

(** The two boosts of one transaction are never both 1.2. *)
Lemma boost_cases (amount : option Q) :
  let d := RAGMapper.getSignConventionBoost debit amount in
  let c := RAGMapper.getSignConventionBoost credit amount in
  (d = 1.2%Q /\ c = 0.8%Q) \/ (d = 0.8%Q /\ c = 1.2%Q) \/ (d = 0.8%Q /\ c = 0.8%Q).
Proof.
  unfold RAGMapper.getSignConventionBoost, JS.gt, JS.lt.
  destruct amount as [a|]; simpl; [|tauto].
  destruct (Qcompare a 0); simpl; tauto.
Qed.

(** The confidence of a RAG result that names accounts: the smaller of two
    answers of the cosine routine, each multiplied by its boost. *)
Lemma RAG_confidence_value `{Runtime} this transaction :
  let embedding :=
    RAGMapper.createTransactionEmbedding this transaction
      (TransactionFeatureExtractor.extractFeatures transaction) in
  RAGMapper.mapTransaction this transaction = MappingResult.unmapped
  \/ exists debitSide creditSide qd qc bd bc,
      In debitSide (RAGMapper.accountEmbeddings this)
      /\ In creditSide (RAGMapper.accountEmbeddings this)
      /\ computeCosineSimilarity (JS.Arr embedding) (JS.Arr (snd debitSide)) = JS.Ok qd
      /\ computeCosineSimilarity (JS.Arr embedding) (JS.Arr (snd creditSide)) = JS.Ok qc
      /\ ((bd = 1.2 /\ bc = 0.8) \/ (bd = 0.8 /\ bc = 1.2) \/ (bd = 0.8 /\ bc = 0.8))%Q
      /\ MappingResult.confidence (RAGMapper.mapTransaction this transaction)
         = Qmin (qd * bd) (qc * bc).
Proof.
  intros embedding.
  unfold RAGMapper.mapTransaction, RAGMapper.mapTransaction_try. fold embedding.
  destruct (RAGMapper.findBestMatches _ _ _) as [r|e] eqn:E; simpl; [|now left].
  apply findBestMatches_shape in E
    as [-> | (de & scores & sd & sc & a & b & _ & Es & Hsd & Hsc & Ha & Hb & Vd & Vc & _ & ->)];
    [now left|].
  right. simpl.
  destruct (map_result_In _ _ _ _ Es Hsd) as ([id1 e1] & Hin1 & S1).
  destruct (map_result_In _ _ _ _ Es Hsc) as ([id2 e2] & Hin2 & S2).
  apply scoreEmbedding_spec in S1 as (q1 & Q1 & _ & B1).
  apply scoreEmbedding_spec in S2 as (q2 & Q2 & _ & B2).
  rewrite Ha in B1. rewrite Hb in B2.
  rewrite (B1 debit Vd), (B2 credit Vc).
  apply calculateSimilarity_answer in Q1. apply calculateSimilarity_answer in Q2.
  exists (id1, e1), (id2, e2), q1, q2.
  eexists _, _. repeat split; eauto.
  apply boost_cases.
Qed.

(** The bar of the RAG stage is the smaller boost: a confidence above 0.8
    takes an answer of the cosine routine above 1. *)
Lemma RAG_accepted_answer `{Runtime} this transaction :
  (0.8 < MappingResult.confidence (RAGMapper.mapTransaction this transaction))%Q ->
  exists side q,
    In side (RAGMapper.accountEmbeddings this)
    /\ computeCosineSimilarity
         (JS.Arr (RAGMapper.createTransactionEmbedding this transaction
                    (TransactionFeatureExtractor.extractFeatures transaction)))
         (JS.Arr (snd side)) = JS.Ok q
    /\ (1 < q)%Q.
Proof.
  intros Hlt.
  destruct (RAG_confidence_value this transaction)
    as [E | (ds & cs & qd & qc & bd & bc & Hd & Hc & Qd & Qc & Hb & E)].
  - rewrite E in Hlt. discriminate.
  - rewrite E in Hlt.
    pose proof (Q.le_min_l (qd * bd) (qc * bc)) as Hl.
    pose proof (Q.le_min_r (qd * bd) (qc * bc)) as Hr.
    destruct Hb as [[-> ->] | [[-> ->] | [-> ->]]].
    + exists cs, qc. repeat split; auto. lra.
    + exists ds, qd. repeat split; auto. lra.
    + exists ds, qd. repeat split; auto. lra.
Qed.

Lemma Map_get_In {V} (m : JS.Map V) k v : JS.Map_get m k = Some v -> In (k, v) m.
Proof.
  induction m as [|[k' v'] m IH]; simpl; [discriminate|].
  destruct (String.eqb k' k) eqn:E.
  - apply String.eqb_eq in E. intros Hv. injection Hv as <-. subst. now left.
  - intros Hv. right. now apply IH.
Qed.

Lemma Map_set_Forall {V} (P : string * V -> Prop) (m : JS.Map V) k v :
  Forall P m -> P (k, v) -> Forall P (JS.Map_set m k v).
Proof.
  intros Hm Hv. induction Hm as [|[k' v'] m Hx Hm IH]; simpl.
  - constructor; [exact Hv | constructor].
  - destruct (String.eqb k' k); constructor; auto.
Qed.

Lemma incrementAccountUsage_positive (usage : JS.Map Z) accountId :
  Forall (fun e => (0 < snd e)%Z) usage ->
  Forall (fun e => (0 < snd e)%Z)
         (TransactionPatternMatcher.incrementAccountUsage usage accountId).
Proof.
  intros Hpos. unfold TransactionPatternMatcher.incrementAccountUsage.
  apply Map_set_Forall; [exact Hpos|]. simpl.
  destruct (JS.Map_get usage accountId) as [n|] eqn:E; [|lia].
  apply Map_get_In in E. rewrite Forall_forall in Hpos.
  specialize (Hpos _ E). simpl in Hpos. lia.
Qed.

(** Every usage count is at least one, by induction on the confirmed
    mappings. *)
Lemma learned_usage_positive this :
  learned this ->
  Forall (fun e => (0 < snd e)%Z) (TransactionPatternMatcher.accountUsageFrequency this).
Proof.
  induction 1 as [|this transaction d c _ IH]; simpl.
  - constructor.
  - now do 2 apply incrementAccountUsage_positive.
Qed.

(** A usage count can only be there if a description was stored. *)
Lemma learned_tables this :
  learned this ->
  TransactionPatternMatcher.accountUsageFrequency this = []
  \/ TransactionPatternMatcher.historicalPatterns this <> [].
Proof.
  induction 1 as [|this transaction d c _ IH]; simpl; [now left|].
  right. destruct (TransactionPatternMatcher.historicalPatterns this) as [|[k v] m];
    simpl; [discriminate|].
  destruct (String.eqb k _); discriminate.
Qed.

(** With a routine that needs arrays the scan fails on the first stored
    description. *)
Lemma similar_loop_throws `{R : Runtime} transaction entries results :
  cosine_needs_arrays R ->
  entries <> [] ->
  exists e, TransactionPatternMatcher.similar_loop transaction entries results = JS.Throw e.
Proof.
  intros Hneeds Hne. destruct entries as [|[desc pattern] rest]; [now elim Hne|].
  simpl.
  destruct (calculateSimilarity_strings (Transaction.description transaction) desc Hneeds)
    as [e ->].
  now exists e.
Qed.

(** On tables filled by confirmed mappings, and with a routine that needs
    arrays, [findMatches] returns the exact candidates and nothing else: the
    scan fails as soon as a description is stored, and without a stored
    description no account has been used. *)
Lemma learned_findMatches_exact `{R : Runtime} this transaction :
  cosine_needs_arrays R ->
  learned this ->
  TransactionPatternMatcher.findMatches this transaction
  = TransactionPatternMatcher.exactMatches this transaction.
Proof.
  intros Hneeds Hlearned.
  destruct (TransactionPatternMatcher.historicalPatterns this) as [|entry rest] eqn:Eh.
  - destruct (learned_tables this Hlearned) as [Hu | Hne]; [|now rewrite Eh in Hne].
    unfold TransactionPatternMatcher.findMatches,
      TransactionPatternMatcher.findSimilarDescriptionMatches,
      TransactionPatternMatcher.getFrequencyBasedMatches.
    rewrite Eh, Hu. simpl.
    destruct (TransactionPatternMatcher.exactMatches this transaction) as [ds cs].
    unfold TransactionPatternMatcher.push. simpl. now rewrite !app_nil_r.
  - destruct (similar_loop_throws transaction
                (TransactionPatternMatcher.historicalPatterns this)
                {| TransactionPatternMatcher.debitMatches := [];
                   TransactionPatternMatcher.creditMatches := [] |} Hneeds) as [e E];
      [rewrite Eh; discriminate|].
    now apply findMatches_scan_failed with e.
Qed.

Lemma exactMatches_confidence this transaction m :
  In m (candidates (TransactionPatternMatcher.exactMatches this transaction)) ->
  TransactionPatternMatcher.confidence m = 0.95%Q
  \/ TransactionPatternMatcher.confidence m = 0.9%Q.
Proof.
  unfold candidates, TransactionPatternMatcher.exactMatches.
  destruct (TransactionPatternMatcher.findHistoricalMatch this transaction);
    destruct (TransactionPatternMatcher.findVendorMatch this transaction); simpl;
    intuition (subst; simpl; auto).
Qed.

(** The answer of [mapTransaction] with the stage it came from *)
Lemma cascade_result `{Runtime} this transaction result entry :
  MappingOrchestrator.mapTransaction this transaction = JS.Ok (result, entry) ->
  (message entry = "RAG mapping successful"
   /\ result = RAGMapper.mapTransaction (MappingOrchestrator.ragMapper this) transaction
   /\ (0.8 < MappingResult.confidence result)%Q)
  \/ (message entry = "Pattern matching successful"
      /\ exists p,
          headPair (TransactionPatternMatcher.findMatches
                      (MappingOrchestrator.transactionPatternMatcher this) transaction)
          = Some p
          /\ MappingResult.confidence result = pairConfidence p)
  \/ (message entry = "Account matching successful"
      /\ MappingResult.confidence result = 0.6%Q)
  \/ (message entry = "No successful mapping found"
      /\ result = MappingResult.unmapped).
Proof.
  intros E. pose proof (mapTransaction_initialized _ _ _ E) as Hinit.
  destruct (cascade_cases this transaction Hinit)
    as (result' & entry' & E' & Hrag & Hrag' & Hpat & Hpat' & Hacc & Hacc' & Hnone & Hnone').
  rewrite E in E'. injection E' as <- <-.
  set (rag := RAGMapper.mapTransaction (MappingOrchestrator.ragMapper this) transaction) in *.
  destruct (Qlt_le_dec 0.8 (MappingResult.confidence rag)) as [Hlt | Hle].
  { left. pose proof (proj2 Hrag Hlt) as Hm. rewrite (Hrag' Hm). auto. }
  right. apply Qle_not_lt in Hle.
  pose proof (patternAccepted_dec
                (TransactionPatternMatcher.findMatches
                   (MappingOrchestrator.transactionPatternMatcher this) transaction)) as Hdec.
  assert (Hcases :
            patternAccepted
              (TransactionPatternMatcher.findMatches
                 (MappingOrchestrator.transactionPatternMatcher this) transaction)
            \/ ~ patternAccepted
                 (TransactionPatternMatcher.findMatches
                    (MappingOrchestrator.transactionPatternMatcher this) transaction)).
  { destruct (headPair _); [destruct (JS.gt _ 0.7)|]; auto. }
  destruct Hcases as [Hyes | Hno].
  { left. pose proof (proj2 Hpat (conj Hle Hyes)) as Hm. split; [exact Hm|].
    destruct (Hpat' Hm) as (p & Hp & ->). exists p. auto. }
  right.
  destruct (resolvedPair (MappingOrchestrator.accountMatcher this) transaction)
    as [[a b]|] eqn:Eres.
  - left. assert (Hm : message entry = "Account matching successful").
    { apply Hacc. repeat split; auto. discriminate. }
    split; [exact Hm|]. destruct (Hacc' Hm) as (a' & b' & _ & ->). reflexivity.
  - right. assert (Hm : message entry = "No successful mapping found").
    { apply Hnone. auto. }
    split; [exact Hm | exact (Hnone' Hm)].
Qed.

Lemma headPair_In matches p :
  headPair matches = Some p ->
  In (fst p) (candidates matches) /\ In (snd p) (candidates matches).
Proof.
  unfold headPair, candidates.
  destruct (TransactionPatternMatcher.debitMatches matches) as [|d ds]; [discriminate|].
  destruct (TransactionPatternMatcher.creditMatches matches) as [|c cs]; [discriminate|].
  intros E. injection E as <-. simpl. split; [now left|].
  right. rewrite in_app_iff. right. now left.
Qed.

Lemma strict_needs_arrays : cosine_needs_arrays Fixtures.strict.
Proof.
  intros [a|u] [b|v]; simpl; try exact I; eexists; reflexivity.
Qed.

(* ------------------------------------------------------------------ *)
(** * Defects, evaluated *)

(** C5.  With "office depot supplies" learned, a transaction described
    "Office supplies" gets no candidate at all: the scan compares the two
    descriptions through the vector routine, whose length check fails, and
    the [catch] of [findMatches] returns the lists as they stand, before the
    frequency candidates of the two used accounts are added.  This holds for
    every runtime. *)
Theorem findMatches_scan_aborts `{Runtime} :
  let this :=
    TransactionPatternMatcher.learnFromTransaction TransactionPatternMatcher.initialize
      (Fixtures.purchase "Office Depot supplies") "acc-5200" "acc-2000" in
  let transaction := Fixtures.purchase "Office supplies" in
  TransactionPatternMatcher.findSimilarDescriptionMatches this transaction
  = JS.Throw (JS.Error "Vectors must have the same length")
  /\ TransactionPatternMatcher.findMatches this transaction
     = {| TransactionPatternMatcher.debitMatches := [];
          TransactionPatternMatcher.creditMatches := [] |}
  /\ map TransactionPatternMatcher.accountId
         (TransactionPatternMatcher.getFrequencyBasedMatches this)
     = ["acc-5200"; "acc-2000"].
Proof.
  intros this transaction.
  assert (E : TransactionPatternMatcher.findSimilarDescriptionMatches this transaction
              = JS.Throw (JS.Error "Vectors must have the same length")).
  { unfold TransactionPatternMatcher.findSimilarDescriptionMatches.
    apply similar_loop_length_mismatch. vm_compute. discriminate. }
  split; [exact E|]. split.
  - rewrite (findMatches_scan_failed _ _ _ E). reflexivity.
  - reflexivity.
Qed.

(** The part of C5 that holds for every runtime: after a confirmed mapping, a
    transaction with the same normalised description has the historical pair
    at the head of both lists, with confidence 0.95. *)
Lemma historical_match_heads `{Runtime} this transaction debitId creditId again :
  TransactionPatternMatcher.normalizeText (Transaction.description again)
  = TransactionPatternMatcher.normalizeText (Transaction.description transaction) ->
  let this' :=
    TransactionPatternMatcher.learnFromTransaction this transaction debitId creditId in
  exists ds cs,
    TransactionPatternMatcher.findMatches this' again
    = {| TransactionPatternMatcher.debitMatches :=
           {| TransactionPatternMatcher.accountId := debitId;
              TransactionPatternMatcher.confidence := 0.95;
              TransactionPatternMatcher.reason := "Historical pattern match" |} :: ds;
         TransactionPatternMatcher.creditMatches :=
           {| TransactionPatternMatcher.accountId := creditId;
              TransactionPatternMatcher.confidence := 0.95;
              TransactionPatternMatcher.reason := "Historical pattern match" |} :: cs |}.
Proof.
  intros Hsame this'.
  assert (Hget : TransactionPatternMatcher.findHistoricalMatch this' again
                 = Some {| TransactionPatternMatcher.debit := debitId;
                           TransactionPatternMatcher.credit := creditId |}).
  { unfold TransactionPatternMatcher.findHistoricalMatch, this'. simpl. rewrite Hsame.
    generalize (TransactionPatternMatcher.normalizeText (Transaction.description transaction)).
    intros k. induction (TransactionPatternMatcher.historicalPatterns this) as [|[k' v'] m IH];
      simpl.
    - now rewrite String.eqb_refl.
    - destruct (String.eqb k' k) eqn:E; simpl; [now rewrite String.eqb_refl|].
      now rewrite E. }
  unfold TransactionPatternMatcher.findMatches, TransactionPatternMatcher.exactMatches.
  rewrite Hget.
  destruct (TransactionPatternMatcher.findVendorMatch this' again);
    destruct (TransactionPatternMatcher.findSimilarDescriptionMatches this' again);
    simpl; eexists _, _; reflexivity.
Qed.

(** C4.  The pattern stage hands back the heads of its two lists without
    comparing them, so a confirmed mapping that names one account on both
    sides is replayed as it is.  On the chart of the fixtures
    [mapTransaction] returns account acc-1000 as debit and as credit; and for
    every runtime, orchestrator, transaction and account id, once such a
    mapping was learned the pattern stage answers a transaction of the same
    normalised description with that account on both sides, at confidence
    0.95. *)
Theorem pattern_stage_same_account :
  let taught :=
    MappingOrchestrator.learnFromTransaction Fixtures.ready
      (Fixtures.purchase "Petty cash count") "acc-1000" "acc-1000" in
  @MappingOrchestrator.mapTransaction Fixtures.strict taught
    (Fixtures.purchase "Petty cash count")
  = JS.Ok (MappingResult.mk (Some (IdOnly "acc-1000")) (Some (IdOnly "acc-1000")) 0.95,
           {| level := info; message := "Pattern matching successful" |})
  /\ forall (R : Runtime) (this : MappingOrchestrator.t)
            (transaction again : Transaction.t) (accountId : string),
      TransactionPatternMatcher.normalizeText (Transaction.description again)
      = TransactionPatternMatcher.normalizeText (Transaction.description transaction) ->
      @MappingOrchestrator.tryPatternMatching R
        (MappingOrchestrator.learnFromTransaction this transaction accountId accountId)
        again
      = MappingResult.mk (Some (IdOnly accountId)) (Some (IdOnly accountId)) 0.95.
Proof.
  intros taught. split.
  - vm_compute. reflexivity.
  - intros R this transaction again accountId Hsame.
    rewrite tryPatternMatching_eq.
    change (MappingOrchestrator.transactionPatternMatcher
              (MappingOrchestrator.learnFromTransaction this transaction accountId accountId))
      with (TransactionPatternMatcher.learnFromTransaction
              (MappingOrchestrator.transactionPatternMatcher this)
              transaction accountId accountId).
    destruct (historical_match_heads
                (MappingOrchestrator.transactionPatternMatcher this)
                transaction accountId accountId again Hsame) as (ds & cs & Hheads).
    rewrite Hheads. reflexivity.
Qed.

(** C7.  The code "0100" is matched by "100" and by "0100" and not by "0200".
    An account number without a digit normalises to the empty string, and so
    does an account code without a digit: the fuzzy stage matches the two,
    and [findMatchingAccount] returns that account. *)
Theorem fuzzy_match_on_empty_normalization `{Runtime} :
  let numbered := Account.mk "acc-0100" "0100" "Cash" None "asset" "current" true in
  let suspense := Account.mk "acc-9000" "SUSPENSE" "Suspense" None "asset" "other" true in
  let matcher := AccountMatcher.initialize [numbered; suspense] Fixtures.standard in
  AccountMatcher.findFuzzyCodeMatch matcher "100" = Some numbered
  /\ AccountMatcher.findFuzzyCodeMatch matcher "0100" = Some numbered
  /\ AccountMatcher.findFuzzyCodeMatch matcher "0200" = None
  /\ AccountMatcher.normalizeCode "N/A" = ""
  /\ AccountMatcher.normalizeCode "SUSPENSE" = ""
  /\ AccountMatcher.findFuzzyCodeMatch matcher "N/A" = Some suspense
  /\ AccountMatcher.findMatchingAccount matcher
       (Fixtures.entry "N/A" debit "25.00") (Fixtures.purchase "Bank charge")
     = Some suspense.
Proof.
  intros numbered suspense matcher. repeat split; reflexivity.
Qed.

Lemma findSimilarAccounts_throws `{Runtime} this text type_ limit :
  filter (fun '(_, pattern) =>
            negb (JS.truthy type_)
            || String.eqb (AccountPatternBuilder.type pattern) (JS.or_empty type_))
         (AccountPatternBuilder.patterns this) <> [] ->
  AccountPatternBuilder.findSimilarAccounts this text type_ limit
  = JS.Throw (JS.TypeError "text1.toLowerCase is not a function").
Proof.
  intros Hne. unfold AccountPatternBuilder.findSimilarAccounts.
  rewrite (map_result_throws _ _ (JS.TypeError "text1.toLowerCase is not a function"));
    [reflexivity | exact Hne |].
  intros [accountId pattern]. reflexivity.
Qed.

(** C9.  [findSimilarAccounts] hands the two vectors to the text processor's
    string similarity, which starts by calling [toLowerCase] on its first
    argument: with patterns built from the chart, the call throws for the
    text "cash", with or without a type filter and a limit, in every
    runtime. *)
Theorem findSimilarAccounts_on_chart `{Runtime} :
  let builder :=
    AccountPatternBuilder.buildPatterns AccountPatternBuilder.empty Fixtures.chart in
  AccountPatternBuilder.findSimilarAccounts builder "cash" None None
  = JS.Throw (JS.TypeError "text1.toLowerCase is not a function")
  /\ AccountPatternBuilder.findSimilarAccounts builder "cash" (Some "asset") (Some 1%Z)
     = JS.Throw (JS.TypeError "text1.toLowerCase is not a function").
Proof.
  intros builder. split; apply findSimilarAccounts_throws; vm_compute; discriminate.
Qed.

(* ------------------------------------------------------------------ *)
(** * Feature weights *)

Lemma word_pairs_type words g :
  In g (TransactionFeatureExtractor.word_pairs words) ->
  TransactionFeature.type g = "description_word_pair".
Proof.
  induction words as [|w1 [|w2 rest] IH]; simpl; try tauto.
  intros [<- | Hg]; [reflexivity | now apply IH].
Qed.

Lemma description_feature_types description g :
  In g (TransactionFeatureExtractor.extractDescriptionFeatures description) ->
  groupWeight (TransactionFeature.type g) = 0.35%Q.
Proof.
  unfold TransactionFeatureExtractor.extractDescriptionFeatures.
  rewrite in_app_iff, in_map_iff. intros [(w & <- & _) | Hg]; [reflexivity|].
  now rewrite (word_pairs_type _ _ Hg).
Qed.

Lemma amount_feature_types `{Runtime} transaction g :
  In g (TransactionFeatureExtractor.extractAmountFeatures transaction) ->
  groupWeight (TransactionFeature.type g) = 0.25%Q.
Proof.
  unfold TransactionFeatureExtractor.extractAmountFeatures.
  rewrite !in_app_iff. intros [[<- | []] | [Hg | Hg]]; [reflexivity | |].
  - destruct (TransactionFeatureExtractor.is_multiple _ 1); [|destruct Hg].
    destruct Hg as [<- | []]. reflexivity.
  - destruct (TransactionFeatureExtractor.isCommonAmount _); [|destruct Hg].
    destruct Hg as [<- | []]. reflexivity.
Qed.

Lemma vendor_feature_types vendor g :
  In g (TransactionFeatureExtractor.extractVendorFeatures vendor) ->
  groupWeight (TransactionFeature.type g) = 0.20%Q.
Proof.
  unfold TransactionFeatureExtractor.extractVendorFeatures.
  intros [<- | Hg]; [reflexivity|].
  apply in_map_iff in Hg as (t & <- & _). reflexivity.
Qed.

Lemma date_feature_types `{Runtime} date g :
  In g (TransactionFeatureExtractor.extractDateFeatures date) ->
  groupWeight (TransactionFeature.type g) = 0.15%Q.
Proof.
  unfold TransactionFeatureExtractor.extractDateFeatures.
  rewrite !in_app_iff. intros [[<- | [<- | []]] | [Hg | Hg]]; try reflexivity.
  - destruct (TransactionFeatureExtractor.isMonthBoundary _); [|destruct Hg].
    destruct Hg as [<- | []]. reflexivity.
  - destruct (TransactionFeatureExtractor.isWeekend _); [|destruct Hg].
    destruct Hg as [<- | []]. reflexivity.
Qed.

Lemma with_weight_In w features f :
  In f (map (TransactionFeature.with_weight w) features) ->
  TransactionFeature.weight f = w
  /\ exists g, In g features /\ TransactionFeature.type f = TransactionFeature.type g
               /\ TransactionFeature.value f = TransactionFeature.value g.
Proof.
  rewrite in_map_iff. intros (g & <- & Hg). split; [reflexivity|].
  exists g. auto.
Qed.

(** C8, as the code has it.  A feature returned by [extractFeatures] has one
    weight, and it is the weight of its group: 0.35 for the description
    tags, 0.25 for the amount tags, 0.20 for the vendor tags, 0.15 for the
    date tags, 0.05 for the transaction type.  The weight a helper extractor
    gave the feature (1, 1.2 or 1.5) is replaced by it. *)
Theorem extractFeatures_group_weight `{Runtime}
        (transaction : Transaction.t) (f : TransactionFeature.t) :
  In f (TransactionFeatureExtractor.extractFeatures transaction) ->
  TransactionFeature.weight f = groupWeight (TransactionFeature.type f).
Proof.
  unfold TransactionFeatureExtractor.extractFeatures.
  rewrite !in_app_iff.
  intros [Hf | [Hf | [Hf | [Hf | [<- | []]]]]].
  - apply with_weight_In in Hf as (-> & g & Hg & -> & _).
    symmetry. now apply description_feature_types with (Transaction.description transaction).
  - apply with_weight_In in Hf as (-> & g & Hg & -> & _).
    symmetry. now apply amount_feature_types with transaction.
  - destruct (JS.truthy (Transaction.customerName transaction)); [|destruct Hf].
    apply with_weight_In in Hf as (-> & g & Hg & -> & _).
    symmetry. now apply vendor_feature_types
                with (JS.or_empty (Transaction.customerName transaction)).
  - apply with_weight_In in Hf as (-> & g & Hg & -> & _).
    symmetry. now apply date_feature_types with (Transaction.date transaction).
  - reflexivity.
Qed.

(** C8, at work: the pair feature of "office supplies" weighs 0.35. *)
Lemma extractFeatures_group_weight_witness :
  TransactionFeature.weight
    (TransactionFeature.mk "description_word_pair"
       (TransactionFeature.VStr "office_supplies") 0.35)
  = groupWeight "description_word_pair".
Proof.
  apply (@extractFeatures_group_weight Fixtures.strict
           (Fixtures.purchase "office supplies")
           (TransactionFeature.mk "description_word_pair"
              (TransactionFeature.VStr "office_supplies") 0.35)).
  vm_compute. right. right. now left.
Defined.

(** The defect behind C8: the helper gives the pair "office_supplies" the
    weight 1.2, and no feature that [extractFeatures] returns for that
    description has it; the pair comes back with 0.35. *)
Lemma pair_weight_is_replaced :
  let transaction := Fixtures.purchase "office supplies" in
  In (TransactionFeature.mk "description_word_pair"
        (TransactionFeature.VStr "office_supplies") 1.2)
     (TransactionFeatureExtractor.extractDescriptionFeatures
        (Transaction.description transaction))
  /\ In (TransactionFeature.mk "description_word_pair"
           (TransactionFeature.VStr "office_supplies") 0.35)
        (@TransactionFeatureExtractor.extractFeatures Fixtures.strict transaction)
  /\ forall f,
      In f (@TransactionFeatureExtractor.extractFeatures Fixtures.strict transaction) ->
      ~ (TransactionFeature.weight f == 1.2)%Q.
Proof.
  intros transaction. split; [|split].
  - vm_compute. right. right. now left.
  - vm_compute. right. right. now left.
  - intros f Hf. vm_compute in Hf.
    repeat (destruct Hf as [<- | Hf]; [vm_compute; discriminate|]).
    destruct Hf.
Qed.

(* ------------------------------------------------------------------ *)
(** * Sets, maps and sorting *)

Lemma array_includes_In (l : list string) (x : string) :
  JS.array_includes l x = true <-> In x l.
Proof.
  unfold JS.array_includes. rewrite existsb_exists. split.
  - intros (y & Hy & E). apply String.eqb_eq in E. now subst.
  - intros Hx. exists x. split; [exact Hx | apply String.eqb_refl].
Qed.

Lemma Set_add_In (s : list string) (x y : string) :
  In y (JS.Set_add s x) <-> In y s \/ y = x.
Proof.
  unfold JS.Set_add. destruct (JS.array_includes s x) eqn:E.
  - apply array_includes_In in E. split; [auto|]. intros [H | ->]; auto.
  - rewrite in_app_iff. simpl. intuition.
Qed.

Lemma Set_add_NoDup (s : list string) (x : string) : NoDup s -> NoDup (JS.Set_add s x).
Proof.
  intros Hs. unfold JS.Set_add. destruct (JS.array_includes s x) eqn:E; [exact Hs|].
  assert (Hx : ~ In x s).
  { intros Hx. apply array_includes_In in Hx. congruence. }
  clear E. induction Hs as [|y s Hy Hs IH]; simpl.
  - constructor; [tauto | constructor].
  - constructor.
    + rewrite in_app_iff. simpl. intros [H | [H | []]]; [tauto|].
      subst. apply Hx. now left.
    + apply IH. intros H. apply Hx. now right.
Qed.

Lemma fold_Set_add_In (l s : list string) (y : string) :
  In y (fold_left JS.Set_add l s) <-> In y s \/ In y l.
Proof.
  revert s. induction l as [|x l IH]; intros s; simpl; [tauto|].
  rewrite IH, Set_add_In. intuition.
Qed.

Lemma fold_Set_add_NoDup (l s : list string) : NoDup s -> NoDup (fold_left JS.Set_add l s).
Proof.
  revert s. induction l as [|x l IH]; intros s Hs; simpl; [exact Hs|].
  apply IH. now apply Set_add_NoDup.
Qed.

Lemma Map_get_set_same {V} (m : JS.Map V) k v : JS.Map_get (JS.Map_set m k v) k = Some v.
Proof.
  induction m as [|[k' v'] m IH]; simpl.
  - now rewrite String.eqb_refl.
  - destruct (String.eqb k' k) eqn:E; simpl; [now rewrite String.eqb_refl|].
    now rewrite E.
Qed.

Lemma Map_get_set_other {V} (m : JS.Map V) k k' v :
  k' <> k -> JS.Map_get (JS.Map_set m k v) k' = JS.Map_get m k'.
Proof.
  intros Hne. induction m as [|[k0 v0] m IH]; simpl.
  - destruct (String.eqb k k') eqn:E; [|reflexivity].
    apply String.eqb_eq in E. congruence.
  - destruct (String.eqb k0 k) eqn:E; simpl.
    + apply String.eqb_eq in E. subst k0.
      destruct (String.eqb k k') eqn:E'; [|reflexivity].
      apply String.eqb_eq in E'. congruence.
    + destruct (String.eqb k0 k'); [reflexivity | exact IH].
Qed.

Lemma Map_set_keys {V} (m : JS.Map V) k v x :
  In x (map fst (JS.Map_set m k v)) <-> In x (map fst m) \/ x = k.
Proof.
  induction m as [|[k' v'] m IH]; simpl.
  - intuition.
  - destruct (String.eqb k' k) eqn:E; simpl.
    + apply String.eqb_eq in E. subst. intuition.
    + rewrite IH. intuition.
Qed.

Lemma Map_set_keys_NoDup {V} (m : JS.Map V) k v :
  NoDup (map fst m) -> NoDup (map fst (JS.Map_set m k v)).
Proof.
  induction m as [|[k' v'] m IH]; simpl; intros Hm.
  - constructor; [tauto | constructor].
  - inversion Hm as [|? ? Hk' Hm']; subst.
    destruct (String.eqb k' k) eqn:E; simpl.
    + apply String.eqb_eq in E. subst. now constructor.
    + constructor; [|now apply IH].
      rewrite Map_set_keys. intros [H | ->]; [tauto|].
      now rewrite String.eqb_refl in E.
Qed.

Lemma Map_set_length {V} (m : JS.Map V) k v :
  (List.length (JS.Map_set m k v) <= S (List.length m))%nat
  /\ (List.length m <= List.length (JS.Map_set m k v))%nat.
Proof.
  induction m as [|[k' v'] m IH]; simpl; [lia|].
  destruct (String.eqb k' k); simpl; lia.
Qed.

Lemma insert_desc_Permutation {A} (key : A -> Q) (x : A) (l : list A) :
  Permutation (JS.insert_desc key x l) (x :: l).
Proof.
  induction l as [|y l IH]; simpl; [reflexivity|].
  destruct (JS.gt (key y) (key x)); [|reflexivity].
  rewrite IH. apply perm_swap.
Qed.

Lemma sort_desc_Permutation {A} (key : A -> Q) (l : list A) :
  Permutation (JS.sort_desc key l) l.
Proof.
  induction l as [|x l IH]; simpl; [reflexivity|].
  rewrite insert_desc_Permutation. now constructor.
Qed.

Lemma firstn_NoDup {A} (n : nat) (l : list A) : NoDup l -> NoDup (firstn n l).
Proof.
  intros Hl. rewrite <- (firstn_skipn n l) in Hl. now apply NoDup_app_remove_r in Hl.
Qed.

(** A list of numbers in non-increasing order *)
Lemma insert_desc_sorted {A} (key : A -> Q) (x : A) (l : list A) :
  StronglySorted (fun a b => (key b <= key a)%Q) l ->
  StronglySorted (fun a b => (key b <= key a)%Q) (JS.insert_desc key x l).
Proof.
  induction 1 as [|y l Hl IH Hy]; simpl.
  - constructor; constructor.
  - destruct (JS.gt (key y) (key x)) eqn:E.
    + apply gt_true in E. constructor; [exact IH|].
      rewrite Forall_forall in *. intros z Hz.
      apply insert_desc_In in Hz as [-> | Hz]; [now apply Qlt_le_weak | now apply Hy].
    + apply gt_false in E. constructor; [now constructor|].
      constructor; [exact E|].
      rewrite Forall_forall in *. intros z Hz.
      eapply Qle_trans; [apply Hy, Hz | exact E].
Qed.

Lemma sort_desc_sorted {A} (key : A -> Q) (l : list A) :
  StronglySorted (fun a b => (key b <= key a)%Q) (JS.sort_desc key l).
Proof.
  induction l as [|x l IH]; simpl; [constructor | now apply insert_desc_sorted].
Qed.

Lemma firstn_sorted {A} (R : A -> A -> Prop) (n : nat) (l : list A) :
  StronglySorted R l -> StronglySorted R (firstn n l).
Proof.
  intros Hl. revert n. induction Hl as [|x l Hl IH Hx]; intros [|n]; simpl;
    try constructor; auto.
  rewrite Forall_forall in *. intros y Hy. apply Hx. eapply In_firstn, Hy.
Qed.

(* ------------------------------------------------------------------ *)
(** * The text processor *)

Lemma chars_str (l : list ascii) : JS.chars (JS.str l) = l.
Proof. apply list_ascii_of_string_of_list_ascii. Qed.

Lemma split_go_chars (sep : ascii -> bool) (P : ascii -> Prop) (cs : list ascii) :
  forall cur in_sep piece,
    (forall c, In c cur -> P c) ->
    (forall c, In c cs -> sep c = false -> P c) ->
    In piece (JS.split_go sep cs cur in_sep) ->
    forall c, In c (JS.chars piece) -> P c.
Proof.
  induction cs as [|c0 cs IH]; simpl; intros cur in_sep piece Hcur Hcs Hpiece c Hc.
  - destruct Hpiece as [<- | []]. rewrite chars_str in Hc.
    apply Hcur. now apply in_rev.
  - destruct (sep c0) eqn:E.
    + destruct in_sep.
      * eapply IH; eauto.
      * destruct Hpiece as [<- | Hpiece].
        -- rewrite chars_str in Hc. apply Hcur. now apply in_rev.
        -- eapply (IH [] true piece); eauto. intros ? [].
    + eapply (IH (c0 :: cur) false piece); eauto.
      intros c' [<- | Hc']; auto.
Qed.

(** X1. A token of [processText] is not empty, is made of lower-case letters
    and digits only, and is not a stop word. *)
Theorem processText_tokens (text word : string) :
  In word (TextProcessor.processText text) ->
  word <> ""
  /\ (forall c, In c (JS.chars word) -> JS.is_lower c || JS.is_digit c = true)
  /\ ~ In word TextProcessor.stopWords.
Proof.
  unfold TextProcessor.processText.
  rewrite !filter_In. intros [[Hsplit Hlen] Hstop].
  split; [|split].
  - intros ->. discriminate.
  - unfold JS.split in Hsplit.
    refine (split_go_chars JS.is_space
              (fun c => JS.is_lower c || JS.is_digit c = true)
              _ [] false word _ _ Hsplit); [intros ? []|].
    intros c Hc Hsp. unfold JS.keep_chars in Hc. rewrite chars_str in Hc.
    apply filter_In in Hc as [_ Hkeep]. rewrite Hsp, orb_false_r in Hkeep. exact Hkeep.
  - intros Hin. apply array_includes_In in Hin. rewrite Hin in Hstop. discriminate.
Qed.

(** X1, at work: the hyphen and the comma of "Office-Supplies," are dropped. *)
Lemma processText_tokens_witness :
  "officesupplies" <> ""
  /\ (forall c, In c (JS.chars "officesupplies") -> JS.is_lower c || JS.is_digit c = true)
  /\ ~ In "officesupplies" TextProcessor.stopWords.
Proof.
  apply (processText_tokens "Payment for Office-Supplies, the 2nd!").
  vm_compute. right. now left.
Defined.

Lemma increment_at_length (v : list Z) (i : nat) :
  List.length (JS.increment_at v i) = List.length v.
Proof.
  revert i. induction v as [|n v IH]; intros [|i]; simpl; auto.
Qed.

Lemma increment_at_sum (v : list Z) (i : nat) :
  (i < List.length v)%nat -> sumZ (JS.increment_at v i) = (sumZ v + 1)%Z.
Proof.
  revert i. induction v as [|n v IH]; intros [|i]; simpl; intros Hi; try lia.
  rewrite IH; lia.
Qed.

Lemma increment_at_nonneg (v : list Z) (i : nat) :
  Forall (fun n => (0 <= n)%Z) v -> Forall (fun n => (0 <= n)%Z) (JS.increment_at v i).
Proof.
  intros Hv. revert i. induction Hv as [|n v Hn Hv IH]; intros [|i]; simpl;
    constructor; auto; lia.
Qed.

Lemma indexOf_spec (l : list string) (x : string) :
  match JS.indexOf l x with
  | Some i => (i < List.length l)%nat /\ JS.array_includes l x = true
  | None => JS.array_includes l x = false
  end.
Proof.
  induction l as [|y l IH]; simpl; [reflexivity|].
  unfold JS.array_includes in *. simpl. rewrite (String.eqb_sym x y).
  destruct (String.eqb y x); simpl; [split; [lia | reflexivity]|].
  destruct (JS.indexOf l x) as [i|]; simpl; [|exact IH].
  destruct IH as [Hi Hin]. split; [lia | exact Hin].
Qed.

Lemma createVector_fold (vocabulary words : list string) (vector : list Z) :
  List.length vector = List.length vocabulary ->
  Forall (fun n => (0 <= n)%Z) vector ->
  let result :=
    fold_left
      (fun vector word =>
         match JS.indexOf vocabulary word with
         | Some index => JS.increment_at vector index
         | None => vector
         end)
      words vector in
  List.length result = List.length vocabulary
  /\ Forall (fun n => (0 <= n)%Z) result
  /\ sumZ result
     = (sumZ vector
        + Z.of_nat (List.length (filter (JS.array_includes vocabulary) words)))%Z.
Proof.
  revert vector. induction words as [|w words IH]; simpl; intros vector Hlen Hpos.
  - repeat split; auto; lia.
  - pose proof (indexOf_spec vocabulary w) as Hw.
    destruct (JS.indexOf vocabulary w) as [i|].
    + destruct Hw as [Hi Hin]. rewrite Hin.
      destruct (IH (JS.increment_at vector i)) as (H1 & H2 & H3).
      * now rewrite increment_at_length.
      * now apply increment_at_nonneg.
      * repeat split; auto. rewrite H3, increment_at_sum by lia.
        simpl List.length. lia.
    + rewrite Hw. now apply IH.
Qed.

Lemma sumZ_repeat_zero (n : nat) : sumZ (repeat 0%Z n) = 0%Z.
Proof. induction n; simpl; auto. Qed.

Lemma createVector_length (text : string) (vocabulary : list string) :
  List.length (TextProcessor.createVector text vocabulary) = List.length vocabulary.
Proof.
  unfold TextProcessor.createVector.
  destruct (createVector_fold vocabulary (TextProcessor.processText text)
              (repeat 0%Z (List.length vocabulary))) as (H1 & _).
  - apply repeat_length.
  - apply Forall_forall. intros n Hn. apply repeat_spec in Hn. lia.
  - exact H1.
Qed.

(** X2. The vector [createVector] builds has one entry per vocabulary token,
    every entry is a count, and the counts add up to the number of tokens of
    the text that are in the vocabulary: the other tokens leave no trace. *)
Theorem createVector_counts (text : string) (vocabulary : list string) :
  List.length (TextProcessor.createVector text vocabulary) = List.length vocabulary
  /\ Forall (fun n => (0 <= n)%Z) (TextProcessor.createVector text vocabulary)
  /\ sumZ (TextProcessor.createVector text vocabulary)
     = Z.of_nat (List.length (filter (JS.array_includes vocabulary)
                                     (TextProcessor.processText text))).
Proof.
  unfold TextProcessor.createVector.
  destruct (createVector_fold vocabulary (TextProcessor.processText text)
              (repeat 0%Z (List.length vocabulary))) as (H1 & H2 & H3).
  - apply repeat_length.
  - apply Forall_forall. intros n Hn. apply repeat_spec in Hn. lia.
  - repeat split; auto. rewrite H3, sumZ_repeat_zero. lia.
Qed.

Lemma buildVocabulary_fold (texts : list string) (vocabulary : list string) :
  NoDup vocabulary ->
  let result :=
    fold_left
      (fun vocabulary text =>
         fold_left JS.Set_add (TextProcessor.processText text) vocabulary)
      texts vocabulary in
  NoDup result
  /\ forall w, In w result <->
               In w vocabulary
               \/ exists text, In text texts /\ In w (TextProcessor.processText text).
Proof.
  revert vocabulary. induction texts as [|t texts IH]; simpl; intros vocabulary Hv.
  - split; [exact Hv|]. intros w. split; [auto|]. intros [H | (? & [] & _)]. exact H.
  - destruct (IH (fold_left JS.Set_add (TextProcessor.processText t) vocabulary))
      as [Hnd Hin]; [now apply fold_Set_add_NoDup|].
    split; [exact Hnd|]. intros w. rewrite Hin, fold_Set_add_In. split.
    + intros [[H | H] | (text & Ht & Hw)]; auto.
      * right. exists t. auto.
      * right. exists text. auto.
    + intros [H | (text & [<- | Ht] & Hw)]; auto.
      right. exists text. auto.
Qed.

(** X3. The vocabulary holds each token once, and holds exactly the tokens of
    the texts it was built from. *)
Theorem buildVocabulary_tokens (texts : list string) :
  NoDup (TextProcessor.buildVocabulary texts)
  /\ forall w,
      In w (TextProcessor.buildVocabulary texts)
      <-> exists text, In text texts /\ In w (TextProcessor.processText text).
Proof.
  unfold TextProcessor.buildVocabulary.
  destruct (buildVocabulary_fold texts []) as [Hnd Hin]; [constructor|].
  split; [exact Hnd|]. intros w. rewrite Hin. split; [|auto].
  intros [[] | H]. exact H.
Qed.

Lemma frequencies_keys (words : list string) (frequencies : JS.Map Z) :
  NoDup (map fst frequencies) ->
  let result :=
    fold_left
      (fun (frequencies : JS.Map Z) word =>
         JS.Map_set frequencies word
           (match JS.Map_get frequencies word with Some n => n | None => 0 end + 1)%Z)
      words frequencies in
  NoDup (map fst result)
  /\ forall w, In w (map fst result) -> In w (map fst frequencies) \/ In w words.
Proof.
  revert frequencies. induction words as [|x words IH]; simpl; intros frequencies Hf.
  - auto.
  - match goal with
    | |- context [fold_left _ words ?m] => destruct (IH m) as [Hnd Hin]
    end; [now apply Map_set_keys_NoDup|].
    split; [exact Hnd|]. intros w Hw. apply Hin in Hw as [Hw | Hw]; auto.
    apply Map_set_keys in Hw as [Hw | ->]; auto.
Qed.

(** X4. [extractKeyPhrases] returns at most five tokens of the text, each of
    them once. *)
Theorem extractKeyPhrases_tokens (text : string) :
  (List.length (TextProcessor.extractKeyPhrases text) <= 5)%nat
  /\ NoDup (TextProcessor.extractKeyPhrases text)
  /\ forall w, In w (TextProcessor.extractKeyPhrases text) ->
               In w (TextProcessor.processText text).
Proof.
  unfold TextProcessor.extractKeyPhrases.
  destruct (frequencies_keys (TextProcessor.processText text) []) as [Hnd Hin];
    [constructor|].
  cbv zeta in Hnd, Hin.
  match goal with
  | |- context [JS.sort_desc _ ?m] => set (frequencies := m) in *
  end.
  assert (Hperm : Permutation
                    (map fst (JS.sort_desc (fun e => inject_Z (snd e)) frequencies))
                    (map fst frequencies))
    by apply Permutation_map, sort_desc_Permutation.
  rewrite <- firstn_map.
  split; [|split].
  - apply firstn_le_length.
  - apply firstn_NoDup. eapply Permutation_NoDup; [symmetry; exact Hperm | exact Hnd].
  - intros w Hw. apply In_firstn in Hw.
    apply (Permutation_in _ Hperm) in Hw. apply Hin in Hw as [[] | Hw]. exact Hw.
Qed.

(* ------------------------------------------------------------------ *)
(** * The RAG mapper, further *)

Lemma createAccountEmbeddings_lengths (vocabulary : list string) (accounts : list Account.t) :
  Forall (fun e => List.length (snd e) = List.length vocabulary)
         (RAGMapper.createAccountEmbeddings vocabulary accounts).
Proof.
  unfold RAGMapper.createAccountEmbeddings.
  assert (Hgen : forall start : JS.Map (list Z),
             Forall (fun e => List.length (snd e) = List.length vocabulary) start ->
             Forall (fun e => List.length (snd e) = List.length vocabulary)
                    (fold_left
                       (fun embeddings account =>
                          JS.Map_set embeddings (Account.id account)
                            (TextProcessor.createVector (account_text account) vocabulary))
                       accounts start)).
  { induction accounts as [|a accounts IH]; simpl; intros start Hstart; [exact Hstart|].
    apply IH. apply Map_set_Forall; [exact Hstart|]. simpl.
    apply createVector_length. }
  apply Hgen. constructor.
Qed.

(** X5. After [initialize], every account embedding has the length of the
    vocabulary, and so has every transaction embedding: the length check of
    [calculateSimilarity] never fires in the RAG mapper, and the similarity is
    what the cosine routine answers. *)
Theorem RAG_vectors_share_length `{Runtime}
        (accounts : list Account.t) (standard : AccountingStandard.t)
        (transaction : Transaction.t) (features : list TransactionFeature.t)
        (accountId : string) (embedding : list Z) :
  let this := RAGMapper.initialize accounts standard in
  In (accountId, embedding) (RAGMapper.accountEmbeddings this) ->
  List.length embedding = List.length (RAGMapper.vocabulary this)
  /\ SimilarityCalculator.calculateSimilarity
       (JS.Arr (RAGMapper.createTransactionEmbedding this transaction features))
       (JS.Arr embedding)
     = computeCosineSimilarity
         (JS.Arr (RAGMapper.createTransactionEmbedding this transaction features))
         (JS.Arr embedding).
Proof.
  intros this Hin.
  assert (Hlen : List.length embedding = List.length (RAGMapper.vocabulary this)).
  { pose proof (createAccountEmbeddings_lengths
                  (RAGMapper.buildVocabulary accounts) accounts) as Hall.
    rewrite Forall_forall in Hall. exact (Hall _ Hin). }
  split; [exact Hlen|].
  unfold SimilarityCalculator.calculateSimilarity, RAGMapper.createTransactionEmbedding.
  simpl JS.length.
  rewrite createVector_length, Hlen, Nat.eqb_refl. reflexivity.
Qed.

(** X5, at work: the embedding of the cash account against a purchase. *)
Lemma RAG_vectors_share_length_witness :
  let this := RAGMapper.initialize Fixtures.chart Fixtures.standard in
  let transaction := Fixtures.purchase "Cash on hand" in
  match JS.Map_get (RAGMapper.accountEmbeddings this) "acc-1000" with
  | Some embedding =>
      List.length embedding = List.length (RAGMapper.vocabulary this)
      /\ @SimilarityCalculator.calculateSimilarity Fixtures.strict
           (JS.Arr (RAGMapper.createTransactionEmbedding this transaction []))
           (JS.Arr embedding)
         = @computeCosineSimilarity Fixtures.strict
             (JS.Arr (RAGMapper.createTransactionEmbedding this transaction []))
             (JS.Arr embedding)
  | None => False
  end.
Proof.
  intros this transaction.
  destruct (JS.Map_get (RAGMapper.accountEmbeddings this) "acc-1000")
    as [embedding|] eqn:E; [|vm_compute in E; discriminate].
  apply Map_get_In in E.
  exact (@RAG_vectors_share_length Fixtures.strict Fixtures.chart Fixtures.standard
           transaction [] "acc-1000" embedding E).
Defined.

(** X6. A RAG result is either [{ confidence: 0 }] or names two different
    accounts of the chart, the debit one of a type whose normal balance is
    debit and the credit one of a type whose normal balance is credit. *)
Theorem RAG_result_sides `{Runtime} (this : RAGMapper.t) (transaction : Transaction.t) :
  RAGMapper.mapTransaction this transaction = MappingResult.unmapped
  \/ exists a b q,
      RAGMapper.mapTransaction this transaction
      = MappingResult.mk (Some (FullAccount a)) (Some (FullAccount b)) q
      /\ In a (RAGMapper.accounts this) /\ In b (RAGMapper.accounts this)
      /\ a <> b
      /\ RAGMapper.isValidDebitAccount this (Some a) = true
      /\ RAGMapper.isValidCreditAccount this (Some b) = true.
Proof.
  unfold RAGMapper.mapTransaction, RAGMapper.mapTransaction_try.
  destruct (RAGMapper.findBestMatches _ _ _) as [r|e] eqn:E; simpl; [|now left].
  apply findBestMatches_shape in E
    as [-> | (de & scores & sd & sc & a & b & _ & Es & Hsd & Hsc & Ha & Hb & Vd & Vc & Hab & ->)].
  - now left.
  - right. exists a, b, (Qmin (RAGMapper.similarity sd) (RAGMapper.similarity sc)).
    repeat split; eauto using scored_account_In.
Qed.

(** X7. The RAG stage can only be accepted on an answer of the cosine
    routine above 1.  One of the two accounts of a RAG result carries the
    boost 0.8 and the bar is "above 0.8": whenever the RAG confidence exceeds
    0.8, and so whenever [mapTransaction] logs "RAG mapping successful", the
    routine has answered more than 1 for the transaction embedding and the
    embedding of some account.  This holds for every runtime. *)
Theorem rag_accepted_only_above_one `{Runtime}
        (this : MappingOrchestrator.t) (transaction : Transaction.t) :
  let rag := MappingOrchestrator.ragMapper this in
  let answeredAboveOne :=
    exists side q,
      In side (RAGMapper.accountEmbeddings rag)
      /\ computeCosineSimilarity
           (JS.Arr (RAGMapper.createTransactionEmbedding rag transaction
                      (TransactionFeatureExtractor.extractFeatures transaction)))
           (JS.Arr (snd side)) = JS.Ok q
      /\ (1 < q)%Q in
  ((MappingResult.confidence (RAGMapper.mapTransaction rag transaction) <= 0.8)%Q
   \/ answeredAboveOne)
  /\ (forall result entry,
         MappingOrchestrator.mapTransaction this transaction = JS.Ok (result, entry) ->
         message entry = "RAG mapping successful" ->
         answeredAboveOne).
Proof.
  intros rag answeredAboveOne. split.
  - destruct (Qlt_le_dec 0.8 (MappingResult.confidence
                                (RAGMapper.mapTransaction rag transaction)))
      as [Hlt | Hle]; [right | now left].
    now apply RAG_accepted_answer.
  - intros result entry E Hm.
    destruct (cascade_result _ _ _ _ E)
      as [(_ & -> & Hlt) | [(Hm' & _) | [(Hm' & _) | (Hm' & _)]]];
      try (rewrite Hm in Hm'; discriminate).
    now apply RAG_accepted_answer.
Qed.

(* ------------------------------------------------------------------ *)
(** * The orchestrator, further *)

Lemma findMatches_initialize `{Runtime} (transaction : Transaction.t) :
  TransactionPatternMatcher.findMatches TransactionPatternMatcher.initialize transaction
  = {| TransactionPatternMatcher.debitMatches := [];
       TransactionPatternMatcher.creditMatches := [] |}.
Proof.
  unfold TransactionPatternMatcher.findMatches, TransactionPatternMatcher.exactMatches,
    TransactionPatternMatcher.findVendorMatch. simpl.
  destruct (negb (JS.truthy (Transaction.customerName transaction))); reflexivity.
Qed.

(** X8. An orchestrator initialised with an empty chart answers every
    transaction with [{ confidence: 0 }] and the warning "No successful
    mapping found", in every runtime and whatever it held before. *)
Theorem empty_chart_unmapped `{Runtime}
        (this : MappingOrchestrator.t) (standard : AccountingStandard.t)
        (transaction : Transaction.t) :
  MappingOrchestrator.mapTransaction
    (MappingOrchestrator.initialize this [] standard) transaction
  = JS.Ok (MappingResult.unmapped,
           {| level := warning; message := "No successful mapping found" |}).
Proof.
  unfold MappingOrchestrator.mapTransaction. simpl.
  assert (Hrag : RAGMapper.mapTransaction (RAGMapper.initialize [] standard) transaction
                 = MappingResult.unmapped).
  { unfold RAGMapper.mapTransaction, RAGMapper.mapTransaction_try,
      RAGMapper.findBestMatches.
    destruct (Transaction.find_entry transaction debit);
      destruct (Transaction.find_entry transaction credit); reflexivity. }
  rewrite Hrag. simpl.
  rewrite tryPatternMatching_eq. simpl. rewrite findMatches_initialize. simpl.
  rewrite tryAccountMatching_eq. unfold resolvedPair. simpl.
  destruct (Transaction.find_entry transaction debit);
    destruct (Transaction.find_entry transaction credit); reflexivity.
Qed.

(** X9. [initialize] empties the pattern tables: until a mapping is
    confirmed again, the pattern stage is never the one accepted. *)
Theorem initialize_forgets_patterns `{Runtime}
        (this : MappingOrchestrator.t) (accounts : list Account.t)
        (standard : AccountingStandard.t) (transaction : Transaction.t) :
  exists result entry,
    MappingOrchestrator.mapTransaction
      (MappingOrchestrator.initialize this accounts standard) transaction
    = JS.Ok (result, entry)
    /\ message entry <> "Pattern matching successful".
Proof.
  destruct (cascade_cases (MappingOrchestrator.initialize this accounts standard)
              transaction eq_refl)
    as (result & entry & E & _ & _ & Hpat & _).
  exists result, entry. split; [exact E|]. intros Hm.
  apply Hpat in Hm as [_ (p & Hp & _)].
  simpl in Hp. rewrite findMatches_initialize in Hp. discriminate.
Qed.

(** X10. A confirmed mapping is replayed.  An initialised orchestrator that
    has just learned a pair for a description answers a transaction of the
    same normalised description with that pair, as id-only objects, at
    confidence 0.95, whenever the RAG confidence for that transaction is not
    above the bar of 0.8, whatever was learned for the description before and
    whatever the similarity scan does. *)
Theorem learned_mapping_is_replayed `{Runtime}
        (this : MappingOrchestrator.t) (transaction again : Transaction.t)
        (debitAccountId creditAccountId : string) :
  MappingOrchestrator.initialized this = true ->
  TransactionPatternMatcher.normalizeText (Transaction.description again)
  = TransactionPatternMatcher.normalizeText (Transaction.description transaction) ->
  ~ (0.8 < MappingResult.confidence
             (RAGMapper.mapTransaction (MappingOrchestrator.ragMapper this) again))%Q ->
  MappingOrchestrator.mapTransaction
    (MappingOrchestrator.learnFromTransaction
       this transaction debitAccountId creditAccountId) again
  = JS.Ok (MappingResult.mk (Some (IdOnly debitAccountId))
                            (Some (IdOnly creditAccountId)) 0.95,
           {| level := info; message := "Pattern matching successful" |}).
Proof.
  intros Hinit Hsame Hle. apply Qnot_lt_le in Hle.
  set (this' := MappingOrchestrator.learnFromTransaction
                  this transaction debitAccountId creditAccountId).
  destruct (historical_match_heads
              (MappingOrchestrator.transactionPatternMatcher this)
              transaction debitAccountId creditAccountId again Hsame) as (ds & cs & Hheads).
  unfold MappingOrchestrator.mapTransaction.
  change (MappingOrchestrator.initialized this') with (MappingOrchestrator.initialized this).
  rewrite Hinit. simpl.
  change (MappingOrchestrator.ragMapper this') with (MappingOrchestrator.ragMapper this).
  apply gt_false in Hle. rewrite Hle. simpl.
  rewrite tryPatternMatching_eq.
  change (MappingOrchestrator.transactionPatternMatcher this')
    with (TransactionPatternMatcher.learnFromTransaction
            (MappingOrchestrator.transactionPatternMatcher this)
            transaction debitAccountId creditAccountId).
  rewrite Hheads. reflexivity.
Qed.

Lemma learned_mapping_is_replayed_witness :
  @MappingOrchestrator.mapTransaction Fixtures.strict
    (MappingOrchestrator.learnFromTransaction Fixtures.ready
       (Fixtures.purchase "Office Depot supplies") "acc-5200" "acc-2000")
    (Fixtures.purchase "  OFFICE depot Supplies ")
  = JS.Ok (MappingResult.mk (Some (IdOnly "acc-5200")) (Some (IdOnly "acc-2000")) 0.95,
           {| level := info; message := "Pattern matching successful" |}).
Proof.
  assert (Hle : ~ (0.8 < MappingResult.confidence
                           (@RAGMapper.mapTransaction Fixtures.strict
                              (MappingOrchestrator.ragMapper Fixtures.ready)
                              (Fixtures.purchase "  OFFICE depot Supplies ")))%Q).
  { apply Qle_not_lt. apply gt_false. vm_compute. reflexivity. }
  exact (@learned_mapping_is_replayed Fixtures.strict Fixtures.ready
           (Fixtures.purchase "Office Depot supplies")
           (Fixtures.purchase "  OFFICE depot Supplies ")
           "acc-5200" "acc-2000" eq_refl eq_refl Hle).
Defined.

(* ------------------------------------------------------------------ *)
(** * The pattern tables *)

Lemma similar_loop_aligned `{Runtime} (transaction : Transaction.t)
      (entries : JS.Map TransactionPatternMatcher.Pattern) :
  forall results out,
    map confidenceAndReason (TransactionPatternMatcher.debitMatches results)
    = map confidenceAndReason (TransactionPatternMatcher.creditMatches results) ->
    TransactionPatternMatcher.similar_loop transaction entries results = JS.Ok out ->
    map confidenceAndReason (TransactionPatternMatcher.debitMatches out)
    = map confidenceAndReason (TransactionPatternMatcher.creditMatches out).
Proof.
  induction entries as [|[desc pattern] rest IH]; simpl; intros results out Hres E.
  - injection E as <-. exact Hres.
  - destruct (SimilarityCalculator.calculateSimilarity _ _) as [q|e]; simpl in E;
      [|discriminate].
    refine (IH _ out _ E).
    destruct (JS.gt q 0.7); [|exact Hres].
    simpl. rewrite !map_app, Hres. reflexivity.
Qed.

(** X11. The two lists of [findMatches] go in step: they have the same length
    and, position by position, the same confidence and the same reason; only
    the account ids differ. *)
Theorem findMatches_lists_in_step `{Runtime}
        (this : TransactionPatternMatcher.t) (transaction : Transaction.t) :
  let matches := TransactionPatternMatcher.findMatches this transaction in
  map confidenceAndReason (TransactionPatternMatcher.debitMatches matches)
  = map confidenceAndReason (TransactionPatternMatcher.creditMatches matches).
Proof.
  assert (Hexact :
            map confidenceAndReason
              (TransactionPatternMatcher.debitMatches
                 (TransactionPatternMatcher.exactMatches this transaction))
            = map confidenceAndReason
                (TransactionPatternMatcher.creditMatches
                   (TransactionPatternMatcher.exactMatches this transaction))).
  { unfold TransactionPatternMatcher.exactMatches.
    destruct (TransactionPatternMatcher.findHistoricalMatch this transaction);
      destruct (TransactionPatternMatcher.findVendorMatch this transaction); reflexivity. }
  unfold TransactionPatternMatcher.findMatches.
  destruct (TransactionPatternMatcher.findSimilarDescriptionMatches this transaction)
    as [similar|e] eqn:E; simpl; [|exact Hexact].
  rewrite !map_app, Hexact. f_equal. f_equal.
  unfold TransactionPatternMatcher.findSimilarDescriptionMatches in E.
  eapply similar_loop_aligned; [|exact E]. reflexivity.
Qed.

Lemma incrementAccountUsage_sum (usage : JS.Map Z) (accountId : string) :
  sumZ (map snd (TransactionPatternMatcher.incrementAccountUsage usage accountId))
  = (sumZ (map snd usage) + 1)%Z.
Proof.
  unfold TransactionPatternMatcher.incrementAccountUsage.
  induction usage as [|[k v] usage IH]; simpl; [lia|].
  destruct (String.eqb k accountId); simpl; [lia|].
  rewrite IH. lia.
Qed.

Lemma incrementAccountUsage_keys (usage : JS.Map Z) (accountId : string) :
  NoDup (map fst usage) ->
  NoDup (map fst (TransactionPatternMatcher.incrementAccountUsage usage accountId)).
Proof. apply Map_set_keys_NoDup. Qed.

Lemma learnAll_from (confirmed : list (Transaction.t * string * string))
      (start : TransactionPatternMatcher.t) :
  let this :=
    fold_left
      (fun this '(transaction, debitAccountId, creditAccountId) =>
         TransactionPatternMatcher.learnFromTransaction
           this transaction debitAccountId creditAccountId)
      confirmed start in
  (learned start -> learned this)
  /\ sumZ (map snd (TransactionPatternMatcher.accountUsageFrequency this))
     = (sumZ (map snd (TransactionPatternMatcher.accountUsageFrequency start))
        + 2 * Z.of_nat (List.length confirmed))%Z
  /\ (List.length (TransactionPatternMatcher.historicalPatterns this)
      <= List.length (TransactionPatternMatcher.historicalPatterns start)
         + List.length confirmed)%nat
  /\ (List.length (TransactionPatternMatcher.vendorPatterns this)
      <= List.length (TransactionPatternMatcher.vendorPatterns start)
         + List.length confirmed)%nat
  /\ (NoDup (map fst (TransactionPatternMatcher.accountUsageFrequency start)) ->
      NoDup (map fst (TransactionPatternMatcher.accountUsageFrequency this))).
Proof.
  revert start. induction confirmed as [|[[transaction d] c] confirmed IH];
    intros start; cbn [fold_left List.length].
  - repeat split; auto; lia.
  - destruct (IH (TransactionPatternMatcher.learnFromTransaction start transaction d c))
      as (Hl & Hsum & Hh & Hv & Hk).
    cbv zeta. rewrite Nat2Z.inj_succ.
    split; [|split; [|split; [|split]]].
    + intros Hs. apply Hl. now constructor.
    + rewrite Hsum.
      cbn [TransactionPatternMatcher.learnFromTransaction
             TransactionPatternMatcher.accountUsageFrequency].
      rewrite !incrementAccountUsage_sum. lia.
    + etransitivity; [exact Hh|]. simpl.
      pose proof (Map_set_length (TransactionPatternMatcher.historicalPatterns start)
                    (TransactionPatternMatcher.normalizeText
                       (Transaction.description transaction))
                    {| TransactionPatternMatcher.debit := d;
                       TransactionPatternMatcher.credit := c |}). lia.
    + etransitivity; [exact Hv|]. simpl.
      destruct (JS.truthy (Transaction.customerName transaction)); [|lia].
      pose proof (Map_set_length (TransactionPatternMatcher.vendorPatterns start)
                    (TransactionPatternMatcher.normalizeText
                       (JS.or_empty (Transaction.customerName transaction)))
                    {| TransactionPatternMatcher.debit := d;
                       TransactionPatternMatcher.credit := c |}). lia.
    + intros Hs. apply Hk. simpl. now do 2 apply incrementAccountUsage_keys.
Qed.

(** X12. After [initialize] and n confirmed mappings, the usage counts add up
    to 2n, every count is at least 1, no account is counted twice, and
    neither the description table nor the vendor table has more than n
    entries. *)
Theorem learnAll_counts (confirmed : list (Transaction.t * string * string)) :
  let this := learnAll confirmed in
  sumZ (map snd (TransactionPatternMatcher.accountUsageFrequency this))
  = (2 * Z.of_nat (List.length confirmed))%Z
  /\ Forall (fun e => (1 <= snd e)%Z) (TransactionPatternMatcher.accountUsageFrequency this)
  /\ NoDup (map fst (TransactionPatternMatcher.accountUsageFrequency this))
  /\ (List.length (TransactionPatternMatcher.historicalPatterns this)
      <= List.length confirmed)%nat
  /\ (List.length (TransactionPatternMatcher.vendorPatterns this)
      <= List.length confirmed)%nat.
Proof.
  destruct (learnAll_from confirmed TransactionPatternMatcher.initialize)
    as (Hl & Hsum & Hh & Hv & Hk).
  unfold learnAll. simpl in *. repeat split; auto.
  - pose proof (learned_usage_positive _ (Hl learned_initialize)) as Hpos.
    rewrite Forall_forall in *. intros e He. specialize (Hpos e He). lia.
  - apply Hk. constructor.
Qed.

Lemma learned_usage_keys this :
  learned this ->
  NoDup (map fst (TransactionPatternMatcher.accountUsageFrequency this)).
Proof.
  induction 1 as [|this transaction d c _ IH]; simpl; [constructor|].
  now do 2 apply incrementAccountUsage_keys.
Qed.

Lemma StronglySorted_map {A B} (R : A -> A -> Prop) (S : B -> B -> Prop) (f : A -> B)
      (l : list A) :
  (forall a b, R a b -> S (f a) (f b)) ->
  StronglySorted R l -> StronglySorted S (map f l).
Proof.
  intros Hf. induction 1 as [|x l Hl IH Hx]; simpl; constructor; auto.
  rewrite Forall_forall in *. intros y Hy.
  apply in_map_iff in Hy as (a & <- & Ha). auto.
Qed.

(** X13. [getFrequencyBasedMatches] proposes at most five candidates, in
    order of non-increasing confidence; on tables filled by confirmed
    mappings no account is proposed twice. *)
Theorem frequency_candidates_ranked (this : TransactionPatternMatcher.t) :
  (List.length (TransactionPatternMatcher.getFrequencyBasedMatches this) <= 5)%nat
  /\ StronglySorted
       (fun a b => (TransactionPatternMatcher.confidence b
                    <= TransactionPatternMatcher.confidence a)%Q)
       (TransactionPatternMatcher.getFrequencyBasedMatches this)
  /\ (learned this ->
      NoDup (map TransactionPatternMatcher.accountId
                 (TransactionPatternMatcher.getFrequencyBasedMatches this))).
Proof.
  unfold TransactionPatternMatcher.getFrequencyBasedMatches.
  set (size := inject_Z (Z.of_nat (List.length
                  (TransactionPatternMatcher.historicalPatterns this)) * 2)).
  set (sorted := JS.sort_desc (fun e : string * Z => inject_Z (snd e))
                   (TransactionPatternMatcher.accountUsageFrequency this)).
  split; [|split].
  - rewrite length_map. apply firstn_le_length.
  - apply (StronglySorted_map
             (fun a b : string * Z => (inject_Z (snd b) <= inject_Z (snd a))%Q)).
    + intros [ida fa] [idb fb] Hab. simpl in *.
      assert (Hsize : (0 <= / size)%Q).
      { apply Qinv_le_0_compat. unfold size. change 0%Q with (inject_Z 0).
        rewrite <- Zle_Qle. lia. }
      unfold Qdiv.
      pose proof (Qmult_le_compat_r _ _ (/ size) Hab Hsize). lra.
    + apply firstn_sorted. apply sort_desc_sorted.
  - intros Hl. rewrite map_map.
    rewrite (map_ext _ fst) by (intros [? ?]; reflexivity).
    rewrite <- firstn_map. apply firstn_NoDup.
    eapply Permutation_NoDup;
      [symmetry; apply Permutation_map, sort_desc_Permutation|].
    now apply learned_usage_keys.
Qed.

Lemma vendor_match_heads `{Runtime} this transaction debitId creditId again :
  JS.truthy (Transaction.customerName transaction) = true ->
  JS.truthy (Transaction.customerName again) = true ->
  TransactionPatternMatcher.normalizeText (JS.or_empty (Transaction.customerName again))
  = TransactionPatternMatcher.normalizeText
      (JS.or_empty (Transaction.customerName transaction)) ->
  let this' :=
    TransactionPatternMatcher.learnFromTransaction this transaction debitId creditId in
  TransactionPatternMatcher.findVendorMatch this' again
  = Some {| TransactionPatternMatcher.debit := debitId;
            TransactionPatternMatcher.credit := creditId |}.
Proof.
  intros Ht Ha Hsame this'.
  unfold TransactionPatternMatcher.findVendorMatch, this'. simpl.
  rewrite Ha, Ht, Hsame. simpl. apply Map_get_set_same.
Qed.

(** X14. What was confirmed last heads the lists, in every runtime.  After
    [learnFromTransaction], a transaction of the same normalised description
    gets the confirmed pair first, at 0.95; one of another description but
    the same normalised customer name, for which no description is stored,
    gets it first at 0.9. *)
Theorem confirmed_pair_heads_the_lists `{Runtime}
        (this : TransactionPatternMatcher.t) (transaction again : Transaction.t)
        (debitId creditId : string) :
  let this' :=
    TransactionPatternMatcher.learnFromTransaction this transaction debitId creditId in
  let candidate id confidence reason :=
    {| TransactionPatternMatcher.accountId := id;
       TransactionPatternMatcher.confidence := confidence;
       TransactionPatternMatcher.reason := reason |} in
  (TransactionPatternMatcher.normalizeText (Transaction.description again)
   = TransactionPatternMatcher.normalizeText (Transaction.description transaction) ->
   exists ds cs,
     TransactionPatternMatcher.findMatches this' again
     = {| TransactionPatternMatcher.debitMatches :=
            candidate debitId 0.95%Q "Historical pattern match" :: ds;
          TransactionPatternMatcher.creditMatches :=
            candidate creditId 0.95%Q "Historical pattern match" :: cs |})
  /\ (JS.truthy (Transaction.customerName transaction) = true ->
      JS.truthy (Transaction.customerName again) = true ->
      TransactionPatternMatcher.normalizeText (JS.or_empty (Transaction.customerName again))
      = TransactionPatternMatcher.normalizeText
          (JS.or_empty (Transaction.customerName transaction)) ->
      TransactionPatternMatcher.findHistoricalMatch this' again = None ->
      exists ds cs,
        TransactionPatternMatcher.findMatches this' again
        = {| TransactionPatternMatcher.debitMatches :=
               candidate debitId 0.9%Q "Vendor pattern match" :: ds;
             TransactionPatternMatcher.creditMatches :=
               candidate creditId 0.9%Q "Vendor pattern match" :: cs |}).
Proof.
  intros this' candidate. split.
  - intros Hsame.
    exact (historical_match_heads this transaction debitId creditId again Hsame).
  - intros Ht Ha Hsame Hnone.
    pose proof (vendor_match_heads this transaction debitId creditId again Ht Ha Hsame)
      as Hvendor.
    fold this' in Hvendor.
    unfold TransactionPatternMatcher.findMatches, TransactionPatternMatcher.exactMatches.
    rewrite Hnone, Hvendor.
    destruct (TransactionPatternMatcher.findSimilarDescriptionMatches this' again);
      simpl; eexists _, _; reflexivity.
Qed.

Lemma confirmed_pair_heads_the_lists_witness :
  let invoice :=
    Transaction.mk "tx-7" "Invoice 1041" (Some "Office Depot Inc") "2024-03-15"
      [Fixtures.entry "5200" debit "80.00"; Fixtures.entry "2000" credit "80.00"] in
  let next :=
    Transaction.mk "tx-8" "Invoice 1077" (Some " office depot inc") "2024-04-02"
      [Fixtures.entry "5200" debit "35.50"; Fixtures.entry "2000" credit "35.50"] in
  let this' :=
    TransactionPatternMatcher.learnFromTransaction TransactionPatternMatcher.initialize
      invoice "acc-5200" "acc-2000" in
  exists ds cs,
    @TransactionPatternMatcher.findMatches Fixtures.strict this' next
    = {| TransactionPatternMatcher.debitMatches :=
           {| TransactionPatternMatcher.accountId := "acc-5200";
              TransactionPatternMatcher.confidence := 0.9;
              TransactionPatternMatcher.reason := "Vendor pattern match" |} :: ds;
         TransactionPatternMatcher.creditMatches :=
           {| TransactionPatternMatcher.accountId := "acc-2000";
              TransactionPatternMatcher.confidence := 0.9;
              TransactionPatternMatcher.reason := "Vendor pattern match" |} :: cs |}.
Proof.
  intros invoice next this'.
  exact (proj2 (@confirmed_pair_heads_the_lists Fixtures.strict
                  TransactionPatternMatcher.initialize invoice next "acc-5200" "acc-2000")
               eq_refl eq_refl eq_refl eq_refl).
Defined.

(* ------------------------------------------------------------------ *)
(** * The account matcher, further *)

Lemma findDescriptionMatch_active `{Runtime} this description entryType amount c :
  AccountMatcher.findDescriptionMatch this description entryType amount = JS.Ok (Some c) ->
  Account.isActive c = true.
Proof.
  unfold AccountMatcher.findDescriptionMatch.
  destruct (AccountPatternBuilder.map_result _ _) as [scores|e] eqn:Escores;
    simpl; [|discriminate].
  destruct (JS.sort_desc AccountMatcher.score scores) as [|best rest] eqn:Esorted;
    [discriminate|].
  destruct (JS.gt (AccountMatcher.score best) 0.6); [|discriminate].
  intros E. injection E as <-.
  assert (Hbest : In best scores).
  { apply (sort_desc_In AccountMatcher.score). rewrite Esorted. now left. }
  destruct (map_result_In _ _ _ _ Escores Hbest) as (x & Hx & Hscore).
  apply scoreAccount_account in Hscore. rewrite Hscore.
  apply filter_In in Hx. tauto.
Qed.

(** X15. Whatever stage finds it, the account [findMatchingAccount] returns
    is an active account of the chart the matcher holds. *)
Theorem findMatchingAccount_active `{Runtime}
        (this : AccountMatcher.t) (entry : TransactionEntry.t)
        (transaction : Transaction.t) (a : Account.t) :
  AccountMatcher.findMatchingAccount this entry transaction = Some a ->
  In a (AccountMatcher.accounts this) /\ Account.isActive a = true.
Proof.
  intros E. apply findMatchingAccount_produces in E as [Hp _].
  split; [eapply produces_In; exact Hp|].
  destruct Hp as [c E | c _ E | c _ _ E].
  - apply find_some in E as [_ E]. now apply andb_prop in E.
  - apply find_some in E as [_ E]. now apply andb_prop in E.
  - now apply findDescriptionMatch_active in E.
Qed.

Lemma findMatchingAccount_active_witness :
  In Fixtures.supplies Fixtures.chart /\ Account.isActive Fixtures.supplies = true.
Proof.
  exact (@findMatchingAccount_active Fixtures.strict
           (AccountMatcher.initialize Fixtures.chart Fixtures.standard)
           (Fixtures.entry "5200" debit "500.00")
           (Fixtures.purchase "Payment for office supplies")
           Fixtures.supplies eq_refl).
Defined.

Lemma map_result_some_throw {A B} (f : A -> JS.result B) (l : list A) (x : A) (e : JS.exn) :
  In x l -> f x = JS.Throw e ->
  exists e', AccountPatternBuilder.map_result f l = JS.Throw e'.
Proof.
  induction l as [|y l IH]; simpl; [tauto|].
  intros [-> | Hx] Hfx.
  - rewrite Hfx. simpl. eauto.
  - destruct (f y) as [b|e0]; simpl; [|eauto].
    destruct (IH Hx Hfx) as (e' & ->). simpl. eauto.
Qed.

(** X16. The description stage compares the transaction's description with
    an account's name and description through the vector routine: when an
    active account's text has another length than the description, the stage
    fails, and an entry that no code match settles gets no account, in every
    runtime. *)
Theorem description_stage_needs_equal_lengths `{Runtime}
        (this : AccountMatcher.t) (entry : TransactionEntry.t)
        (transaction : Transaction.t) (account : Account.t) :
  AccountMatcher.findExactMatch this (TransactionEntry.accountNumber entry) = None ->
  AccountMatcher.findFuzzyCodeMatch this (TransactionEntry.accountNumber entry) = None ->
  In account (AccountMatcher.accounts this) ->
  Account.isActive account = true ->
  String.length (Transaction.description transaction)
  <> String.length (Account.name account ++ " "
                      ++ JS.or_empty (Account.description account)) ->
  AccountMatcher.findMatchingAccount this entry transaction = None.
Proof.
  intros E1 E2 Hin Hact Hlen.
  unfold AccountMatcher.findMatchingAccount, AccountMatcher.findMatchingAccount_try.
  rewrite E1, E2.
  unfold AccountMatcher.findDescriptionMatch.
  destruct (map_result_some_throw
              (AccountMatcher.scoreAccount this (Transaction.description transaction)
                 (TextProcessor.processText (Transaction.description transaction))
                 (TransactionEntry.type entry)
                 (parseFloat (TransactionEntry.amount entry)))
              (filter Account.isActive (AccountMatcher.accounts this))
              account (JS.Error "Vectors must have the same length")) as (e' & ->).
  - apply filter_In. auto.
  - unfold AccountMatcher.scoreAccount, SimilarityCalculator.calculateSimilarity.
    cbn [JS.length]. apply Nat.eqb_neq in Hlen.
    cbv zeta. rewrite Hlen. reflexivity.
  - reflexivity.
Qed.

Lemma description_stage_needs_equal_lengths_witness :
  @AccountMatcher.findMatchingAccount Fixtures.strict
    (AccountMatcher.initialize Fixtures.chart Fixtures.standard)
    (Fixtures.entry "" debit "500.00")
    (Fixtures.purchase "Office Supplies Office supplies expense!") = None.
Proof.
  apply (@description_stage_needs_equal_lengths Fixtures.strict
           (AccountMatcher.initialize Fixtures.chart Fixtures.standard)
           (Fixtures.entry "" debit "500.00")
           (Fixtures.purchase "Office Supplies Office supplies expense!")
           Fixtures.supplies eq_refl eq_refl).
  - right. right. now left.
  - reflexivity.
  - vm_compute. discriminate.
Defined.

Lemma extractAccountPatterns_nonempty (account : Account.t) :
  In (Account.subtype account) (AccountMatcher.extractAccountPatterns account)
  /\ In (Account.type account) (AccountMatcher.extractAccountPatterns account)
  /\ In (JS.toLowerCase (Account.code account))
        (AccountMatcher.extractAccountPatterns account)
  /\ NoDup (AccountMatcher.extractAccountPatterns account).
Proof.
  unfold AccountMatcher.extractAccountPatterns.
  set (base := JS.Set_add [] (JS.toLowerCase (Account.code account))).
  assert (Hbase : In (JS.toLowerCase (Account.code account)) base)
    by (apply Set_add_In; now right).
  assert (Hnd : NoDup base) by (apply Set_add_NoDup; constructor).
  set (named := fold_left JS.Set_add _ base).
  assert (Hnamed : In (JS.toLowerCase (Account.code account)) named
                   /\ NoDup named).
  { split; [apply fold_Set_add_In; now left | now apply fold_Set_add_NoDup]. }
  destruct (JS.truthy (Account.description account));
    repeat split; rewrite ?Set_add_In, ?fold_Set_add_In;
    auto 6 using Set_add_NoDup, fold_Set_add_NoDup;
    try tauto; repeat apply Set_add_NoDup; try apply fold_Set_add_NoDup; tauto.
Qed.

(** X17. With a cosine routine that needs arrays, as
    [compute-cosine-similarity] does, the description stage of
    [findMatchingAccount] never yields an account: scoring an account hands
    two strings to the vector routine and fails, whatever their lengths.  So
    an entry whose account number matches no code gets no account, and an
    account that is returned was found by the exact or by the fuzzy code
    stage. *)
Theorem description_stage_is_dead `{R : Runtime}
        (this : AccountMatcher.t) (entry : TransactionEntry.t)
        (transaction : Transaction.t) :
  cosine_needs_arrays R ->
  (forall description processed entryType amount account,
      exists e,
        AccountMatcher.scoreAccount this description processed entryType amount account
        = JS.Throw e)
  /\ (AccountMatcher.findExactMatch this (TransactionEntry.accountNumber entry) = None ->
      AccountMatcher.findFuzzyCodeMatch this (TransactionEntry.accountNumber entry) = None ->
      AccountMatcher.findMatchingAccount this entry transaction = None)
  /\ (forall a,
         AccountMatcher.findMatchingAccount this entry transaction = Some a ->
         AccountMatcher.findExactMatch this (TransactionEntry.accountNumber entry) = Some a
         \/ (AccountMatcher.findExactMatch this (TransactionEntry.accountNumber entry) = None
             /\ AccountMatcher.findFuzzyCodeMatch this (TransactionEntry.accountNumber entry)
                = Some a)).
Proof.
  intros Hneeds.
  assert (Hscore : forall description processed entryType amount account,
             exists e,
               AccountMatcher.scoreAccount this description processed entryType amount
                 account = JS.Throw e).
  { intros description processed entryType amount account.
    unfold AccountMatcher.scoreAccount.
    destruct (calculateSimilarity_strings description
                (Account.name account ++ " " ++ JS.or_empty (Account.description account))
                Hneeds) as [e ->].
    now exists e. }
  assert (Hnone :
            AccountMatcher.findExactMatch this (TransactionEntry.accountNumber entry) = None ->
            AccountMatcher.findFuzzyCodeMatch this (TransactionEntry.accountNumber entry)
            = None ->
            AccountMatcher.findMatchingAccount this entry transaction = None).
  { intros E1 E2.
    unfold AccountMatcher.findMatchingAccount, AccountMatcher.findMatchingAccount_try.
    rewrite E1, E2. unfold AccountMatcher.findDescriptionMatch.
    destruct (filter Account.isActive (AccountMatcher.accounts this)) as [|account rest];
      [reflexivity|].
    destruct (Hscore (Transaction.description transaction)
                (TextProcessor.processText (Transaction.description transaction))
                (TransactionEntry.type entry)
                (parseFloat (TransactionEntry.amount entry)) account) as [e He].
    cbn [AccountPatternBuilder.map_result]. rewrite He. reflexivity. }
  split; [exact Hscore|]. split; [exact Hnone|].
  intros a Ha.
  destruct (AccountMatcher.findExactMatch this (TransactionEntry.accountNumber entry))
    as [exactMatch|] eqn:E1.
  - left.
    unfold AccountMatcher.findMatchingAccount, AccountMatcher.findMatchingAccount_try in Ha.
    rewrite E1 in Ha. simpl in Ha. unfold AccountMatcher.validated in Ha.
    destruct (AccountMatcher.validateAccountMatch this exactMatch entry);
      [congruence | discriminate].
  - right. split; [reflexivity|].
    destruct (AccountMatcher.findFuzzyCodeMatch this (TransactionEntry.accountNumber entry))
      as [fuzzyMatch|] eqn:E2.
    + unfold AccountMatcher.findMatchingAccount, AccountMatcher.findMatchingAccount_try in Ha.
      rewrite E1, E2 in Ha. simpl in Ha. unfold AccountMatcher.validated in Ha.
      destruct (AccountMatcher.validateAccountMatch this fuzzyMatch entry);
        [congruence | discriminate].
    + rewrite (Hnone eq_refl eq_refl) in Ha. discriminate.
Qed.

(** X17, at work: a description that is, letter for letter, the text of the
    supplies account passes the length check and is still not matched. *)
Lemma description_stage_is_dead_witness :
  @AccountMatcher.findMatchingAccount Fixtures.strict
    (AccountMatcher.initialize Fixtures.chart Fixtures.standard)
    (Fixtures.entry "" debit "500.00")
    (Fixtures.purchase "Office Supplies Office supplies expense") = None.
Proof.
  destruct (@description_stage_is_dead Fixtures.strict
              (AccountMatcher.initialize Fixtures.chart Fixtures.standard)
              (Fixtures.entry "" debit "500.00")
              (Fixtures.purchase "Office Supplies Office supplies expense")
              strict_needs_arrays) as (_ & Hnone & _).
  exact (Hnone eq_refl eq_refl).
Defined.

Lemma drop_while_incl {A} (p : A -> bool) (l : list A) (x : A) :
  In x (JS.drop_while p l) -> In x l.
Proof.
  induction l as [|y l IH]; simpl; [tauto|].
  destruct (p y); [auto | simpl; tauto].
Qed.

Lemma drop_while_head {A} (p : A -> bool) (l : list A) :
  match JS.drop_while p l with
  | x :: _ => p x = false
  | [] => True
  end.
Proof.
  induction l as [|y l IH]; simpl; [exact I|].
  destruct (p y) eqn:E; [exact IH | exact E].
Qed.

Lemma drop_while_fixed {A} (p : A -> bool) (l : list A) :
  JS.drop_while p (JS.drop_while p l) = JS.drop_while p l.
Proof.
  pose proof (drop_while_head p l) as Hh.
  destruct (JS.drop_while p l) as [|x l']; [reflexivity|].
  simpl. now rewrite Hh.
Qed.

Lemma filter_fixed {A} (f : A -> bool) (l : list A) :
  (forall x, In x l -> f x = true) -> filter f l = l.
Proof.
  induction l as [|x l IH]; simpl; intros Hl; [reflexivity|].
  rewrite (Hl x) by now left. f_equal. apply IH. intros y Hy. apply Hl. now right.
Qed.

(** X18. The normal form the fuzzy stage compares holds digits only, does not
    begin with a zero, and is its own normal form: two codes that differ in
    punctuation, letters or leading zeros only are the same code to the
    fuzzy stage. *)
Theorem normalizeCode_normal_form (s : string) :
  (forall c, In c (JS.chars (AccountMatcher.normalizeCode s)) -> JS.is_digit c = true)
  /\ match JS.chars (AccountMatcher.normalizeCode s) with
     | c :: _ => JS.code c <> 48%nat
     | [] => True
     end
  /\ AccountMatcher.normalizeCode (AccountMatcher.normalizeCode s)
     = AccountMatcher.normalizeCode s.
Proof.
  unfold AccountMatcher.normalizeCode, JS.strip_leading_zeros, JS.keep_chars.
  rewrite !chars_str.
  set (digits := filter JS.is_digit (JS.chars s)).
  set (zero := fun c => Nat.eqb (JS.code c) 48).
  assert (Hdigits : forall c, In c (JS.drop_while zero digits) -> JS.is_digit c = true).
  { intros c Hc. apply drop_while_incl in Hc. apply filter_In in Hc. tauto. }
  split; [exact Hdigits|]. split.
  - pose proof (drop_while_head zero digits) as Hh.
    destruct (JS.drop_while zero digits) as [|c rest]; [exact I|].
    unfold zero in Hh. now apply Nat.eqb_neq.
  - rewrite (filter_fixed _ _ Hdigits). now rewrite drop_while_fixed.
Qed.

(** X19. The patterns [initialize] precomputes for an account hold each
    token once and always hold the lower-cased code, the type and the
    subtype, so an account never has an empty pattern list. *)
Theorem extractAccountPatterns_tokens (account : Account.t) :
  NoDup (AccountMatcher.extractAccountPatterns account)
  /\ In (JS.toLowerCase (Account.code account))
        (AccountMatcher.extractAccountPatterns account)
  /\ In (Account.type account) (AccountMatcher.extractAccountPatterns account)
  /\ In (Account.subtype account) (AccountMatcher.extractAccountPatterns account).
Proof.
  destruct (extractAccountPatterns_nonempty account) as (H1 & H2 & H3 & H4).
  repeat split; auto.
Qed.

(* ------------------------------------------------------------------ *)
(** * The feature extractor, further *)

Lemma is_multiple_iff (x : Q) (m : Z) :
  (0 < m)%Z ->
  (JS.is_multiple x m = true <-> exists z, x == inject_Z (z * m)).
Proof.
  intros Hm. unfold JS.is_multiple. rewrite Pos.eqb_eq.
  assert (Hm0 : ~ inject_Z m == 0).
  { change 0%Q with (inject_Z 0). rewrite inject_Z_injective. lia. }
  split.
  - intros Hden. exists (Qnum (Qred (x / inject_Z m))).
    pose proof (Qred_correct (x / inject_Z m)) as Hr.
    destruct (Qred (x / inject_Z m)) as [n d]. simpl in Hden. subst d. simpl.
    rewrite inject_Z_mult.
    change (n # 1) with (inject_Z n) in Hr. rewrite Hr. now field.
  - intros (z & Hz).
    assert (Hq : x / inject_Z m == inject_Z z).
    { rewrite Hz, inject_Z_mult. now field. }
    rewrite (Qred_complete _ _ Hq).
    pose proof (Qred_correct (inject_Z z)) as Hr.
    pose proof (gcd_Qred (inject_Z z)) as Hg.
    destruct (Qred (inject_Z z)) as [n d]. simpl in *.
    unfold Qeq in Hr. simpl in Hr. rewrite Z.mul_1_r in Hr. subst n.
    rewrite Z.gcd_comm, (Z.mul_comm z), Z.gcd_mul_diag_l in Hg by lia. lia.
Qed.

Lemma isCommonAmount_whole (amount : option Q) :
  TransactionFeatureExtractor.isCommonAmount amount = true ->
  TransactionFeatureExtractor.is_multiple amount 1 = true.
Proof.
  unfold TransactionFeatureExtractor.isCommonAmount,
    TransactionFeatureExtractor.is_multiple.
  destruct amount as [a|]; [|discriminate].
  intros Hc. apply is_multiple_iff; [lia|].
  apply orb_prop in Hc as [Hc | Hc].
  - simpl in Hc. unfold JS.number_eqb in Hc.
    repeat (apply orb_prop in Hc as [Hc | Hc];
            [apply Qeq_bool_eq in Hc;
             first [ exists 10%Z; exact Hc | exists 20%Z; exact Hc
                   | exists 50%Z; exact Hc | exists 100%Z; exact Hc
                   | exists 500%Z; exact Hc | exists 1000%Z; exact Hc ]|]).
    discriminate.
  - apply is_multiple_iff in Hc as (z & Hz); [|lia].
    exists (z * 100)%Z. rewrite Hz. now rewrite Z.mul_1_r.
Qed.

(** X20. A feature list that flags the amount as common also flags it as a
    whole number: the common amounts are 10, 20, 50, 100, 500, 1000 and the
    multiples of 100. *)
Theorem common_amount_is_whole `{Runtime} (transaction : Transaction.t) :
  In (TransactionFeature.mk "amount_type" (TransactionFeature.VStr "common_amount") 0.25)
     (TransactionFeatureExtractor.extractFeatures transaction) ->
  In (TransactionFeature.mk "amount_type" (TransactionFeature.VStr "whole_number") 0.25)
     (TransactionFeatureExtractor.extractFeatures transaction).
Proof.
  unfold TransactionFeatureExtractor.extractFeatures.
  rewrite !in_app_iff.
  intros [Hf | [Hf | [Hf | [Hf | [Hf | []]]]]].
  - apply with_weight_In in Hf as (Hw & _). discriminate Hw.
  - right. left.
    apply in_map_iff in Hf as (g & Hg & Hin).
    unfold TransactionFeatureExtractor.extractAmountFeatures in *.
    set (amount := match Transaction.find_entry transaction debit with
                   | Some e => parseFloat (TransactionEntry.amount e)
                   | None => Some 0%Q
                   end) in *.
    assert (Hcommon : TransactionFeatureExtractor.isCommonAmount amount = true).
    { rewrite !in_app_iff in Hin.
      destruct Hin as [[<- | []] | [Hin | Hin]]; [discriminate Hg | |].
      - destruct (TransactionFeatureExtractor.is_multiple amount 1); [|destruct Hin].
        destruct Hin as [<- | []]. discriminate Hg.
      - destruct (TransactionFeatureExtractor.isCommonAmount amount);
          [reflexivity | destruct Hin]. }
    rewrite (isCommonAmount_whole _ Hcommon).
    apply in_map_iff.
    exists (TransactionFeature.mk "amount_type"
              (TransactionFeature.VStr "whole_number") 1.2).
    split; [reflexivity|]. rewrite !in_app_iff. right. left. now left.
  - destruct (JS.truthy (Transaction.customerName transaction)); [|destruct Hf].
    apply with_weight_In in Hf as (Hw & _). discriminate Hw.
  - apply with_weight_In in Hf as (Hw & _). discriminate Hw.
  - discriminate Hf.
Qed.

Lemma common_amount_is_whole_witness :
  In (TransactionFeature.mk "amount_type" (TransactionFeature.VStr "whole_number") 0.25)
     (@TransactionFeatureExtractor.extractFeatures Fixtures.strict
        (Fixtures.purchase "Payment for office supplies")).
Proof.
  apply (@common_amount_is_whole Fixtures.strict
           (Fixtures.purchase "Payment for office supplies")).
  vm_compute. do 7 right. now left.
Defined.

Lemma word_pairs_length (words : list string) :
  List.length (TransactionFeatureExtractor.word_pairs words)
  = Nat.pred (List.length words).
Proof.
  induction words as [|w1 [|w2 rest] IH]; simpl in *; auto.
Qed.

(** X21. A description of n tokens yields n word features followed by n - 1
    pair features, and none when it has no token. *)
Theorem description_feature_count (description : string) :
  let n := List.length (TextProcessor.processText description) in
  List.length (TransactionFeatureExtractor.extractDescriptionFeatures description)
  = (n + Nat.pred n)%nat
  /\ map TransactionFeature.type
         (firstn n (TransactionFeatureExtractor.extractDescriptionFeatures description))
     = repeat "description_word" n
  /\ map TransactionFeature.type
         (skipn n (TransactionFeatureExtractor.extractDescriptionFeatures description))
     = repeat "description_word_pair" (Nat.pred n).
Proof.
  intros n. unfold TransactionFeatureExtractor.extractDescriptionFeatures.
  set (words := TextProcessor.processText description) in *.
  assert (Hn : List.length
                 (map (fun word => TransactionFeature.mk "description_word"
                                     (TransactionFeature.VStr word) 1) words) = n)
    by apply length_map.
  split; [|split].
  - rewrite length_app, Hn, word_pairs_length. reflexivity.
  - rewrite <- Hn at 1. rewrite firstn_app, firstn_all, Nat.sub_diag. simpl.
    rewrite app_nil_r, map_map. simpl. unfold n.
    clear. induction words; simpl; congruence.
  - rewrite <- Hn at 1. rewrite skipn_app, skipn_all, Nat.sub_diag. simpl.
    unfold n. clear.
    induction words as [|w1 [|w2 rest] IH]; simpl in *; congruence.
Qed.

(* ------------------------------------------------------------------ *)
(** * Amount and date patterns *)

(** X22. The two date classifiers agree: [findDatePattern] answers
    "month_start" or "month_end" exactly for the dates the feature extractor
    flags as a month boundary. *)
Theorem date_pattern_matches_boundary `{Runtime} (date : string) :
  TransactionFeatureExtractor.isMonthBoundary (newDate date) = true
  <-> AmountAndDate.findDatePattern date = "month_start"
      \/ AmountAndDate.findDatePattern date = "month_end".
Proof.
  unfold TransactionFeatureExtractor.isMonthBoundary, AmountAndDate.findDatePattern.
  replace (getMonth (newDate date) + 1 - 1)%Z with (getMonth (newDate date)) by lia.
  destruct (getDate (newDate date) =? 1)%Z; simpl; [tauto|].
  destruct (getDate (newDate date) =? _)%Z; simpl; [tauto|].
  split; [discriminate|].
  destruct (getDate (newDate date) <=? 5)%Z;
    [|destruct (25 <=? getDate (newDate date))%Z]; intros [E | E]; discriminate E.
Qed.

Lemma is_multiple_weaken (amount : option Q) (m k : Z) :
  (0 < m)%Z -> (0 < k)%Z ->
  TransactionFeatureExtractor.is_multiple amount (m * k) = true ->
  TransactionFeatureExtractor.is_multiple amount m = true.
Proof.
  intros Hm Hk. unfold TransactionFeatureExtractor.is_multiple.
  destruct amount as [a|]; [|discriminate].
  rewrite !is_multiple_iff by lia. intros (z & Hz).
  exists (z * k)%Z. rewrite Hz.
  replace (z * (m * k))%Z with (z * k * m)%Z by lia. reflexivity.
Qed.

(** X23. [findAmountPattern] answers "decimal" exactly for the amounts the
    feature extractor does not flag as whole numbers, and an amount it calls
    "zero", "thousand_multiple" or "hundred_multiple" is one the extractor
    flags as common. *)
Theorem amount_pattern_matches_flags (amount : option Q) :
  (AmountAndDate.findAmountPattern amount = "decimal"
   <-> TransactionFeatureExtractor.is_multiple amount 1 = false)
  /\ (AmountAndDate.findAmountPattern amount = "zero"
      \/ AmountAndDate.findAmountPattern amount = "thousand_multiple"
      \/ AmountAndDate.findAmountPattern amount = "hundred_multiple" ->
      TransactionFeatureExtractor.isCommonAmount amount = true).
Proof.
  assert (Hzero : match amount with Some a => JS.number_eqb a 0 | None => false end = true ->
                  TransactionFeatureExtractor.is_multiple amount 100 = true).
  { destruct amount as [a|]; [|discriminate]. intros E.
    apply Qeq_bool_eq in E. apply is_multiple_iff; [lia|]. exists 0%Z. exact E. }
  unfold AmountAndDate.findAmountPattern.
  destruct (match amount with Some a => JS.number_eqb a 0 | None => false end) eqn:E0.
  { specialize (Hzero eq_refl). split.
    - split; [discriminate|]. intros E.
      rewrite (is_multiple_weaken amount 1 100) in E by (auto; lia). discriminate.
    - intros _. unfold TransactionFeatureExtractor.isCommonAmount.
      rewrite Hzero. apply orb_true_r. }
  destruct (TransactionFeatureExtractor.is_multiple amount 1000) eqn:E1000.
  { pose proof (is_multiple_weaken amount 100 10 ltac:(lia) ltac:(lia) E1000) as E100.
    split.
    - split; [discriminate|]. intros E.
      rewrite (is_multiple_weaken amount 1 100) in E by (auto; lia). discriminate.
    - intros _. unfold TransactionFeatureExtractor.isCommonAmount.
      rewrite E100. apply orb_true_r. }
  destruct (TransactionFeatureExtractor.is_multiple amount 100) eqn:E100.
  { split.
    - split; [discriminate|]. intros E.
      rewrite (is_multiple_weaken amount 1 100) in E by (auto; lia). discriminate.
    - intros _. unfold TransactionFeatureExtractor.isCommonAmount.
      rewrite E100. apply orb_true_r. }
  destruct (TransactionFeatureExtractor.is_multiple amount 1) eqn:E1.
  - split; [split; discriminate|]. intros [E | [E | E]]; discriminate E.
  - split; [split; reflexivity|]. intros [E | [E | E]]; discriminate E.
Qed.

(* ------------------------------------------------------------------ *)
(** * The similarity cache *)

Lemma getCacheKey_sym (a b : string) :
  CachedSimilarity.getCacheKey a b = CachedSimilarity.getCacheKey b a.
Proof.
  unfold CachedSimilarity.getCacheKey, String.ltb.
  rewrite (String.compare_antisym a b).
  destruct (String.compare b a) eqn:E; simpl; try reflexivity.
  apply String.compare_eq_iff in E. now subst.
Qed.

(** X24. Whatever the string similarity is, once a pair of texts has been
    compared the cache answers the same value for the pair in either order,
    and leaves the cache as it is; a call adds at most one entry. *)
Theorem cache_replays_either_order `{Runtime}
        (cache cache' : JS.Map Q) (text1 text2 : string) (similarity : Q) :
  CachedSimilarity.calculateTextSimilarity cache text1 text2
  = JS.Ok (similarity, cache') ->
  CachedSimilarity.calculateTextSimilarity cache' text2 text1
  = JS.Ok (similarity, cache')
  /\ CachedSimilarity.calculateTextSimilarity cache' text1 text2
     = JS.Ok (similarity, cache')
  /\ (CachedSimilarity.getCacheSize cache
      <= CachedSimilarity.getCacheSize cache'
      <= S (CachedSimilarity.getCacheSize cache))%nat.
Proof.
  unfold CachedSimilarity.calculateTextSimilarity, CachedSimilarity.getCacheSize.
  rewrite (getCacheKey_sym text2 text1).
  destruct (JS.Map_get cache (CachedSimilarity.getCacheKey text1 text2)) as [v|] eqn:E.
  - intros E'. injection E' as <- <-. rewrite E. repeat split; auto.
  - simpl. intros E'. injection E' as <- <-.
    rewrite Map_get_set_same.
    pose proof (Map_set_length cache (CachedSimilarity.getCacheKey text1 text2)
                  (compareTwoStrings (JS.toLowerCase text1) (JS.toLowerCase text2))).
    repeat split; lia.
Qed.

Lemma cache_replays_either_order_witness :
  @CachedSimilarity.calculateTextSimilarity Fixtures.strict
    [("Rent|rent", 1%Q)] "rent" "Rent"
  = JS.Ok (1%Q, [("Rent|rent", 1%Q)]).
Proof.
  exact (proj1 (@cache_replays_either_order Fixtures.strict
                  [] [("Rent|rent", 1%Q)] "Rent" "rent" 1%Q eq_refl)).
Defined.

(* ------------------------------------------------------------------ *)
(** * The attempt counters *)

Lemma Map_delete_length {V} (m : JS.Map V) k v :
  JS.Map_get m k = Some v -> S (List.length (JS.Map_delete m k)) = List.length m.
Proof.
  induction m as [|[k' v'] m IH]; simpl; [discriminate|].
  destruct (String.eqb k' k); [reflexivity|].
  intros E. simpl. now rewrite IH.
Qed.

Lemma run_invariant (calls : list MappingLogger.call) :
  forall (this : MappingLogger.t) (returned : list Q),
    let a := MappingLogger.attempts this in
    (0 <= MappingLogger.successful a)%Z ->
    (0 <= MappingLogger.failed a)%Z ->
    (MappingLogger.successful a + MappingLogger.failed a
     + Z.of_nat (List.length (MappingLogger.startTimes this))
     <= MappingLogger.total a)%Z ->
    let this' := fst (MappingLogger.run calls this returned) in
    let a' := MappingLogger.attempts this' in
    (0 <= MappingLogger.successful a')%Z
    /\ (0 <= MappingLogger.failed a')%Z
    /\ (MappingLogger.successful a' + MappingLogger.failed a'
        + Z.of_nat (List.length (MappingLogger.startTimes this'))
        <= MappingLogger.total a')%Z
    /\ MappingLogger.total a'
       = (MappingLogger.total a
          + Z.of_nat (List.length
                        (filter (fun c => match c with
                                          | MappingLogger.Start _ _ => true
                                          | MappingLogger.Finish _ _ _ => false
                                          end) calls)))%Z.
Proof.
  induction calls as [|[transactionId now | transactionId success now] calls IH];
    intros this returned a; unfold a; clear a; intros Hs Hf Hle.
  - cbv zeta. simpl. split; [exact Hs|]. split; [exact Hf|]. split; [exact Hle|]. lia.
  - cbn [MappingLogger.run filter List.length].
    specialize (IH (MappingLogger.startAttempt this transactionId now) returned).
    cbv zeta in IH. cbn [MappingLogger.startAttempt MappingLogger.attempts
                           MappingLogger.startTimes MappingLogger.successful
                           MappingLogger.failed MappingLogger.total] in IH.
    pose proof (Map_set_length (MappingLogger.startTimes this) transactionId now) as Hlen.
    destruct IH as (H1 & H2 & H3 & H4); auto; [lia|].
    cbv zeta. repeat split; auto. rewrite H4. rewrite Nat2Z.inj_succ. lia.
  - cbn [MappingLogger.run filter].
    unfold MappingLogger.endAttempt.
    destruct (JS.Map_get (MappingLogger.startTimes this) transactionId)
      as [startTime|] eqn:Eget.
    2:{ apply (IH this (0%Q :: returned)); auto. }
    destruct (JS.number_eqb startTime 0).
    { apply (IH this (0%Q :: returned)); auto. }
    cbv zeta. set (a := MappingLogger.attempts this) in *.
    apply Map_delete_length in Eget.
    match goal with
    | |- context [MappingLogger.run calls ?s ?r] => specialize (IH s r)
    end.
    cbv zeta in IH. cbn [MappingLogger.attempts MappingLogger.startTimes
                           MappingLogger.successful MappingLogger.failed
                           MappingLogger.total] in IH.
    apply IH; clear IH; destruct success; lia.
Qed.

(** X25. From a cleared logger, after any sequence of [startAttempt] and
    [endAttempt] calls: the total is the number of starts; successes plus
    failures plus the attempts still pending never exceed the total (an end
    without a pending start counts nothing); and the success rate lies
    between 0 and 100. *)
Theorem attempt_counters_consistent (calls : list MappingLogger.call) :
  let this := fst (MappingLogger.run calls MappingLogger.clear []) in
  let a := MappingLogger.attempts this in
  MappingLogger.total a
  = Z.of_nat (List.length
                (filter (fun c => match c with
                                  | MappingLogger.Start _ _ => true
                                  | MappingLogger.Finish _ _ _ => false
                                  end) calls))
  /\ (0 <= MappingLogger.successful a)%Z
  /\ (0 <= MappingLogger.failed a)%Z
  /\ (MappingLogger.successful a + MappingLogger.failed a
      + Z.of_nat (List.length (MappingLogger.startTimes this))
      <= MappingLogger.total a)%Z
  /\ (0 <= MappingLogger.successRate (MappingLogger.getPerformanceMetrics this) <= 100)%Q.
Proof.
  intros this a.
  destruct (run_invariant calls MappingLogger.clear []) as (H1 & H2 & H3 & H4);
    simpl; try lia.
  fold this a in H1, H2, H3, H4. simpl in H4.
  repeat split; auto.
  - unfold MappingLogger.getPerformanceMetrics. fold a. simpl.
    destruct (0 <? MappingLogger.total a)%Z eqn:E; [|discriminate].
    apply Z.ltb_lt in E.
    apply Qmult_le_0_compat; [|discriminate].
    apply Qle_shift_div_l.
    + change 0%Q with (inject_Z 0). rewrite <- Zlt_Qlt. exact E.
    + rewrite Qmult_0_l. change 0%Q with (inject_Z 0). rewrite <- Zle_Qle. exact H1.
  - unfold MappingLogger.getPerformanceMetrics. fold a. simpl.
    destruct (0 <? MappingLogger.total a)%Z eqn:E; [|discriminate].
    apply Z.ltb_lt in E.
    assert (Hr : (inject_Z (MappingLogger.successful a)
                  / inject_Z (MappingLogger.total a) <= 1)%Q).
    { apply Qle_shift_div_r.
      - change 0%Q with (inject_Z 0). rewrite <- Zlt_Qlt. exact E.
      - rewrite Qmult_1_l. rewrite <- Zle_Qle. lia. }
    lra.
Qed.

(* ------------------------------------------------------------------ *)
(** * The feature-set matcher *)

Lemma weightOf_pos (this : PatternMatcher.t) (feature : string) :
  Forall (fun e => 0 <= snd e) (PatternMatcher.featureWeights this) ->
  0 < PatternMatcher.weightOf this feature.
Proof.
  intros Hw. unfold PatternMatcher.weightOf.
  destruct (JS.Map_get _ _) as [w|] eqn:E; [|reflexivity].
  unfold JS.number_eqb. destruct (Qeq_bool w 0) eqn:E0; [reflexivity|].
  apply Qeq_bool_neq in E0. apply Map_get_In in E.
  rewrite Forall_forall in Hw. specialize (Hw _ E). simpl in Hw.
  apply Qle_lteq in Hw. destruct Hw as [Hw|Hw]; [exact Hw|].
  exfalso. apply E0. symmetry. exact Hw.
Qed.

Lemma scoreSums_fold (this : PatternMatcher.t) (accountFeatures : list string) :
  Forall (fun e => 0 <= snd e) (PatternMatcher.featureWeights this) ->
  forall (transactionFeatures : list string) (s0 w0 : Q),
    0 <= s0 -> s0 <= w0 ->
    let sums :=
      fold_left
        (fun '(totalScore, totalWeight) feature =>
           let weight := PatternMatcher.weightOf this feature in
           ((if JS.array_includes accountFeatures feature
             then totalScore + weight else totalScore)%Q,
            (totalWeight + weight)%Q))
        transactionFeatures (s0, w0) in
    0 <= fst sums /\ fst sums <= snd sums /\ w0 <= snd sums
    /\ (transactionFeatures <> [] -> w0 < snd sums)
    /\ ((forall f, In f transactionFeatures -> JS.array_includes accountFeatures f = true) ->
        fst sums - s0 == snd sums - w0).
Proof.
  intros Hw. induction transactionFeatures as [|f tf IH]; intros s0 w0 H0 H1.
  - simpl. repeat split; auto.
    + apply Qle_refl.
    + intros C. now elim C.
    + intros _. ring.
  - cbn [fold_left]. cbv zeta in IH |- *.
    pose proof (weightOf_pos this f Hw) as Hpos.
    match goal with
    | |- context [fold_left _ tf (?s, ?w)] =>
        destruct (IH s w) as (A & B & C & _ & E)
    end.
    + destruct (JS.array_includes accountFeatures f); lra.
    + destruct (JS.array_includes accountFeatures f); lra.
    + repeat split; auto.
      * lra.
      * intros _. lra.
      * intros Hall.
        pose proof (E (fun g Hg => Hall g (or_intror Hg))) as E'.
        rewrite (Hall f (or_introl eq_refl)) in *. lra.
Qed.

Lemma calculateMatchScore_range (this : PatternMatcher.t)
      (transactionFeatures accountFeatures : list string) :
  Forall (fun e => 0 <= snd e) (PatternMatcher.featureWeights this) ->
  0 <= PatternMatcher.calculateMatchScore this transactionFeatures accountFeatures <= 1.
Proof.
  intros Hw. unfold PatternMatcher.calculateMatchScore, PatternMatcher.scoreSums.
  destruct (scoreSums_fold this accountFeatures Hw transactionFeatures 0 0)
    as (A & B & _); try apply Qle_refl.
  destruct (fold_left _ _ _) as [s w]. simpl in A, B.
  destruct (JS.gt w 0) eqn:G; [|split; discriminate].
  apply gt_true in G. split.
  - apply Qle_shift_div_l; [exact G|]. lra.
  - apply Qle_shift_div_r; [exact G|]. lra.
Qed.

Lemma calculateMatchScore_full (this : PatternMatcher.t)
      (transactionFeatures accountFeatures : list string) :
  Forall (fun e => 0 <= snd e) (PatternMatcher.featureWeights this) ->
  transactionFeatures <> [] ->
  (forall f, In f transactionFeatures -> JS.array_includes accountFeatures f = true) ->
  PatternMatcher.calculateMatchScore this transactionFeatures accountFeatures == 1.
Proof.
  intros Hw Hne Hall. unfold PatternMatcher.calculateMatchScore, PatternMatcher.scoreSums.
  destruct (scoreSums_fold this accountFeatures Hw transactionFeatures 0 0)
    as (_ & _ & _ & C & D); try apply Qle_refl.
  specialize (C Hne). specialize (D Hall).
  destruct (fold_left _ _ _) as [s w]. simpl in C, D.
  assert (G : JS.gt w 0 = true).
  { unfold JS.gt. apply Qlt_alt in C. apply Qgt_alt in C.
    now rewrite C. }
  rewrite G. assert (Hsw : s == w) by lra. rewrite Hsw.
  field. intros Z0. rewrite Z0 in C. now apply Qlt_irrefl in C.
Qed.

(** X27. With no negative feature weight (as after [initialize]), every
    match [findMatches] returns has a confidence above 0 and at most 1, names
    an account of the feature table, and the list is ordered by
    non-increasing confidence. *)
Theorem feature_matches_ranked `{Runtime} (this : PatternMatcher.t)
        (transaction : Transaction.t)
        (Hweights : Forall (fun e => 0 <= snd e) (PatternMatcher.featureWeights this)) :
  let matches := PatternMatcher.findMatches this transaction in
  Forall (fun m =>
            0 < PatternMatcher.confidence m <= 1
            /\ In (PatternMatcher.accountId m)
                  (map fst (PatternMatcher.accountFeatures this))) matches
  /\ StronglySorted (fun a b => b <= a) (map PatternMatcher.confidence matches).
Proof.
  intros matches. split.
  - apply Forall_forall. intros m Hm.
    unfold matches, PatternMatcher.findMatches in Hm.
    apply sort_desc_In in Hm. apply in_flat_map in Hm.
    destruct Hm as ([accountId accountFeatures] & Hin & Hm).
    pose proof (calculateMatchScore_range this
                  (PatternMatcher.featureSetOf transaction) accountFeatures Hweights)
      as [_ Hle].
    destruct (JS.gt _ 0) eqn:G; [|now elim Hm].
    apply gt_true in G.
    destruct Hm as [<-|[]]. simpl. repeat split; auto.
    apply in_map_iff. now exists (accountId, accountFeatures).
  - unfold matches, PatternMatcher.findMatches.
    apply (StronglySorted_map
             (fun a b => PatternMatcher.confidence b <= PatternMatcher.confidence a));
      [auto | apply sort_desc_sorted].
Qed.

Lemma feature_matches_ranked_witness :
  let this := @PatternMatcher.initialize PatternMatcher.fresh Fixtures.chart in
  Forall (fun e => 0 <= snd e) (PatternMatcher.featureWeights this)
  /\ Forall (fun m =>
               0 < PatternMatcher.confidence m <= 1
               /\ In (PatternMatcher.accountId m)
                     (map fst (PatternMatcher.accountFeatures this)))
            (@PatternMatcher.findMatches Fixtures.strict this (Fixtures.purchase "Office supplies")).
Proof.
  cbv zeta.
  assert (Hw : Forall (fun e => 0 <= snd e)
                 (PatternMatcher.featureWeights
                    (PatternMatcher.initialize PatternMatcher.fresh Fixtures.chart))).
  { repeat constructor; discriminate. }
  split; [exact Hw|].
  exact (proj1 (@feature_matches_ranked Fixtures.strict _ (Fixtures.purchase "Office supplies") Hw)).
Defined.

Lemma featureSetOf_nonempty `{Runtime} (transaction : Transaction.t) :
  PatternMatcher.featureSetOf transaction <> [].
Proof.
  unfold PatternMatcher.featureSetOf, JS.Set_of.
  set (keys := map _ _).
  assert (Hk : exists k, In k keys).
  { unfold keys, TransactionFeatureExtractor.extractFeatures.
    eexists. apply in_map. rewrite !in_app_iff. do 4 right. left. reflexivity. }
  destruct Hk as [k Hk]. intros E.
  assert (Hin : In k (fold_left JS.Set_add keys [])).
  { apply fold_Set_add_In. now right. }
  rewrite E in Hin. exact Hin.
Qed.

(** X28. Learning raises the learned account to a full score: with no
    negative feature weight, after [learnFromMatch] on a transaction and an
    account id, [findMatches] on that transaction lists that account with
    confidence 1, whatever the account's feature set was before. *)
Theorem learned_match_scores_one `{Runtime} (this : PatternMatcher.t)
        (transaction : Transaction.t) (accountId : string)
        (Hweights : Forall (fun e => 0 <= snd e) (PatternMatcher.featureWeights this)) :
  exists m,
    In m (PatternMatcher.findMatches
            (PatternMatcher.learnFromMatch this transaction accountId) transaction)
    /\ PatternMatcher.accountId m = accountId
    /\ PatternMatcher.confidence m == 1.
Proof.
  set (this' := PatternMatcher.learnFromMatch this transaction accountId).
  set (keys := map TransactionFeature.key
                 (TransactionFeatureExtractor.extractFeatures transaction)).
  set (known := match JS.Map_get (PatternMatcher.accountFeatures this) accountId with
                | Some known => known
                | None => []
                end).
  set (learned := fold_left JS.Set_add keys known).
  assert (Hget : In (accountId, learned) (PatternMatcher.accountFeatures this')).
  { apply Map_get_In. unfold this', PatternMatcher.learnFromMatch. simpl.
    apply Map_get_set_same. }
  assert (Hscore : PatternMatcher.calculateMatchScore this'
                     (PatternMatcher.featureSetOf transaction) learned == 1).
  { apply calculateMatchScore_full.
    - exact Hweights.
    - apply featureSetOf_nonempty.
    - intros f Hf. apply array_includes_In.
      unfold learned. apply fold_Set_add_In. right.
      unfold PatternMatcher.featureSetOf, JS.Set_of in Hf. fold keys in Hf.
      apply fold_Set_add_In in Hf. destruct Hf as [[]|Hf]. exact Hf. }
  exists {| PatternMatcher.accountId := accountId;
            PatternMatcher.confidence :=
              PatternMatcher.calculateMatchScore this'
                (PatternMatcher.featureSetOf transaction) learned;
            PatternMatcher.features := PatternMatcher.featureSetOf transaction |}.
  simpl. repeat split; auto.
  unfold PatternMatcher.findMatches. apply sort_desc_In.
  apply in_flat_map. exists (accountId, learned). split; [exact Hget|].
  assert (G : JS.gt (PatternMatcher.calculateMatchScore this'
                       (PatternMatcher.featureSetOf transaction) learned) 0 = true).
  { unfold JS.gt.
    assert (L : 0 < PatternMatcher.calculateMatchScore this'
                      (PatternMatcher.featureSetOf transaction) learned)
      by (rewrite Hscore; reflexivity).
    apply Qlt_alt in L. apply Qgt_alt in L. now rewrite L. }
  rewrite G. now left.
Qed.

Lemma learned_match_scores_one_witness :
  exists m,
    In m (@PatternMatcher.findMatches Fixtures.strict
            (@PatternMatcher.learnFromMatch Fixtures.strict
               (PatternMatcher.initialize PatternMatcher.fresh Fixtures.chart)
               (Fixtures.purchase "Office supplies") "acc-5200")
            (Fixtures.purchase "Office supplies"))
    /\ PatternMatcher.accountId m = "acc-5200"
    /\ PatternMatcher.confidence m == 1.
Proof.
  assert (Hw : Forall (fun e => 0 <= snd e)
                 (PatternMatcher.featureWeights
                    (PatternMatcher.initialize PatternMatcher.fresh Fixtures.chart))).
  { repeat constructor; discriminate. }
  exact (@learned_match_scores_one Fixtures.strict _ (Fixtures.purchase "Office supplies") "acc-5200" Hw).
Defined.

(* ------------------------------------------------------------------ *)
(** * What auto-mapping applies *)

Lemma autoMapOne_applied `{Runtime} (orchestrator : MappingOrchestrator.t)
      (transaction : Transaction.t) (debitId creditId : string) :
  TransactionStore.autoMapOne orchestrator transaction = Some (debitId, creditId) ->
  (exists a b q,
      RAGMapper.mapTransaction (MappingOrchestrator.ragMapper orchestrator) transaction
      = MappingResult.mk (Some (FullAccount a)) (Some (FullAccount b)) q
      /\ (0.8 < q)%Q
      /\ debitId = Account.id a /\ creditId = Account.id b)
  \/ (exists p,
         headPair (TransactionPatternMatcher.findMatches
                     (MappingOrchestrator.transactionPatternMatcher orchestrator)
                     transaction) = Some p
         /\ (0.7 < pairConfidence p)%Q
         /\ debitId = TransactionPatternMatcher.accountId (fst p)
         /\ creditId = TransactionPatternMatcher.accountId (snd p)).
Proof.
  unfold TransactionStore.autoMapOne.
  destruct (MappingOrchestrator.mapTransaction orchestrator transaction)
    as [[result entry]|e] eqn:E; [|discriminate].
  intros Es.
  pose proof (mapTransaction_initialized _ _ _ E) as Hinit.
  destruct (cascade_cases orchestrator transaction Hinit)
    as (result' & entry' & E' & _ & _ & Hpat & Hpat' & _ & _ & _ & _).
  rewrite E in E'. injection E' as <- <-.
  destruct (cascade_result _ _ _ _ E)
    as [(_ & Hres & Hlt) | [(Hm & _) | [(_ & Hc) | (_ & Hres)]]].
  - left.
    destruct (RAG_mapTransaction_shape
                (MappingOrchestrator.ragMapper orchestrator) transaction)
      as [Hu | (a & b & q & Hr & _)].
    + rewrite Hres, Hu in Hlt. discriminate.
    + rewrite Hres, Hr in Es, Hlt. simpl in Es, Hlt.
      destruct (JS.gt q 0.7); [|discriminate].
      injection Es as <- <-. exists a, b, q. auto.
  - right. destruct (Hpat' Hm) as (p & Hp & Hres).
    destruct (proj1 Hpat Hm) as (_ & p' & Hp' & Hlt).
    rewrite Hp in Hp'. injection Hp' as <-.
    rewrite Hres in Es. simpl in Es.
    destruct (JS.gt (pairConfidence p) 0.7); [|discriminate].
    injection Es as <- <-. exists p. auto.
  - rewrite Hc in Es. discriminate.
  - rewrite Hres in Es. discriminate.
Qed.

(** X29. What [autoMapTransactions] applies, in every runtime.  The ids
    handed to [updateTransactionMapping] are those of a RAG result whose
    confidence is above 0.8, or the heads of the two candidate lists of the
    pattern matcher, with a smaller confidence above 0.7: a result of the
    account matcher, whose confidence is 0.6, is never applied.  The loop runs
    on an orchestrator that was just initialised, whose pattern tables are
    empty: there a mapping is applied exactly when the RAG stage clears its
    bar of 0.8, and it is the RAG pair. *)
Theorem autoMap_applies_rag_only `{Runtime} (orchestrator : MappingOrchestrator.t)
        (accounts : list Account.t) (standard : AccountingStandard.t)
        (transaction : Transaction.t) :
  (forall debitId creditId,
      TransactionStore.autoMapOne orchestrator transaction = Some (debitId, creditId) ->
      (exists a b q,
          RAGMapper.mapTransaction (MappingOrchestrator.ragMapper orchestrator) transaction
          = MappingResult.mk (Some (FullAccount a)) (Some (FullAccount b)) q
          /\ (0.8 < q)%Q
          /\ debitId = Account.id a /\ creditId = Account.id b)
      \/ (exists p,
             headPair (TransactionPatternMatcher.findMatches
                         (MappingOrchestrator.transactionPatternMatcher orchestrator)
                         transaction) = Some p
             /\ (0.7 < pairConfidence p)%Q
             /\ debitId = TransactionPatternMatcher.accountId (fst p)
             /\ creditId = TransactionPatternMatcher.accountId (snd p)))
  /\ (forall debitId creditId,
         TransactionStore.autoMapOne
           (MappingOrchestrator.initialize orchestrator accounts standard) transaction
         = Some (debitId, creditId)
         <-> exists a b q,
             RAGMapper.mapTransaction (RAGMapper.initialize accounts standard) transaction
             = MappingResult.mk (Some (FullAccount a)) (Some (FullAccount b)) q
             /\ (0.8 < q)%Q
             /\ debitId = Account.id a /\ creditId = Account.id b).
Proof.
  split.
  - intros debitId creditId. apply autoMapOne_applied.
  - intros debitId creditId. split.
    + intros E. apply autoMapOne_applied in E.
      destruct E as [Hrag | (p & Hp & _)]; [exact Hrag|].
      simpl in Hp. rewrite findMatches_initialize in Hp. discriminate.
    + intros (a & b & q & Hr & Hlt & -> & ->).
      unfold TransactionStore.autoMapOne, MappingOrchestrator.mapTransaction.
      cbn [MappingOrchestrator.initialize MappingOrchestrator.initialized
             MappingOrchestrator.ragMapper negb].
      rewrite Hr. cbn [MappingResult.confidence].
      assert (G8 : JS.gt q 0.8 = true) by now apply gt_true.
      assert (G7 : JS.gt q 0.7 = true) by (apply gt_true; lra).
      rewrite G8. cbn [JS.try_catch MappingResult.confidence
                         MappingResult.debitAccount MappingResult.creditAccount].
      rewrite G7. reflexivity.
Qed.

(* ------------------------------------------------------------------ *)
(** * The pattern table of the account pattern builder *)

Lemma fold_Map_set_get {A V} (key : A -> string) (val : A -> V) (l : list A) :
  forall (start : JS.Map V) (k : string),
    let result := fold_left (fun m a => JS.Map_set m (key a) (val a)) l start in
    (exists a, In a l /\ key a = k /\ JS.Map_get result k = Some (val a))
    \/ ((forall a, In a l -> key a <> k) /\ JS.Map_get result k = JS.Map_get start k).
Proof.
  induction l as [|a l IH]; intros start k; cbv zeta.
  - right. split; [intros a []|reflexivity].
  - cbn [fold_left].
    destruct (IH (JS.Map_set start (key a) (val a)) k) as [(b & Hb & Hk & Hget) | (Hno & Hget)].
    + left. exists b. split; [now right|]. auto.
    + destruct (String.eqb (key a) k) eqn:E.
      * apply String.eqb_eq in E. left. exists a. split; [now left|].
        split; [exact E|]. rewrite Hget, <- E. apply Map_get_set_same.
      * apply String.eqb_neq in E. right. split.
        -- intros b [<-|Hb]; [exact E | now apply Hno].
        -- rewrite Hget. now apply Map_get_set_other.
Qed.

(** X30. [buildPatterns] gives every account of the chart a pattern, built
    from an account of the chart with that id, whose vector has one entry per
    token of the new vocabulary; it removes nothing: a pattern stored under an
    id that is not in the chart stays as it was, with the vector it got from
    an earlier vocabulary. *)
Theorem buildPatterns_table (this : AccountPatternBuilder.t) (accounts : list Account.t) :
  let built := AccountPatternBuilder.buildPatterns this accounts in
  (forall account, In account accounts ->
     exists source,
       In source accounts /\ Account.id source = Account.id account
       /\ JS.Map_get (AccountPatternBuilder.patterns built) (Account.id account)
          = Some (AccountPatternBuilder.createPattern
                    (AccountPatternBuilder.vocabulary built) source)
       /\ List.length (AccountPatternBuilder.vector
                         (AccountPatternBuilder.createPattern
                            (AccountPatternBuilder.vocabulary built) source))
          = List.length (AccountPatternBuilder.vocabulary built))
  /\ (forall accountId, ~ In accountId (map Account.id accounts) ->
        JS.Map_get (AccountPatternBuilder.patterns built) accountId
        = JS.Map_get (AccountPatternBuilder.patterns this) accountId).
Proof.
  intros built. unfold built, AccountPatternBuilder.buildPatterns. simpl.
  set (vocabulary := AccountPatternBuilder.buildVocabulary accounts).
  split.
  - intros account Hin.
    destruct (fold_Map_set_get Account.id (AccountPatternBuilder.createPattern vocabulary)
                accounts (AccountPatternBuilder.patterns this) (Account.id account))
      as [(source & Hs & Hid & Hget) | (Hno & _)].
    + exists source. repeat split; auto. apply createVector_length.
    + exfalso. now apply (Hno account Hin).
  - intros accountId Hnot.
    destruct (fold_Map_set_get Account.id (AccountPatternBuilder.createPattern vocabulary)
                accounts (AccountPatternBuilder.patterns this) accountId)
      as [(source & Hs & Hid & _) | (_ & Hget)].
    + exfalso. apply Hnot. rewrite <- Hid. now apply in_map.
    + exact Hget.
Qed.

(* ------------------------------------------------------------------ *)
(** * What the pattern matcher can propose *)

(** X26. With a cosine routine that needs arrays, as
    [compute-cosine-similarity] does, and tables filled by confirmed
    mappings, [findMatches] proposes the exact candidates and nothing else:
    the similarity scan hands two strings to the vector routine and fails as
    soon as one description is stored, so no similar-description and no
    frequency candidate is ever returned; each list has at most the
    historical and the vendor candidate. *)
Theorem findMatches_only_exact `{R : Runtime}
        (this : TransactionPatternMatcher.t) (transaction : Transaction.t) :
  cosine_needs_arrays R ->
  learned this ->
  let matches := TransactionPatternMatcher.findMatches this transaction in
  matches = TransactionPatternMatcher.exactMatches this transaction
  /\ (forall m, In m (candidates matches) ->
                (TransactionPatternMatcher.reason m = "Historical pattern match"
                 /\ TransactionPatternMatcher.confidence m = 0.95%Q)
                \/ (TransactionPatternMatcher.reason m = "Vendor pattern match"
                    /\ TransactionPatternMatcher.confidence m = 0.9%Q))
  /\ (List.length (TransactionPatternMatcher.debitMatches matches) <= 2)%nat
  /\ (List.length (TransactionPatternMatcher.creditMatches matches) <= 2)%nat.
Proof.
  intros Hneeds Hlearned matches.
  assert (E : matches = TransactionPatternMatcher.exactMatches this transaction)
    by now apply learned_findMatches_exact.
  split; [exact E|]. rewrite E. clear E matches.
  unfold candidates, TransactionPatternMatcher.exactMatches.
  destruct (TransactionPatternMatcher.findHistoricalMatch this transaction);
    destruct (TransactionPatternMatcher.findVendorMatch this transaction); simpl;
    repeat split; try lia; intuition (subst; simpl; auto).
Qed.

Lemma findMatches_only_exact_witness :
  let this :=
    TransactionPatternMatcher.learnFromTransaction TransactionPatternMatcher.initialize
      (Fixtures.purchase "Paper") "acc-5200" "acc-2000" in
  @TransactionPatternMatcher.findMatches Fixtures.strict this (Fixtures.purchase "Toner")
  = TransactionPatternMatcher.exactMatches this (Fixtures.purchase "Toner").
Proof.
  intros this.
  assert (Hlearned : learned this) by (apply learned_step; apply learned_initialize).
  exact (proj1 (@findMatches_only_exact Fixtures.strict this (Fixtures.purchase "Toner")
                  strict_needs_arrays Hlearned)).
Defined.

(* ------------------------------------------------------------------ *)
(** * Confidence ranges *)

Lemma indexOf_absent (l : list string) (x : string) :
  ~ In x l -> JS.indexOf l x = None.
Proof.
  intros Hx. pose proof (indexOf_spec l x) as Hspec.
  destruct (JS.indexOf l x) as [i|]; [|reflexivity].
  destruct Hspec as [_ Hin]. apply array_includes_In in Hin. contradiction.
Qed.

(** A text without a token of the vocabulary gives the zero vector. *)
Lemma createVector_no_token (text : string) (vocabulary : list string) :
  (forall w, In w (TextProcessor.processText text) -> ~ In w vocabulary) ->
  TextProcessor.createVector text vocabulary = repeat 0%Z (List.length vocabulary).
Proof.
  unfold TextProcessor.createVector.
  generalize (repeat 0%Z (List.length vocabulary)) as vector.
  induction (TextProcessor.processText text) as [|w words IH]; intros vector Hw;
    [reflexivity|].
  simpl. rewrite (indexOf_absent vocabulary w) by (apply Hw; now left).
  apply IH. intros w' Hw'. apply Hw. now right.
Qed.

(** The usage counts are not clamped: a description learned twice gives its
    two accounts the frequency 2 against a table of one description, and
    [getFrequencyBasedMatches] scores them 0.5 + 2 / (2 * 1).  [findMatches]
    adds these candidates only after the similarity scan, which fails as soon
    as a description is stored. *)
Lemma frequency_confidence_unclamped :
  let this :=
    TransactionPatternMatcher.learnFromTransaction
      (TransactionPatternMatcher.learnFromTransaction TransactionPatternMatcher.initialize
         (Fixtures.purchase "Paper") "acc-5200" "acc-2000")
      (Fixtures.purchase "paper ") "acc-5200" "acc-2000" in
  map TransactionPatternMatcher.accountId
      (TransactionPatternMatcher.getFrequencyBasedMatches this)
  = ["acc-5200"; "acc-2000"]
  /\ Forall (fun m => (TransactionPatternMatcher.confidence m == 1.5)%Q)
            (TransactionPatternMatcher.getFrequencyBasedMatches this).
Proof.
  split; [reflexivity|].
  repeat constructor.
Qed.

(** C3, as the code has it.  With a cosine routine that needs arrays and
    pattern tables filled by confirmed mappings: [findMatches] returns the
    exact candidates only, so each of its candidates has confidence 0.95 or
    0.9; the account stage answers with 0.6 or 0; and what [mapTransaction]
    returns is the RAG result or has confidence 0.95, 0.9, 0.6 or 0.  The
    confidence of the RAG mapper is not kept in any range by the code: when
    the result names accounts it is the smaller of two answers of the cosine
    routine, one multiplied by 1.2 or 0.8 and the other by 0.8 or 1.2; and
    for a transaction whose text has no token of the vocabulary the vector
    handed to the routine is the zero vector, whose norm the routine divides
    by. *)
Theorem confidence_ranges `{R : Runtime}
        (this : MappingOrchestrator.t) (transaction : Transaction.t) :
  cosine_needs_arrays R ->
  learned (MappingOrchestrator.transactionPatternMatcher this) ->
  let rag := MappingOrchestrator.ragMapper this in
  let ragResult := RAGMapper.mapTransaction rag transaction in
  let embedding :=
    RAGMapper.createTransactionEmbedding rag transaction
      (TransactionFeatureExtractor.extractFeatures transaction) in
  (forall m,
      In m (candidates (TransactionPatternMatcher.findMatches
                          (MappingOrchestrator.transactionPatternMatcher this)
                          transaction)) ->
      TransactionPatternMatcher.confidence m = 0.95%Q
      \/ TransactionPatternMatcher.confidence m = 0.9%Q)
  /\ (MappingResult.confidence (MappingOrchestrator.tryAccountMatching this transaction)
      = 0.6%Q
      \/ MappingResult.confidence (MappingOrchestrator.tryAccountMatching this transaction)
         = 0%Q)
  /\ (forall result entry,
         MappingOrchestrator.mapTransaction this transaction = JS.Ok (result, entry) ->
         (message entry = "RAG mapping successful" /\ result = ragResult)
         \/ MappingResult.confidence result = 0.95%Q
         \/ MappingResult.confidence result = 0.9%Q
         \/ MappingResult.confidence result = 0.6%Q
         \/ MappingResult.confidence result = 0%Q)
  /\ (ragResult = MappingResult.unmapped
      \/ exists debitSide creditSide qd qc bd bc,
          In debitSide (RAGMapper.accountEmbeddings rag)
          /\ In creditSide (RAGMapper.accountEmbeddings rag)
          /\ computeCosineSimilarity (JS.Arr embedding) (JS.Arr (snd debitSide))
             = JS.Ok qd
          /\ computeCosineSimilarity (JS.Arr embedding) (JS.Arr (snd creditSide))
             = JS.Ok qc
          /\ ((bd = 1.2 /\ bc = 0.8) \/ (bd = 0.8 /\ bc = 1.2)
              \/ (bd = 0.8 /\ bc = 0.8))%Q
          /\ MappingResult.confidence ragResult = Qmin (qd * bd) (qc * bc))
  /\ ((forall w, In w (TextProcessor.processText (embeddedText transaction)) ->
                 ~ In w (RAGMapper.vocabulary rag)) ->
      embedding = repeat 0%Z (List.length (RAGMapper.vocabulary rag))).
Proof.
  intros Hneeds Hlearned rag ragResult embedding.
  assert (Hcand : forall m,
             In m (candidates (TransactionPatternMatcher.findMatches
                                 (MappingOrchestrator.transactionPatternMatcher this)
                                 transaction)) ->
             TransactionPatternMatcher.confidence m = 0.95%Q
             \/ TransactionPatternMatcher.confidence m = 0.9%Q).
  { intros m. rewrite (learned_findMatches_exact _ transaction Hneeds Hlearned).
    apply exactMatches_confidence. }
  split; [exact Hcand|]. split.
  { rewrite tryAccountMatching_eq.
    destruct (resolvedPair _ transaction) as [[a b]|]; simpl; auto. }
  split.
  { intros result entry E.
    destruct (cascade_result _ _ _ _ E)
      as [(Hm & Hres & _) | [(_ & p & Hp & Hc) | [(_ & Hc) | (_ & ->)]]].
    - left. auto.
    - right. destruct (headPair_In _ _ Hp) as [Hd Hcr].
      rewrite Hc. unfold pairConfidence.
      destruct (Hcand _ Hd) as [-> | ->]; destruct (Hcand _ Hcr) as [-> | ->];
        first [left; reflexivity | right; left; reflexivity].
    - rewrite Hc. auto.
    - simpl. auto. }
  split; [apply RAG_confidence_value|].
  intros Hno. apply createVector_no_token. exact Hno.
Qed.

(** C3, at work: after one confirmed mapping, a purchase described "Zzz" has
    no token of the vocabulary of the chart, and the vector the RAG mapper
    hands to the cosine routine, once per account, is the zero vector. *)
Lemma confidence_ranges_witness :
  let this :=
    MappingOrchestrator.learnFromTransaction Fixtures.ready
      (Fixtures.purchase "Office Depot supplies") "acc-5200" "acc-2000" in
  RAGMapper.createTransactionEmbedding
    (MappingOrchestrator.ragMapper this) (Fixtures.purchase "Zzz")
    (@TransactionFeatureExtractor.extractFeatures Fixtures.strict (Fixtures.purchase "Zzz"))
  = repeat 0%Z (List.length (RAGMapper.vocabulary (MappingOrchestrator.ragMapper this)))
  /\ List.length (RAGMapper.accountEmbeddings (MappingOrchestrator.ragMapper this)) = 3%nat.
Proof.
  intros this.
  assert (Hlearned : learned (MappingOrchestrator.transactionPatternMatcher this))
    by (apply learned_step; apply learned_initialize).
  destruct (@confidence_ranges Fixtures.strict this (Fixtures.purchase "Zzz")
              strict_needs_arrays Hlearned) as (_ & _ & _ & _ & Hzero).
  split; [|reflexivity].
  apply Hzero. intros w Hw Hin.
  vm_compute in Hw.
  repeat (destruct Hw as [<- | Hw];
          [vm_compute in Hin; repeat (destruct Hin as [Hin | Hin]; [discriminate|]);
           exact Hin|]).
  exact Hw.
Defined.
